(** * Paperless scanner bridge: scan orchestration and document sessions

    A shallow embedding of the scanner registry ([ScannerManager],
    src/scanner-manager.ts), the scan pipeline ([scanPage], the server's
    entry file) and the document-session store ([DocumentSessionManager],
    src/document-session.ts), and the properties their specification
    states about them.

    Conventions of the embedding.
    - JavaScript strings are [string]s of ASCII characters; code units
      above 127 are outside the model.
    - Numbers are integers ([Z]); dates are milliseconds since the epoch.
    - The process, the clock, the file system, the id generator and the
      external commands form one [World]; every method is a function in
      the state-and-exception monad [M] over it.  A [throw] keeps the
      state reached so far, as in JavaScript.
    - External commands are answered by an oracle indexed by the number
      of commands run so far; a command writes only to the output it was
      given (its redirection target, its batch pattern or its [-o] file),
      and that output is taken not to be the path of a directory.
    - The file system holds regular files and directories, each with the
      stats [statSync] reports.  [readdirSync] lists both; the order of
      its entries is that of the operating system, and the model lists the
      regular files first, then the sub-directories.  [statSync] and
      [existsSync] accept a directory, [unlinkSync] and [readFileSync]
      reject it.  Other failures, of permission or I/O, are not modelled,
      and neither is a rename of or onto a directory.
    - Log lines have no effect on any result and are left out.
    - Page objects live in a heap and sessions hold references to them, so
      that an object listed twice in a page array is one object. *)

From Stdlib Require Import ZArith String Ascii List Bool Lia.
From Stdlib Require Import Sorting.Sorted Sorting.Permutation.
From Stdlib Require Import DecimalString DecimalPos DecimalZ.
From stdpp Require Import base list.
Import ListNotations.

Local Open Scope string_scope.
Local Open Scope Z_scope.

(* ===================================================================== *)
(** ** JavaScript string primitives used by the sources                   *)
(* ===================================================================== *)

Module JS.

(** WhiteSpace and LineTerminator code points below 128: what [trim] strips
    and what [\s] matches. *)
Definition isSpace (c : ascii) : bool :=
  let n := nat_of_ascii c in
  ((9 <=? n)%nat && (n <=? 13)%nat) || (n =? 32)%nat.

Definition toLowerChar (c : ascii) : ascii :=
  let n := nat_of_ascii c in
  if ((65 <=? n)%nat && (n <=? 90)%nat)%bool then ascii_of_nat (n + 32) else c.

Definition toUpperChar (c : ascii) : ascii :=
  let n := nat_of_ascii c in
  if ((97 <=? n)%nat && (n <=? 122)%nat)%bool then ascii_of_nat (n - 32) else c.

Fixpoint mapChars (f : ascii -> ascii) (s : string) : string :=
  match s with
  | EmptyString => EmptyString
  | String c s' => String (f c) (mapChars f s')
  end.

Definition toLowerCase : string -> string := mapChars toLowerChar.
Definition toUpperCase : string -> string := mapChars toUpperChar.

(** [s.startsWith(p)] *)
Fixpoint startsWith (s p : string) : bool :=
  match p, s with
  | EmptyString, _ => true
  | String a p', String b s' => Ascii.eqb a b && startsWith s' p'
  | String _ _, EmptyString => false
  end.

(** [s.includes(sub)] *)
Fixpoint includes (s sub : string) : bool :=
  startsWith s sub ||
  match s with
  | EmptyString => false
  | String _ s' => includes s' sub
  end.

Fixpoint rev_onto (s acc : string) : string :=
  match s with
  | EmptyString => acc
  | String c s' => rev_onto s' (String c acc)
  end.

Definition reverse (s : string) : string := rev_onto s EmptyString.

(** [s.endsWith(p)] *)
Definition endsWith (s p : string) : bool := startsWith (reverse s) (reverse p).

Fixpoint trimStart (s : string) : string :=
  match s with
  | String c s' => if isSpace c then trimStart s' else s
  | EmptyString => EmptyString
  end.

Definition trimEnd (s : string) : string := reverse (trimStart (reverse s)).

Definition trim (s : string) : string := trimEnd (trimStart s).

(** A string is falsy exactly when it is empty. *)
Definition truthy (s : string) : bool :=
  match s with EmptyString => false | _ => true end.

(** [s.split(c)] for a one-character separator: never the empty list. *)
Fixpoint splitChar (sep : ascii) (s : string) : list string :=
  match s with
  | EmptyString => [EmptyString]
  | String c s' =>
      if Ascii.eqb c sep then EmptyString :: splitChar sep s'
      else match splitChar sep s' with
           | w :: ws => String c w :: ws
           | [] => [String c EmptyString]
           end
  end.

(** [s.split(/\s+/)]: the separators are the maximal runs of white space. *)
Fixpoint splitSpacesFrom (inSeparator : bool) (s : string) : list string :=
  match s with
  | EmptyString => [EmptyString]
  | String c s' =>
      if isSpace c
      then if inSeparator then splitSpacesFrom true s'
           else EmptyString :: splitSpacesFrom true s'
      else match splitSpacesFrom false s' with
           | w :: ws => String c w :: ws
           | [] => [String c EmptyString]
           end
  end.

Definition splitSpaces : string -> list string := splitSpacesFrom false.

(** [l.join(sep)] *)
Fixpoint join (sep : string) (l : list string) : string :=
  match l with
  | [] => EmptyString
  | [x] => x
  | x :: rest => x ++ sep ++ join sep rest
  end.

Definition strlen (s : string) : Z := Z.of_nat (String.length s).

(** [s.slice(start, end)] with the relative-index rule for negatives. *)
Definition slice (s : string) (start stop : Z) : string :=
  let len := strlen s in
  let from := if start <? 0 then Z.max (len + start) 0 else Z.min start len in
  let to := if stop <? 0 then Z.max (len + stop) 0 else Z.min stop len in
  String.substring (Z.to_nat from) (Z.to_nat (Z.max (to - from) 0)) s.

(** [s.slice(start)] *)
Definition sliceFrom (s : string) (start : Z) : string :=
  slice s start (strlen s).

Fixpoint lastIndexFrom (c : ascii) (s : string) (i : Z) (found : Z) : Z :=
  match s with
  | EmptyString => found
  | String a s' => lastIndexFrom c s' (i + 1) (if Ascii.eqb a c then i else found)
  end.

(** [s.lastIndexOf(c)], [-1] when [c] does not occur. *)
Definition lastIndexOf (s : string) (c : ascii) : Z := lastIndexFrom c s 0 (-1).

Definition digitVal (radix : Z) (c : ascii) : option Z :=
  let n := Z.of_nat (nat_of_ascii c) in
  let v := if (48 <=? n) && (n <=? 57) then n - 48
           else if (97 <=? n) && (n <=? 122) then n - 87
           else if (65 <=? n) && (n <=? 90) then n - 55
           else radix in
  if v <? radix then Some v else None.

Fixpoint digits (radix : Z) (s : string) (acc : option Z) : option Z :=
  match s with
  | EmptyString => acc
  | String c s' =>
      match digitVal radix c with
      | Some v => digits radix s' (Some (match acc with Some a => a * radix + v | None => v end))
      | None => acc
      end
  end.

(** [parseInt(s)] without a radix argument; [None] is NaN. *)
Definition parseInt (s : string) : option Z :=
  let t := trimStart s in
  let '(sign, t) :=
    match t with
    | String "-" r => (-1, r)
    | String "+" r => (1, r)
    | _ => (1, t)
    end in
  let '(radix, t) :=
    match t with
    | String "0" (String "x" r) => (16, r)
    | String "0" (String "X" r) => (16, r)
    | _ => (10, t)
    end in
  match digits radix t None with
  | Some n => Some (sign * n)
  | None => None
  end.

(** [String(n)] for an integer. *)
Definition ofZ (n : Z) : string := NilZero.string_of_int (Z.to_int n).

Fixpoint zeros (n : nat) : string :=
  match n with
  | O => EmptyString
  | S n' => String "0" (zeros n')
  end.

(** Decimal digits of [n >= 0], left-padded with zeros to [width]. *)
Definition pad (width : nat) (n : Z) : string :=
  let s := ofZ n in zeros (width - String.length s) ++ s.

(** [new Date(ms).toISOString()], for years 0 to 9999. *)
Definition toISOString (ms : Z) : string :=
  let days := ms / 86400000 in
  let rest := ms mod 86400000 in
  let z := days + 719468 in
  let era := z / 146097 in
  let doe := z - era * 146097 in
  let yoe := (doe - doe / 1460 + doe / 36524 - doe / 146096) / 365 in
  let doy := doe - (365 * yoe + yoe / 4 - yoe / 100) in
  let mp := (5 * doy + 2) / 153 in
  let d := doy - (153 * mp + 2) / 5 + 1 in
  let m := if mp <? 10 then mp + 3 else mp - 9 in
  let y := yoe + era * 400 + (if m <=? 2 then 1 else 0) in
  pad 4 y ++ "-" ++ pad 2 m ++ "-" ++ pad 2 d ++ "T" ++
  pad 2 (rest / 3600000) ++ ":" ++ pad 2 (rest / 60000 mod 60) ++ ":" ++
  pad 2 (rest / 1000 mod 60) ++ "." ++ pad 3 (rest mod 1000) ++ "Z".

(** [s.replace(/[:.]/g, "-")] *)
Definition dashColonsDots : string -> string :=
  mapChars (fun c => if (Ascii.eqb c ":" || Ascii.eqb c ".")%bool then "-"%char else c).

(** [Array.prototype.sort(cmp)]: the stable sort the language mandates.
    [cmp a b] is the comparator's number, [None] for NaN (taken as 0). *)
Section Sort.
Context {A : Type} (cmp : A -> A -> option Z).

Definition before (a b : A) : bool :=
  match cmp a b with
  | Some n => n <=? 0
  | None => true
  end.

Fixpoint insert (a : A) (l : list A) : list A :=
  match l with
  | [] => [a]
  | b :: l' => if before a b then a :: b :: l' else b :: insert a l'
  end.

Fixpoint sort (l : list A) : list A :=
  match l with
  | [] => []
  | a :: l' => insert a (sort l')
  end.
End Sort.

(** [a - b] on numbers that may be NaN. *)
Definition minus (a b : option Z) : option Z :=
  match a, b with
  | Some x, Some y => Some (x - y)
  | _, _ => None
  end.

End JS.

(* ===================================================================== *)
(** ** Backtracking regular expressions (the fragment the parser uses)    *)
(* ===================================================================== *)

Module Regex.

Inductive regex : Type :=
| Chr (p : ascii -> bool)            (* one character satisfying [p] *)
| Eps
| Seq (r1 r2 : regex)
| Alt (r1 r2 : regex)                (* [r1|r2], left first *)
| Star (greedy : bool) (r : regex)   (* [r*] and [r*?] *)
| Group (n : nat) (r : regex)        (* capturing group number [n] *)
| End.                              (* [$] without the m flag *)

Definition captures := list (nat * string).

Definition capture (n : nat) (c : captures) : option string :=
  match List.find (fun e => (fst e =? n)%nat) c with
  | Some e => Some (snd e)
  | None => None
  end.

Definition consumed (s s' : string) : string :=
  String.substring 0 (String.length s - String.length s') s.

(** [run r s caps k]: match [r] at the head of [s], then continue with [k]
    on the rest; alternatives are tried in the priority order of a
    backtracking matcher, and an iteration of a star must consume input. *)
Fixpoint run (r : regex) (s : string) (caps : captures)
    (k : string -> captures -> option captures) {struct r} : option captures :=
  match r with
  | Chr p =>
      match s with
      | String c s' => if p c then k s' caps else None
      | EmptyString => None
      end
  | Eps => k s caps
  | Seq r1 r2 => run r1 s caps (fun s1 c1 => run r2 s1 c1 k)
  | Alt r1 r2 =>
      match run r1 s caps k with
      | Some c => Some c
      | None => run r2 s caps k
      end
  | Star greedy r1 =>
      (fix star (n : nat) (s : string) (caps : captures) {struct n} : option captures :=
         match n with
         | O => k s caps
         | S n' =>
             let more :=
               run r1 s caps (fun s1 c1 =>
                 if (String.length s1 <? String.length s)%nat
                 then star n' s1 c1 else None) in
             if greedy
             then match more with Some c => Some c | None => k s caps end
             else match k s caps with Some c => Some c | None => more end
         end) (String.length s) s caps
  | Group n r1 =>
      run r1 s caps (fun s1 c1 => k s1 ((n, consumed s s1) :: c1))
  | End =>
      match s with
      | EmptyString => k s caps
      | String _ _ => None
      end
  end.

(** [s.match(r)] without the g flag: the leftmost match. *)
Fixpoint search (r : regex) (s : string) : option captures :=
  match run r s [] (fun _ c => Some c) with
  | Some c => Some c
  | None =>
      match s with
      | EmptyString => None
      | String _ s' => search r s'
      end
  end.

(** Builders. *)
Definition chr (c : ascii) : regex := Chr (Ascii.eqb c).
(** a literal character under the i flag *)
Definition chri (c : ascii) : regex :=
  Chr (fun x => Ascii.eqb (JS.toLowerChar x) (JS.toLowerChar c)).
Fixpoint liti (s : string) : regex :=
  match s with
  | EmptyString => Eps
  | String c EmptyString => chri c
  | String c s' => Seq (chri c) (liti s')
  end.
Definition plus (r : regex) : regex := Seq r (Star true r).
Definition lazyPlus (r : regex) : regex := Seq r (Star false r).
Definition opt (r : regex) : regex := Alt r Eps.
Definition ws : regex := Chr JS.isSpace.
(** [.] : anything but a line terminator *)
Definition dot : regex :=
  Chr (fun c => negb (Ascii.eqb c "010" || Ascii.eqb c "013")).
Definition noneOf (cs : string) : regex :=
  Chr (fun c => negb (JS.includes cs (String c EmptyString))).
Fixpoint seqs (l : list regex) : regex :=
  match l with
  | [] => Eps
  | [r] => r
  | r :: l' => Seq r (seqs l')
  end.
Fixpoint alts (l : list regex) : regex :=
  match l with
  | [] => Chr (fun _ => false)
  | [r] => r
  | r :: l' => Alt r (alts l')
  end.

(** A literal without the i flag. *)
Fixpoint lit (s : string) : regex :=
  match s with
  | EmptyString => Eps
  | String c EmptyString => chr c
  | String c s' => Seq (chr c) (lit s')
  end.

(** [s.match(r)] as a condition, for a pattern that begins with [^] and
    has no m flag: only a match at the start of [s] counts. *)
Definition matchesFromStart (r : regex) (s : string) : bool :=
  match run r s [] (fun _ c => Some c) with
  | Some _ => true
  | None => false
  end.

(** What follows a match of [r] at the head of [s]. *)
Definition restAfter (r : regex) (s : string) : option string :=
  match run r s [] (fun rest _ => Some [(O, rest)]) with
  | Some ((_, rest) :: _) => Some rest
  | _ => None
  end.

(** [s.replace(r, repl)] without the g flag, for a replacement text without
    [$]: the leftmost match is replaced. *)
Fixpoint replace (r : regex) (s repl : string) : string :=
  match restAfter r s with
  | Some rest => repl ++ rest
  | None =>
      match s with
      | EmptyString => EmptyString
      | String c s' => String c (replace r s' repl)
      end
  end.

End Regex.

(* ===================================================================== *)
(** ** Data model                                                         *)
(* ===================================================================== *)

(** [ScannerInfo] (src/scanner-manager.ts). *)
Record ScannerInfo : Type := mkScannerInfo {
  device : string;
  vendor : string;
  model : string;
  type : string;
  available : bool
}.

(** [Settings]: optional fields are [option]s, [None] for undefined. *)
Record Settings : Type := mkSettings {
  paperlessApiUrl : string;
  paperlessApiToken : string;
  scanOutputDir : string;
  scanResolution : Z;
  defaultTags : list string;
  scannerDeviceUrl : option string;
  pageWidth : option Z;
  pageHeight : option Z;
  source : option string;
  duplex : option bool;
  swskip : option Z;
  outputFormat : string
}.

(** [PageInfo] and [DocumentSession] (src/document-session.ts).  A session
    lists its pages as references into the heap of page objects. *)
Record PageInfo : Type := mkPageInfo {
  id : string;
  filename : string;
  filepath : string;
  timestamp : Z;
  size : Z;
  pageNumber : Z
}.

Definition ref := nat.

Record DocumentSession : Type := mkDocumentSession {
  sessionId : string;
  name : string;
  pages : list ref;
  created : Z;
  modified : Z
}.

(** A regular file: what [statSync] reports, and the document pdf-lib
    reads from its bytes ([None] when it cannot load them).  A directory
    has the same record, for what [statSync] reports of it, and no
    document. *)
Record File : Type := mkFile {
  fileSize : Z;
  fileMtime : Z;
  filePdf : option (list nat)
}.

(** How an external command ended: [promisify(exec)] resolves with the two
    output streams or rejects with an [Error] carrying a message. *)
Inductive ExecStatus : Type :=
| Exited (stdout stderr : string)
| Rejected (message : string).

(** One answer of the environment to a command: its status, the files it
    left in its output location (size and content, in order), and the time
    it took. *)
Record ExecResult : Type := mkExecResult {
  status : ExecStatus;
  outputs : list (Z * option (list nat));
  elapsed : Z
}.

(** Where a command line sends its output. *)
Inductive Target : Type :=
| NoOutput
| Redirect (path : string)                (* [cmd > "path"] *)
| Batch (before after : string)           (* [--batch="before%dafter"] *)
| OutFile (path : string).                (* [-o "path"] *)

Record World : Type := mkWorld {
  (* the process and its environment *)
  settings : Settings;                    (* settingsManager.get() *)
  platform : string;                      (* process.platform *)
  clock : Z;                              (* Date.now() *)
  dirs : list (string * File);            (* path |-> directory, in listing order *)
  files : list (string * File);           (* path |-> regular file, in listing order *)
  oracle : nat -> ExecResult;             (* answer to the n-th command *)
  execLog : list string;                  (* commands run so far *)
  idOracle : nat -> string;               (* value of the n-th generateId() *)
  idCalls : nat;
  pdfSize : list nat -> Z;                (* byte length of a saved PDF *)
  (* ScannerManager *)
  cachedScanner : option ScannerInfo;
  lastSuccessfulScan : option Z;
  (* DocumentSessionManager *)
  sessions : list (string * DocumentSession);   (* Map, in insertion order *)
  heap : list PageInfo
}.

Definition with_clock (t : Z) (w : World) : World :=
  mkWorld (settings w) (platform w) t (dirs w) (files w) (oracle w) (execLog w)
          (idOracle w) (idCalls w) (pdfSize w) (cachedScanner w)
          (lastSuccessfulScan w) (sessions w) (heap w).
Definition with_files (f : list (string * File)) (w : World) : World :=
  mkWorld (settings w) (platform w) (clock w) (dirs w) f (oracle w) (execLog w)
          (idOracle w) (idCalls w) (pdfSize w) (cachedScanner w)
          (lastSuccessfulScan w) (sessions w) (heap w).
Definition with_execLog (l : list string) (w : World) : World :=
  mkWorld (settings w) (platform w) (clock w) (dirs w) (files w) (oracle w) l
          (idOracle w) (idCalls w) (pdfSize w) (cachedScanner w)
          (lastSuccessfulScan w) (sessions w) (heap w).
Definition with_idCalls (n : nat) (w : World) : World :=
  mkWorld (settings w) (platform w) (clock w) (dirs w) (files w) (oracle w)
          (execLog w) (idOracle w) n (pdfSize w) (cachedScanner w)
          (lastSuccessfulScan w) (sessions w) (heap w).
Definition with_cachedScanner (s : option ScannerInfo) (w : World) : World :=
  mkWorld (settings w) (platform w) (clock w) (dirs w) (files w) (oracle w)
          (execLog w) (idOracle w) (idCalls w) (pdfSize w) s
          (lastSuccessfulScan w) (sessions w) (heap w).
Definition with_lastSuccessfulScan (t : option Z) (w : World) : World :=
  mkWorld (settings w) (platform w) (clock w) (dirs w) (files w) (oracle w)
          (execLog w) (idOracle w) (idCalls w) (pdfSize w) (cachedScanner w)
          t (sessions w) (heap w).
Definition with_sessions (s : list (string * DocumentSession)) (w : World) : World :=
  mkWorld (settings w) (platform w) (clock w) (dirs w) (files w) (oracle w)
          (execLog w) (idOracle w) (idCalls w) (pdfSize w) (cachedScanner w)
          (lastSuccessfulScan w) s (heap w).
Definition with_heap (h : list PageInfo) (w : World) : World :=
  mkWorld (settings w) (platform w) (clock w) (dirs w) (files w) (oracle w)
          (execLog w) (idOracle w) (idCalls w) (pdfSize w) (cachedScanner w)
          (lastSuccessfulScan w) (sessions w) h.

(* ===================================================================== *)
(** ** The monad of methods: state and exceptions                         *)
(* ===================================================================== *)

Inductive Outcome (A : Type) : Type :=
| Return (a : A)
| Throw (message : string).
Arguments Return {A} a.
Arguments Throw {A} message.

Definition M (A : Type) : Type := World -> Outcome A * World.

Definition ret {A} (a : A) : M A := fun w => (Return a, w).
Definition throw {A} (message : string) : M A := fun w => (Throw message, w).
Definition bind {A B} (m : M A) (k : A -> M B) : M B :=
  fun w => match m w with
           | (Return a, w') => k a w'
           | (Throw e, w') => (Throw e, w')
           end.
(** [try { m } catch (e) { h(e.message) }] *)
Definition try_catch {A} (m : M A) (h : string -> M A) : M A :=
  fun w => match m w with
           | (Return a, w') => (Return a, w')
           | (Throw e, w') => h e w'
           end.
Definition gets {A} (f : World -> A) : M A := fun w => (Return (f w), w).
Definition modify (f : World -> World) : M unit := fun w => (Return tt, f w).

Declare Scope method_scope.
Delimit Scope method_scope with method.
Bind Scope method_scope with M.
Notation "x <- m ;; k" := (bind m (fun x => k))
  (at level 100, m at next level, right associativity) : method_scope.
Notation "m ;; k" := (bind m (fun _ => k))
  (at level 100, right associativity) : method_scope.
Local Open Scope method_scope.

(** [for (const x of l) body(x)] *)
Fixpoint forEach {A} (l : list A) (body : A -> M unit) : M unit :=
  match l with
  | [] => ret tt
  | x :: l' => body x ;; forEach l' body
  end.

(** [l.map(f)] with an effectful callback, left to right. *)
Fixpoint mapM {A B} (f : A -> M B) (l : list A) : M (list B) :=
  match l with
  | [] => ret []
  | x :: l' => y <- f x ;; ys <- mapM f l' ;; ret (y :: ys)
  end.

(** [`${err}`] for a caught [Error]. *)
Definition errorToString (message : string) : string := "Error: " ++ message.

(* ===================================================================== *)
(** ** Environment primitives: clock, file system, child processes        *)
(* ===================================================================== *)

Definition now : M Z := gets clock.

(** [await new Promise(resolve => setTimeout(resolve, ms))] *)
Definition sleep (ms : Z) : M unit := modify (fun w => with_clock (clock w + ms) w).

(** [path.join(dir, name)] for a normalised [dir]. *)
Definition path_join (dir name : string) : string := dir ++ "/" ++ name.

(** ["${s}"] inside a command line. *)
Definition quoted (s : string) : string :=
  String "034" EmptyString ++ s ++ String "034" EmptyString.

Definition lookupFile (p : string) (fs : list (string * File)) : option File :=
  match List.find (fun e => String.eqb (fst e) p) fs with
  | Some e => Some (snd e)
  | None => None
  end.

Definition removeFile (p : string) (fs : list (string * File)) : list (string * File) :=
  List.filter (fun e => negb (String.eqb (fst e) p)) fs.

Definition writeFile (p : string) (f : File) (fs : list (string * File)) : list (string * File) :=
  removeFile p fs ++ [(p, f)].

(** The rest of [p] after the prefix [pre]. *)
Fixpoint stripPrefix (pre p : string) : option string :=
  match pre, p with
  | EmptyString, _ => Some p
  | String a pre', String b p' => if Ascii.eqb a b then stripPrefix pre' p' else None
  | String _ _, EmptyString => None
  end.

(** The entry name of [p] when [p] lies directly in [dir]. *)
Definition entryName (dir p : string) : option string :=
  match stripPrefix (dir ++ "/") p with
  | Some n => if JS.includes n "/" then None else Some n
  | None => None
  end.

Fixpoint listing (dir : string) (fs : list (string * File)) : list string :=
  match fs with
  | [] => []
  | (p, _) :: fs' =>
      match entryName dir p with
      | Some n => n :: listing dir fs'
      | None => listing dir fs'
      end
  end.

Definition isDir (p : string) (w : World) : bool :=
  match lookupFile p (dirs w) with
  | Some _ => true
  | None => false
  end.

(** The sub-directories of [dir], by name.  A path names a regular file
    first: every primitive looks a path up among the files before the
    directories. *)
Definition subdirs (dir : string) (w : World) : list string :=
  List.filter
    (fun n => match lookupFile (path_join dir n) (files w) with
              | Some _ => false
              | None => true
              end)
    (listing dir (dirs w)).

(** The entries of [dir] as [readdirSync] returns them: regular files and
    sub-directories alike.  The order is the one of the operating system;
    here the files come first, then the sub-directories, each in the order
    of its table. *)
Definition dirEntries (dir : string) (w : World) : list string :=
  (listing dir (files w) ++ subdirs dir w)%list.

Definition existsSync (p : string) : M bool :=
  gets (fun w => match lookupFile p (files w) with
                 | Some _ => true
                 | None => isDir p w
                 end).

Definition enoent (call p : string) : string :=
  "ENOENT: no such file or directory, " ++ call ++ " '" ++ p ++ "'".

(** The error of [unlink] on a directory: EISDIR on Linux, EPERM
    elsewhere. *)
Definition unlinkDirError (os p : string) : string :=
  if String.eqb os "linux"
  then "EISDIR: illegal operation on a directory, unlink '" ++ p ++ "'"
  else "EPERM: operation not permitted, unlink '" ++ p ++ "'".

Definition readDirError : string := "EISDIR: illegal operation on a directory, read".

Definition enotdir (call p : string) : string :=
  "ENOTDIR: not a directory, " ++ call ++ " '" ++ p ++ "'".

Definition readdirSync (dir : string) : M (list string) :=
  isdir <- gets (isDir dir) ;;
  if isdir then gets (dirEntries dir)
  else
    f <- gets (fun w => lookupFile dir (files w)) ;;
    match f with
    | Some _ => throw (enotdir "scandir" dir)
    | None => throw (enoent "scandir" dir)
    end.

(** [fs.statSync(p)]: the stats of a regular file or of a directory. *)
Definition statSync (p : string) : M File :=
  f <- gets (fun w => lookupFile p (files w)) ;;
  match f with
  | Some f => ret f
  | None =>
      d <- gets (fun w => lookupFile p (dirs w)) ;;
      match d with
      | Some d => ret d
      | None => throw (enoent "stat" p)
      end
  end.

(** [fs.readFileSync(p)] *)
Definition readFileSync (p : string) : M File :=
  f <- gets (fun w => lookupFile p (files w)) ;;
  match f with
  | Some f => ret f
  | None =>
      isdir <- gets (isDir p) ;;
      if isdir then throw readDirError else throw (enoent "open" p)
  end.

Definition unlinkSync (p : string) : M unit :=
  f <- gets (fun w => lookupFile p (files w)) ;;
  match f with
  | Some _ => modify (fun w => with_files (removeFile p (files w)) w)
  | None =>
      isdir <- gets (isDir p) ;;
      os <- gets platform ;;
      if isdir then throw (unlinkDirError os p) else throw (enoent "unlink" p)
  end.

Definition renameSync (from to : string) : M unit :=
  f <- gets (fun w => lookupFile from (files w)) ;;
  match f with
  | Some f => modify (fun w => with_files (writeFile to f (removeFile from (files w))) w)
  | None => throw (enoent "rename" from)
  end.

(** The page that pdf-lib adds to a document without pages when it saves
    it (the default of [addDefaultPage]): a blank one. *)
Definition blankPage : nat := O.

(** [await doc.save()]: the pages of the document as it is written. *)
Definition savedPdf (doc : list nat) : list nat :=
  match doc with
  | [] => [blankPage]
  | _ :: _ => doc
  end.

(** [fs.writeFileSync(p, bytes)] of a saved PDF document. *)
Definition writePdfSync (p : string) (doc : list nat) : M unit :=
  modify (fun w => with_files
    (writeFile p (mkFile (pdfSize w doc) (clock w) (Some doc)) (files w)) w).

(** The files a finished command leaves behind, by its output location. *)
Fixpoint batchFiles (before after : string) (index : Z) (t : Z)
    (outs : list (Z * option (list nat))) (fs : list (string * File))
    : list (string * File) :=
  match outs with
  | [] => fs
  | (sz, doc) :: outs' =>
      batchFiles before after (index + 1) t outs'
        (writeFile (before ++ JS.ofZ index ++ after) (mkFile sz t doc) fs)
  end.

Definition applyOutputs (target : Target) (t : Z)
    (outs : list (Z * option (list nat))) (fs : list (string * File))
    : list (string * File) :=
  match target with
  | NoOutput => fs
  | Redirect p | OutFile p =>
      match outs with
      | (sz, doc) :: _ => writeFile p (mkFile sz t doc) fs
      | [] => fs
      end
  | Batch before after => batchFiles before after 1 t outs fs
  end.

(** [await execAsync(cmd)] *)
Definition exec (cmd : string) (target : Target) : M (string * string) :=
  fun w =>
    let r := oracle w (length (execLog w)) in
    let t := clock w + elapsed r in
    let w' := with_files (applyOutputs target t (outputs r) (files w))
                (with_clock t (with_execLog (execLog w ++ [cmd]) w)) in
    match status r with
    | Exited out err => (Return (out, err), w')
    | Rejected message => (Throw message, w')
    end.

(* ===================================================================== *)
(** ** SettingsManager (settings.ts)                                      *)
(* ===================================================================== *)

Module SettingsManager.

Definition DEFAULT_SETTINGS : Settings :=
  mkSettings "http://192.168.177.168:8000" EmptyString "/tmp" 300
    ["scanned"; "automated"] (Some EmptyString) (Some 0) (Some 0)
    (Some EmptyString) (Some false) (Some 0) "tiff".

(** [{ valid, errors }] *)
Record Validation : Type := mkValidation {
  valid : bool;
  errors : list string
}.

(** [/^https?:\/\/.+/], the leading [^] apart. *)
Definition urlRegex : Regex.regex :=
  Regex.seqs
    [ Regex.lit "http"; Regex.opt (Regex.chr "s"); Regex.lit "://";
      Regex.plus Regex.dot ].

Definition outputFormats : list string := ["pdf"; "tiff"; "png"; "jpeg"].

(** [validate()] on the settings [st]: every failed check pushes its
    message, in this order. *)
Definition validate (st : Settings) : Validation :=
  let errors :=
    ((if negb (JS.truthy (paperlessApiUrl st))
      then ["Paperless API URL is required"]
      else if negb (Regex.matchesFromStart urlRegex (paperlessApiUrl st))
      then ["Paperless API URL must be a valid HTTP/HTTPS URL"]
      else [])
     ++ (if negb (JS.truthy (paperlessApiToken st))
         then ["Paperless API Token is required"] else [])
     ++ (if negb (JS.truthy (scanOutputDir st))
         then ["Scan output directory is required"] else [])
     ++ (if (scanResolution st <? 75) || (1200 <? scanResolution st)
         then ["Scan resolution must be between 75 and 1200 DPI"] else [])
     ++ (if JS.truthy (outputFormat st) &&
            negb (List.existsb (String.eqb (outputFormat st)) outputFormats)
         then ["Output format must be one of: pdf, tiff, png, jpeg"] else []))%list in
  mkValidation (length errors =? 0)%nat errors.

(** [/\/$/] *)
Definition trailingSlash : Regex.regex := Regex.Seq (Regex.chr "/") Regex.End.

(** [getPaperlessApiEndpoint()] on the settings [st]. *)
Definition getPaperlessApiEndpoint (st : Settings) : string :=
  let baseUrl := Regex.replace trailingSlash (paperlessApiUrl st) EmptyString in
  baseUrl ++ "/api/documents/post_document/".

End SettingsManager.

(* ===================================================================== *)
(** ** ScannerManager (src/scanner-manager.ts)                            *)
(* ===================================================================== *)

Module ScannerManager.

(** The result of [detectScanners]. *)
Record Detection : Type := mkDetection {
  scanners : list ScannerInfo;
  error : option string
}.

(** The result of [attemptFix]. *)
Record FixResult : Type := mkFixResult {
  success : bool;
  message : string;
  details : option (list ScannerInfo + option string)
}.

Definition hour : Z := 60 * 60 * 1000.

(** [getCachedScanner()]: the cached scanner if a scan succeeded with it
    less than an hour ago. *)
Definition getCachedScanner : M (option ScannerInfo) :=
  cached <- gets cachedScanner ;;
  last <- gets lastSuccessfulScan ;;
  match cached, last with
  | Some scanner, Some lastSuccess =>
      t <- now ;;
      let hourAgo := t - hour in
      if hourAgo <? lastSuccess then ret (Some scanner) else ret None
  | _, _ => ret None
  end.

(** [markSuccessfulScan(scanner)] *)
Definition markSuccessfulScan (scanner : ScannerInfo) : M unit :=
  modify (with_cachedScanner (Some scanner)) ;;
  t <- now ;;
  modify (with_lastSuccessfulScan (Some t)).

(** The pattern of a device line:
    [device\s+`([^'`]+)'?\s+is\s+a?\s+(.+?)
     (?:\s+(?:flatbed|multi-function|document|sheet-fed))?
     (?:\s+(?:scanner|peripheral))?$], flag i. *)
Definition deviceRegex : Regex.regex :=
  Regex.seqs
    [ Regex.liti "device"; Regex.plus Regex.ws; Regex.chr "`";
      Regex.Group 1 (Regex.plus (Regex.noneOf "'`"));
      Regex.opt (Regex.chr "'"); Regex.plus Regex.ws;
      Regex.liti "is"; Regex.plus Regex.ws;
      Regex.opt (Regex.chri "a"); Regex.plus Regex.ws;
      Regex.Group 2 (Regex.lazyPlus Regex.dot);
      Regex.opt (Regex.Seq (Regex.plus Regex.ws)
        (Regex.alts [ Regex.liti "flatbed"; Regex.liti "multi-function";
                      Regex.liti "document"; Regex.liti "sheet-fed" ]));
      Regex.opt (Regex.Seq (Regex.plus Regex.ws)
        (Regex.alts [ Regex.liti "scanner"; Regex.liti "peripheral" ]));
      Regex.End ].

(** [a || b] on strings. *)
Definition orElse (a b : string) : string := if JS.truthy a then a else b.

(** Vendor and model from the words of a description. *)
Definition vendorModel (descParts : list string) : string * string :=
  match descParts with
  | first :: rest =>
      if JS.truthy first then
        match rest with
        | second :: rest2 =>
            if JS.truthy second &&
               String.eqb (JS.toLowerCase second) (JS.toLowerCase first)
            then (first, orElse (JS.join " " rest2) first)
            else (first, orElse (JS.join " " rest) first)
        | [] => (first, orElse (JS.join " " rest) first)
        end
      else ("Unknown", "Unknown")
  | [] => ("Unknown", "Unknown")
  end.

Definition scannerType (description : string) : string :=
  let lowerDesc := JS.toLowerCase description in
  if JS.includes lowerDesc "flatbed" then "flatbed"
  else if JS.includes lowerDesc "sheet" || JS.includes lowerDesc "feeder" then "sheet-fed"
  else if JS.includes lowerDesc "multi-function" then "multi-function"
  else "unknown".

(** The body of the loop over the lines of [scanimage -L]: the scanner a
    line describes, if it parses. *)
Definition parseLine (line : string) : option ScannerInfo :=
  if JS.includes (JS.toLowerCase line) "device" then
    match Regex.search deviceRegex line with
    | Some deviceMatch =>
        match Regex.capture 1 deviceMatch with
        | Some g1 =>
            if JS.truthy g1 then
              let device := JS.trim g1 in
              let description :=
                match Regex.capture 2 deviceMatch with
                | Some g2 => if JS.truthy g2 then JS.trim g2 else "Unknown Scanner"
                | None => "Unknown Scanner"
                end in
              let '(vendor, model) := vendorModel (JS.splitSpaces description) in
              Some (mkScannerInfo device vendor model (scannerType description) true)
            else None
        | None => None
        end
    | None => None
    end
  else None.

Fixpoint parseLines (lines : list string) : list ScannerInfo :=
  match lines with
  | [] => []
  | line :: rest =>
      match parseLine line with
      | Some s => s :: parseLines rest
      | None => parseLines rest
      end
  end.

Definition noScannersDetected : string :=
  "No scanners detected. Make sure your scanner is connected and powered on.".

(** [if (cached) return { scanners: [cached] }; return { scanners: [], error }] *)
Definition cachedOr (err : string) : M Detection :=
  cached <- getCachedScanner ;;
  match cached with
  | Some c => ret (mkDetection [c] None)
  | None => ret (mkDetection [] (Some err))
  end.

(** [detectScanners()] *)
Definition detectScanners : M Detection :=
  try_catch
    (listed <-
       try_catch
         (result <- exec "scanimage -L" NoOutput ;; ret (inl result))
         (fun err =>
            cached <- getCachedScanner ;;
            match cached with
            | Some c => ret (inr (mkDetection [c] None))
            | None => throw err
            end) ;;
     match listed with
     | inr early => ret early
     | inl (stdout, stderr) =>
         if JS.includes stdout "No scanners were identified" ||
            JS.includes stderr "No scanners were identified"
         then cachedOr noScannersDetected
         else if negb (JS.truthy stdout) || String.eqb (JS.trim stdout) EmptyString
         then cachedOr "No output from scanner detection. Check if SANE is properly configured."
         else
           let lines := List.filter (fun line => JS.truthy (JS.trim line))
                          (JS.splitChar "010" stdout) in
           let scanners := parseLines lines in
           if (length scanners =? 0)%nat && (0 <? length lines)%nat
           then ret (mkDetection []
                  (Some ("Could not parse scanner information. Raw output: "
                         ++ JS.join " | " lines)))
           else if (length scanners =? 0)%nat
           then cachedOr noScannersDetected
           else
             match scanners with
             | first :: _ => modify (with_cachedScanner (Some first))
             | [] => ret tt
             end ;;
             ret (mkDetection scanners None)
     end)
    (fun errorMsg =>
       if JS.includes errorMsg "scanimage: command not found" ||
          JS.includes errorMsg "not found"
       then ret (mkDetection []
              (Some "SANE tools not installed. Install with: brew install sane-backends (macOS)"))
       else if JS.includes errorMsg "no SANE devices found"
       then ret (mkDetection []
              (Some "No SANE devices found. Check scanner connection, power, and permissions."))
       else ret (mkDetection [] (Some ("Scanner detection failed: " ++ errorMsg)))).

(** [try { await execAsync(cmd) } catch { }] *)
Definition bestEffort (cmd : string) : M unit :=
  try_catch (_ <- exec cmd NoOutput ;; ret tt) (fun _ => ret tt).

(** [attemptFix()] *)
Definition attemptFix : M FixResult :=
  try_catch
    (os <- gets platform ;;
     (if String.eqb os "linux"
      then bestEffort "sudo systemctl restart saned 2>/dev/null || true"
      else ret tt) ;;
     (if String.eqb os "linux"
      then bestEffort "sudo modprobe -r usblp && sudo modprobe usblp 2>/dev/null || true"
      else ret tt) ;;
     sleep 2000 ;;
     detection <- detectScanners ;;
     if (0 <? length (scanners detection))%nat
     then ret (mkFixResult true
            ("Successfully detected " ++ JS.ofZ (Z.of_nat (length (scanners detection)))
             ++ " scanner(s) after fix attempt")
            (Some (inl (scanners detection))))
     else ret (mkFixResult false
            "Fix attempt completed, but no scanners detected. Manual intervention may be required."
            (Some (inr (error detection)))))
    (fun err => ret (mkFixResult false ("Fix attempt failed: " ++ err) None)).

(** [{ device, helpOutput }] *)
Record TestDetails : Type := mkTestDetails {
  testedDevice : string;
  helpOutput : string
}.

(** The result of [testScanner]. *)
Record TestResult : Type := mkTestResult {
  testSuccess : bool;
  testError : option string;
  testDetails : option TestDetails
}.

(** The device to test when none is given: the first detected one, or the
    early result that reports why there is none. *)
Definition firstDetected : M (string + TestResult) :=
  detection <- detectScanners ;;
  match scanners detection with
  | [] =>
      ret (inr (mkTestResult false
        (Some match error detection with
              | Some e => orElse e "No scanners available for testing"
              | None => "No scanners available for testing"
              end) None))
  | firstScanner :: _ => ret (inl (device firstScanner))
  end.

(** [testScanner(deviceId?)] *)
Definition testScanner (deviceId : option string) : M TestResult :=
  try_catch
    (chosen <-
       match deviceId with
       | Some d => if JS.truthy d then ret (inl d) else firstDetected
       | None => firstDetected
       end ;;
     match chosen with
     | inr early => ret early
     | inl testDevice =>
         let cmd := "scanimage --device-name=" ++ quoted testDevice ++ " --help" in
         result <- exec cmd NoOutput ;;
         if JS.truthy (snd result) && JS.includes (snd result) "invalid"
         then ret (mkTestResult false
                (Some ("Scanner test failed: Invalid device " ++ testDevice)) None)
         else ret (mkTestResult true None
                (Some (mkTestDetails testDevice (fst result))))
     end)
    (fun errorMsg =>
       ret (mkTestResult false (Some ("Scanner test failed: " ++ errorMsg)) None)).

(** The [diagnostics] object of [getDiagnostics]; a field that was not set
    is [None].  Every command of the method is guarded by a handler of its
    own, so the outer handler, which would set [diagnostics_error], is
    never entered; the field is left out. *)
Record Diagnostics : Type := mkDiagnostics {
  scanimage_path : option string;
  scanimage_available : option bool;
  sane_version : option string;
  sane_version_error : option string;
  user_groups : option (list string);
  groups_error : option string;
  usb_info : string
}.

Definition installHint : string :=
  "Install SANE tools: sudo apt-get install sane-utils (Linux) or brew install sane-backends (macOS)".

Definition groupHints : list string :=
  [ "Add user to scanner group: sudo usermod -a -G scanner $USER";
    "Then log out and log back in for changes to take effect" ].

Definition generalHints : list string :=
  [ "Ensure scanner is powered on and connected via USB";
    "Try unplugging and reconnecting the scanner";
    "Check if scanner works with other software" ].

Definition macHint : string :=
  "On macOS, you might need to install additional drivers from the scanner manufacturer".

Definition usbCommand : string :=
  "lsusb 2>/dev/null || system_profiler SPUSBDataType 2>/dev/null || echo "
  ++ quoted "USB info not available".

(** [try { const { stdout } = await execAsync(cmd); ... } catch (error) { ... }]:
    the standard output, or the message of the failure. *)
Definition attempt (cmd : string) : M (string + string) :=
  try_catch (result <- exec cmd NoOutput ;; ret (inl (fst result)))
            (fun message => ret (inr message)).

(** [getDiagnostics()] *)
Definition getDiagnostics : M (Diagnostics * list string) :=
  which <- attempt "which scanimage" ;;
  version <- attempt "scanimage --version" ;;
  os <- gets platform ;;
  groups <-
    (if String.eqb os "linux"
     then answer <- attempt "groups" ;;
          ret (Some match answer with
                    | inl stdout => inl (JS.splitChar " " (JS.trim stdout))
                    | inr message => inr message
                    end)
     else ret None) ;;
  usb <- attempt usbCommand ;;
  let diagnostics :=
    mkDiagnostics
      match which with inl stdout => Some (JS.trim stdout) | inr _ => None end
      match which with inl _ => None | inr _ => Some false end
      match version with inl stdout => Some (JS.trim stdout) | inr _ => None end
      match version with inl _ => None | inr message => Some message end
      match groups with Some (inl l) => Some l | _ => None end
      match groups with Some (inr message) => Some message | _ => None end
      match usb with
      | inl stdout => stdout
      | inr _ => "Could not retrieve USB device information"
      end in
  let suggestions :=
    (match which with inl _ => [] | inr _ => [installHint] end
     ++ match groups with
        | Some (inl l) =>
            if negb (List.existsb (String.eqb "scanner") l) &&
               negb (List.existsb (String.eqb "lp") l)
            then groupHints else []
        | _ => []
        end
     ++ generalHints
     ++ (if String.eqb os "darwin" then [macHint] else []))%list in
  ret (diagnostics, suggestions).

End ScannerManager.

(* ===================================================================== *)
(** ** The scan pipeline ([scanPage], the server's entry file)            *)
(* ===================================================================== *)

(** The check-and-rename that follows a capture command, and the caching of
    the scanner: the source has this block twice, for the first attempt
    and for the retry. *)
Definition finishCapture (tempFilePath finalFilePath : string)
    (scanner : option ScannerInfo) : M (list string) :=
  created <- existsSync tempFilePath ;;
  if negb created then throw "Scan failed - no file was created"
  else
    stats <- statSync tempFilePath ;;
    if fileSize stats =? 0
    then unlinkSync tempFilePath ;; throw "Scan failed - empty file created"
    else
      renameSync tempFilePath finalFilePath ;;
      match scanner with
      | Some s => ScannerManager.markSuccessfulScan s
      | None => ret tt
      end ;;
      ret [finalFilePath].

(** The guarded removal of a zero-byte temp file; the source has it in each
    of the three failure paths. *)
Definition removeZeroByteTemp (tempFilePath : string) : M unit :=
  try_catch
    (present <- existsSync tempFilePath ;;
     if present then
       s <- statSync tempFilePath ;;
       if fileSize s =? 0 then unlinkSync tempFilePath else ret tt
     else ret tt)
    (fun _ => ret tt).

(** The single-sided branch of [scanPage]; [cmd] already carries the
    redirection to the temp file. *)
Definition scanSingle (cmd tempFilePath finalFilePath : string)
    (scanner : option ScannerInfo) : M (list string) :=
  try_catch
    (_ <- exec cmd (Redirect tempFilePath) ;;
     finishCapture tempFilePath finalFilePath scanner)
    (fun errorMsg =>
       removeZeroByteTemp tempFilePath ;;
       if JS.includes errorMsg "no SANE devices found" then
         fixResult <- ScannerManager.attemptFix ;;
         if ScannerManager.success fixResult then
           try_catch
             (_ <- exec cmd (Redirect tempFilePath) ;;
              finishCapture tempFilePath finalFilePath scanner)
             (fun retryErr =>
                removeZeroByteTemp tempFilePath ;;
                throw ("Scan failed after fix attempt: " ++ errorToString retryErr))
         else throw ("Scanner not available: " ++ ScannerManager.message fixResult)
       else
         removeZeroByteTemp tempFilePath ;;
         throw ("Scan failed: " ++ errorMsg)).

(** [f.startsWith(batchPrefix) && f.endsWith(`.${ext}`)] *)
Definition isBatchFile (batchPrefix ext f : string) : bool :=
  JS.startsWith f batchPrefix && JS.endsWith f ("." ++ ext).

(** The page index in a batch file name:
    [parseInt(f.slice(batchPrefix.length, f.lastIndexOf('.')))]. *)
Definition batchIndex (batchPrefix f : string) : option Z :=
  JS.parseInt (JS.slice f (JS.strlen batchPrefix) (JS.lastIndexOf f ".")).

Definition byBatchIndex (batchPrefix a b : string) : option Z :=
  JS.minus (batchIndex batchPrefix a) (batchIndex batchPrefix b).

(** The loop over the sorted batch files: keep the non-empty ones, delete
    the empty ones. *)
Fixpoint keepNonEmpty (dir : string) (matchingFiles scannedFiles : list string)
    : M (list string) :=
  match matchingFiles with
  | [] => ret scannedFiles
  | filename :: rest =>
      let filePath := path_join dir filename in
      stats <- statSync filePath ;;
      if 0 <? fileSize stats
      then keepNonEmpty dir rest (scannedFiles ++ [filePath])
      else unlinkSync filePath ;; keepNonEmpty dir rest scannedFiles
  end.

(** The collection step after a duplex batch command. *)
Definition collectBatch (dir batchPrefix ext : string) : M (list string) :=
  dirEntries <- readdirSync dir ;;
  let matchingFiles :=
    JS.sort (byBatchIndex batchPrefix)
      (List.filter (isBatchFile batchPrefix ext) dirEntries) in
  scannedFiles <- keepNonEmpty dir matchingFiles [] ;;
  if (length scannedFiles =? 0)%nat
  then throw "Duplex scan failed - no files were created"
  else ret scannedFiles.

(** The removal of partial batch files after a failed duplex scan. *)
Definition cleanupBatch (dir batchPrefix ext : string) : M unit :=
  try_catch
    (dirEntries <- readdirSync dir ;;
     forEach dirEntries (fun f =>
       if isBatchFile batchPrefix ext f
       then unlinkSync (path_join dir f)
       else ret tt))
    (fun _ => ret tt).

(** The duplex branch of [scanPage]; [cmd] already carries the batch
    pattern. *)
Definition scanDuplex (cmd dir batchPrefix ext : string)
    (scanner : option ScannerInfo) : M (list string) :=
  try_catch
    (_ <- exec cmd (Batch (dir ++ "/" ++ batchPrefix) ("." ++ ext)) ;;
     scannedFiles <- collectBatch dir batchPrefix ext ;;
     match scanner with
     | Some s => ScannerManager.markSuccessfulScan s
     | None => ret tt
     end ;;
     ret scannedFiles)
    (fun errorMsg =>
       cleanupBatch dir batchPrefix ext ;;
       throw ("Duplex scan failed: " ++ errorMsg)).

(** The scanner to use: the configured device, or the first one detected. *)
Definition resolveDevice (st : Settings) : M (option ScannerInfo * string) :=
  let configured :=
    match scannerDeviceUrl st with
    | Some url => JS.truthy url && negb (String.eqb (JS.trim url) EmptyString)
    | None => false
    end in
  if configured then
    match scannerDeviceUrl st with
    | Some url => ret (None, JS.trim url)
    | None => ret (None, EmptyString)
    end
  else
    detection <- ScannerManager.detectScanners ;;
    match ScannerManager.scanners detection with
    | [] =>
        let errorMsg :=
          match ScannerManager.error detection with
          | Some e => ScannerManager.orElse e "No scanners found"
          | None => "No scanners found"
          end in
        throw ("Scanner not available: " ++ errorMsg)
    | scanner :: _ => ret (Some scanner, device scanner)
    end.

(** [n && n > 0] on an optional number. *)
Definition positive (n : option Z) : option Z :=
  match n with
  | Some v => if 0 <? v then Some v else None
  | None => None
  end.

(** The [scanimage] command line, before its output location. *)
Definition scanCommand (st : Settings) (scannerDevice ext : string) : string :=
  "scanimage --device-name=" ++ quoted scannerDevice ++ " --format=" ++ ext
  ++ " --resolution=" ++ JS.ofZ (scanResolution st)
  ++ match source st with
     | Some src => if JS.truthy src then " --source=" ++ quoted src else EmptyString
     | None => EmptyString
     end
  ++ match positive (pageWidth st) with
     | Some v => " --page-width=" ++ JS.ofZ v
     | None => EmptyString
     end
  ++ match positive (pageHeight st) with
     | Some v => " --page-height=" ++ JS.ofZ v
     | None => EmptyString
     end
  ++ match positive (swskip st) with
     | Some v => " --swskip=" ++ JS.ofZ v
     | None => EmptyString
     end.

(** [scanPage()] *)
Definition scanPage : M (list string) :=
  st <- gets settings ;;
  resolved <- resolveDevice st ;;
  let scanner := fst resolved in
  let scannerDevice := snd resolved in
  t <- now ;;
  let timestamp := JS.dashColonsDots (JS.toISOString t) in
  let ext := ScannerManager.orElse (outputFormat st) "pdf" in
  let isDuplex := match duplex st with Some true => true | _ => false end in
  let cmd := scanCommand st scannerDevice ext in
  if isDuplex then
    let batchPrefix := "scan-" ++ timestamp ++ "-p" in
    let batchPattern := scanOutputDir st ++ "/" ++ batchPrefix ++ "%d." ++ ext in
    scanDuplex (cmd ++ " --batch=" ++ quoted batchPattern)
      (scanOutputDir st) batchPrefix ext scanner
  else
    let finalFilePath := scanOutputDir st ++ "/scan-" ++ timestamp ++ "." ++ ext in
    let tempFilePath := finalFilePath ++ ".tmp" in
    scanSingle (cmd ++ " > " ++ quoted tempFilePath) tempFilePath finalFilePath scanner.

(* ===================================================================== *)
(** ** DocumentSessionManager (src/document-session.ts)                   *)
(* ===================================================================== *)

Module DocumentSessionManager.

(** [{ success, error? }] *)
Record Result : Type := mkResult {
  success : bool;
  error : option string
}.

(** [{ success, error?, deletedCount }] *)
Record ClearResult : Type := mkClearResult {
  cleared : Result;
  deletedCount : Z
}.

Definition ok : Result := mkResult true None.
Definition failed (message : string) : Result := mkResult false (Some message).

(** *** The heap of page objects *)

Definition nullPage : PageInfo :=
  mkPageInfo EmptyString EmptyString EmptyString 0 0 0.

(** The object a reference points to. *)
Definition pageAt (h : list PageInfo) (r : ref) : PageInfo := nth r h nullPage.

(** A new object. *)
Definition alloc (p : PageInfo) : M ref :=
  fun w => (Return (length (heap w)), with_heap (heap w ++ [p]) w).

Definition withPageNumber (n : Z) (p : PageInfo) : PageInfo :=
  mkPageInfo (id p) (filename p) (filepath p) (timestamp p) (size p) n.

(** [page.pageNumber = n] *)
Definition setPageNumber (r : ref) (n : Z) : M unit :=
  modify (fun w => with_heap (alter (withPageNumber n) r (heap w)) w).

(** [pages.forEach((p, index) => { p.pageNumber = index + 1 })] *)
Fixpoint renumberFrom (index : Z) (l : list ref) : M unit :=
  match l with
  | [] => ret tt
  | r :: l' => setPageNumber r (index + 1) ;; renumberFrom (index + 1) l'
  end.

Definition renumber : list ref -> M unit := renumberFrom 0.

(** The page objects of a session, as they are in a world. *)
Definition pagesOf (w : World) (s : DocumentSession) : list PageInfo :=
  List.map (pageAt (heap w)) (pages s).

(** *** The session map *)

Definition mapGet {V} (k : string) (m : list (string * V)) : option V :=
  match List.find (fun e => String.eqb (fst e) k) m with
  | Some e => Some (snd e)
  | None => None
  end.

Fixpoint mapSet {V} (k : string) (v : V) (m : list (string * V)) : list (string * V) :=
  match m with
  | [] => [(k, v)]
  | (k', v') :: m' =>
      if String.eqb k' k then (k, v) :: m' else (k', v') :: mapSet k v m'
  end.

Definition setSession (k : string) (s : DocumentSession) : M unit :=
  modify (fun w => with_sessions (mapSet k s (sessions w)) w).

(** [generateId()]: the next value of
    [Date.now().toString(36) + Math.random().toString(36).substr(2)]. *)
Definition generateId : M string :=
  fun w => (Return (idOracle w (idCalls w)), with_idCalls (S (idCalls w)) w).

(** *** Loading from the scan directory *)

Definition validExtensions : list string :=
  [".pdf"; ".tiff"; ".png"; ".jpeg"; ".jpg"].

(** [file.startsWith('scan-') && validExtensions.some(ext => file.endsWith(ext))] *)
Definition isScanFile (file : string) : bool :=
  JS.startsWith file "scan-" && List.existsb (JS.endsWith file) validExtensions.

(** [try { fs.unlinkSync(p) } catch (e) { }] *)
Definition tryUnlink (p : string) : M unit :=
  try_catch (unlinkSync p) (fun _ => ret tt).

(** The callback of the [map] over the scan files: a new page object, or
    [None] (null) for a zero-byte file, which is removed. *)
Definition loadFile (scanDir filename : string) : M (option ref) :=
  let filepath := path_join scanDir filename in
  stats <- statSync filepath ;;
  if fileSize stats =? 0 then
    tryUnlink filepath ;; ret None
  else
    newId <- generateId ;;
    r <- alloc (mkPageInfo newId filename filepath (fileMtime stats) (fileSize stats) 0) ;;
    ret (Some r).

(** [scanFiles.filter(f => f !== null)] *)
Fixpoint nonNull {A} (l : list (option A)) : list A :=
  match l with
  | [] => []
  | Some a :: l' => a :: nonNull l'
  | None :: l' => nonNull l'
  end.

(** [(a, b) => a.timestamp.getTime() - b.timestamp.getTime()] *)
Definition byTimestamp (h : list PageInfo) (a b : ref) : option Z :=
  Some (timestamp (pageAt h a) - timestamp (pageAt h b)).

(** [loadSessions()] *)
Definition loadSessions : M unit :=
  st <- gets settings ;;
  let scanDir := scanOutputDir st in
  present <- existsSync scanDir ;;
  if negb present then ret tt
  else
    try_catch
      (entries <- readdirSync scanDir ;;
       scanFiles <- mapM (loadFile scanDir) (List.filter isScanFile entries) ;;
       h <- gets heap ;;
       let filteredScanFiles := JS.sort (byTimestamp h) (nonNull scanFiles) in
       match filteredScanFiles with
       | [] => ret tt
       | first :: _ =>
           renumber filteredScanFiles ;;
           h <- gets heap ;;
           let defaultSession :=
             mkDocumentSession "default" "Current Document" filteredScanFiles
               (timestamp (pageAt h first))
               (timestamp (pageAt h (List.last filteredScanFiles first))) in
           setSession "default" defaultSession
       end)
      (fun _ => ret tt).

(** [getSessions()] *)
Definition getSessions : M (list DocumentSession) :=
  loadSessions ;;
  gets (fun w => List.map snd (sessions w)).

(** [getSession(sessionId)] *)
Definition getSession (sessionId : string) : M (option DocumentSession) :=
  loadSessions ;;
  gets (fun w => mapGet sessionId (sessions w)).

(** [createSession(name?)]; [toLocaleString] is the formatting of a date in
    the locale and time zone of the process. *)
Definition createSession (toLocaleString : Z -> string) (name : option string)
    : M DocumentSession :=
  newId <- generateId ;;
  t <- now ;;
  let defaultName := "Document " ++ toLocaleString t in
  let session :=
    mkDocumentSession newId
      match name with
      | Some n => if JS.truthy n then n else defaultName
      | None => defaultName
      end
      [] t t in
  setSession newId session ;;
  ret session.

(** [path.basename(p)] for a path without a trailing separator. *)
Definition basename (p : string) : string :=
  JS.sliceFrom p (JS.lastIndexOf p "/" + 1).

Definition withPages (l : list ref) (t : Z) (s : DocumentSession) : DocumentSession :=
  mkDocumentSession (sessionId s) (name s) l (created s) t.

(** [addPageToSession(sessionId, pageFilepath)] *)
Definition addPageToSession (sessionId pageFilepath : string) : M Result :=
  try_catch
    (found <- getSession sessionId ;;
     t <- now ;;
     let session :=
       match found with
       | Some s => s
       | None =>
           mkDocumentSession sessionId
             (if String.eqb sessionId "default" then "Current Document"
              else "Document " ++ sessionId)
             [] t t
       end in
     present <- existsSync pageFilepath ;;
     if negb present then ret (failed "Page file not found")
     else
       stats <- statSync pageFilepath ;;
       if fileSize stats =? 0 then
         tryUnlink pageFilepath ;; ret (failed "Page file is empty")
       else
         newId <- generateId ;;
         r <- alloc (mkPageInfo newId (basename pageFilepath) pageFilepath
                       (fileMtime stats) (fileSize stats)
                       (Z.of_nat (length (pages session)) + 1)) ;;
         t <- now ;;
         setSession sessionId (withPages (pages session ++ [r]) t session) ;;
         ret ok)
    (fun e => ret (failed e)).

(** [pages.findIndex(pred)], [None] for -1. *)
Fixpoint findIndex {A} (pred : A -> bool) (l : list A) : option nat :=
  match l with
  | [] => None
  | x :: l' =>
      if pred x then Some O
      else match findIndex pred l' with
           | Some i => Some (S i)
           | None => None
           end
  end.

(** [pages.splice(i, 1)] *)
Fixpoint splice1 {A} (i : nat) (l : list A) : list A :=
  match l, i with
  | [], _ => []
  | _ :: l', O => l'
  | x :: l', S i' => x :: splice1 i' l'
  end.

(** [removePageFromSession(sessionId, pageIdOrPath)] *)
Definition removePageFromSession (sessionId pageIdOrPath : string) : M Result :=
  try_catch
    (found <- getSession sessionId ;;
     match found with
     | None => ret (failed "Session not found")
     | Some session =>
         h <- gets heap ;;
         let byId :=
           findIndex (fun r => String.eqb (id (pageAt h r)) pageIdOrPath) (pages session) in
         let pageIndex :=
           match byId with
           | Some i => Some i
           | None =>
               findIndex (fun r => String.eqb (filepath (pageAt h r)) pageIdOrPath)
                 (pages session)
           end in
         match pageIndex with
         | None => ret (failed "Page not found")
         | Some i =>
             match nth_error (pages session) i with
             | None => ret (failed "Page not found")
             | Some r =>
                 let page := pageAt h r in
                 present <- existsSync (filepath page) ;;
                 (if present then unlinkSync (filepath page) else ret tt) ;;
                 let remaining := splice1 i (pages session) in
                 renumber remaining ;;
                 t <- now ;;
                 setSession sessionId (withPages remaining t session) ;;
                 ret ok
             end
         end
     end)
    (fun e => ret (failed e)).

(** The message pdf-lib rejects unreadable bytes with. *)
Definition pdfLoadError : string := "Failed to parse PDF document".

(** The loop of [combinePdfPages]: the content pages of every page file
    that exists, appended in session order. *)
Fixpoint appendPdfPages (l : list PageInfo) (combinedPdf : list nat) : M (list nat) :=
  match l with
  | [] => ret combinedPdf
  | page :: rest =>
      present <- existsSync (filepath page) ;;
      if negb present then appendPdfPages rest combinedPdf
      else
        pdfBytes <- readFileSync (filepath page) ;;
        match filePdf pdfBytes with
        | Some sourcePdf => appendPdfPages rest (combinedPdf ++ sourcePdf)
        | None => throw pdfLoadError
        end
  end.

Definition outputTimestamp : M string :=
  t <- now ;; ret (JS.dashColonsDots (JS.toISOString t)).

(** [combinePdfPages(session, outputDir, sessionId)] *)
Definition combinePdfPages (session : DocumentSession) (outputDir sessionId : string)
    : M string :=
  try_catch
    (w <- gets (fun w => w) ;;
     combinedPdf <- appendPdfPages (pagesOf w session) [] ;;
     timestamp <- outputTimestamp ;;
     let outputPath :=
       path_join outputDir ("combined-" ++ sessionId ++ "-" ++ timestamp ++ ".pdf") in
     let pdfBytes := savedPdf combinedPdf in
     writePdfSync outputPath pdfBytes ;;
     ret outputPath)
    (fun e => throw ("Failed to combine PDF pages: " ++ e)).

(** [session.pages.filter(page => fs.existsSync(page.filepath))] *)
Fixpoint existingPages (l : list PageInfo) : M (list PageInfo) :=
  match l with
  | [] => ret []
  | page :: rest =>
      present <- existsSync (filepath page) ;;
      kept <- existingPages rest ;;
      ret (if present then page :: kept else kept)
  end.

(** [combineTiffPages(session, outputDir, sessionId)] *)
Definition combineTiffPages (session : DocumentSession) (outputDir sessionId : string)
    : M string :=
  try_catch
    (w <- gets (fun w => w) ;;
     existing <- existingPages (pagesOf w session) ;;
     let inputFiles := List.map (fun page => quoted (filepath page)) existing in
     if (length inputFiles =? 0)%nat then throw "No valid TIFF files to combine"
     else
       timestamp <- outputTimestamp ;;
       let prefix :=
         if (1 <? length inputFiles)%nat then "combined-" ++ sessionId else sessionId in
       let outputPath := path_join outputDir (prefix ++ "-" ++ timestamp ++ ".pdf") in
       let cmd := "img2pdf " ++ JS.join " " inputFiles ++ " -o " ++ quoted outputPath in
       _ <- exec cmd (OutFile outputPath) ;;
       ret outputPath)
    (fun e => throw ("Failed to combine TIFF pages into PDF: " ++ e)).

(** [combineSessionPages(sessionId)] *)
Definition combineSessionPages (sessionId : string) : M string :=
  found <- getSession sessionId ;;
  match found with
  | None => throw "No pages to combine"
  | Some session =>
      if (length (pages session) =? 0)%nat then throw "No pages to combine"
      else
        st <- gets settings ;;
        let format := ScannerManager.orElse (outputFormat st) "pdf" in
        if String.eqb format "tiff"
        then combineTiffPages session (scanOutputDir st) sessionId
        else if String.eqb format "pdf"
        then combinePdfPages session (scanOutputDir st) sessionId
        else throw ("Combining is not supported for " ++ JS.toUpperCase format ++ " format")
  end.

(** The loop of [clearSession]: delete what exists, count what was deleted. *)
Fixpoint deletePages (l : list PageInfo) (deletedCount : Z) : M Z :=
  match l with
  | [] => ret deletedCount
  | page :: rest =>
      n <- try_catch
             (present <- existsSync (filepath page) ;;
              if present then unlinkSync (filepath page) ;; ret (deletedCount + 1)
              else ret deletedCount)
             (fun _ => ret deletedCount) ;;
      deletePages rest n
  end.

(** [clearSession(sessionId)] *)
Definition clearSession (sessionId : string) : M ClearResult :=
  try_catch
    (found <- getSession sessionId ;;
     match found with
     | None => ret (mkClearResult (failed "Session not found") 0)
     | Some session =>
         w <- gets (fun w => w) ;;
         deleted <- deletePages (pagesOf w session) 0 ;;
         t <- now ;;
         setSession sessionId (withPages [] t session) ;;
         ret (mkClearResult ok deleted)
     end)
    (fun e => ret (mkClearResult (failed e) 0)).

(** [clearAllSessions()] *)
Definition clearAllSessions : M ClearResult :=
  sessionIds <- gets (fun w => List.map fst (sessions w)) ;;
  totalDeleted <-
    (fix loop (l : list string) (totalDeleted : Z) : M Z :=
       match l with
       | [] => ret totalDeleted
       | sessionId :: rest =>
           result <- clearSession sessionId ;;
           loop rest (if success (cleared result)
                      then totalDeleted + deletedCount result
                      else totalDeleted)
       end) sessionIds 0 ;;
  modify (with_sessions []) ;;
  ret (mkClearResult ok totalDeleted).

(** The validation loop of [reorderPages]: the page of every requested id,
    or the first id that names no page. *)
Fixpoint pagesById (h : list PageInfo) (sessionPages : list ref) (pageIds : list string)
    : string + list ref :=
  match pageIds with
  | [] => inr []
  | pageId :: rest =>
      match List.find (fun r => String.eqb (id (pageAt h r)) pageId) sessionPages with
      | None => inl pageId
      | Some page =>
          match pagesById h sessionPages rest with
          | inl missing => inl missing
          | inr reorderedPages => inr (page :: reorderedPages)
          end
      end
  end.

(** [reorderPages(sessionId, pageIds)] *)
Definition reorderPages (sessionId : string) (pageIds : list string) : M Result :=
  try_catch
    (found <- getSession sessionId ;;
     match found with
     | None => ret (failed "Session not found")
     | Some session =>
         h <- gets heap ;;
         match pagesById h (pages session) pageIds with
         | inl pageId => ret (failed ("Page " ++ pageId ++ " not found"))
         | inr reorderedPages =>
             renumber reorderedPages ;;
             t <- now ;;
             setSession sessionId (withPages reorderedPages t session) ;;
             ret ok
         end
     end)
    (fun e => ret (failed e)).

End DocumentSessionManager.

(* ===================================================================== *)
(** ** The scan operation of the server ([startPageScan])                 *)
(* ===================================================================== *)

(** [startPageScan()]: scan, then add every file to the default session.
    A failed addition is only logged, and so is a failed scan. *)
Definition startPageScan : M unit :=
  try_catch
    (filePaths <- scanPage ;;
     forEach filePaths (fun filePath =>
       _ <- DocumentSessionManager.addPageToSession "default" filePath ;;
       ret tt))
    (fun _ => ret tt).

(* ===================================================================== *)
(** ** Notions used in the statements                                     *)
(* ===================================================================== *)

(** The files lying directly in a directory, by entry name. *)
Fixpoint dirFiles (dir : string) (fs : list (string * File)) : list (string * File) :=
  match fs with
  | [] => []
  | (p, f) :: fs' =>
      match entryName dir p with
      | Some n => (n, f) :: dirFiles dir fs'
      | None => dirFiles dir fs'
      end
  end.

(** A page as a reader of the session sees it, its opaque id apart. *)
Record PageView : Type := mkPageView {
  viewFilename : string;
  viewFilepath : string;
  viewTimestamp : Z;
  viewSize : Z;
  viewPageNumber : Z
}.

Definition viewOf (p : PageInfo) : PageView :=
  mkPageView (filename p) (filepath p) (timestamp p) (size p) (pageNumber p).

(** A file of the directory as a page that has no number yet. *)
Definition artifactView (dir : string) (e : string * File) : PageView :=
  mkPageView (fst e) (path_join dir (fst e)) (fileMtime (snd e)) (fileSize (snd e)) 0.

Definition withViewNumber (n : Z) (v : PageView) : PageView :=
  mkPageView (viewFilename v) (viewFilepath v) (viewTimestamp v) (viewSize v) n.

(** Numbered sequentially from [first]. *)
Fixpoint numberViews (first : Z) (l : list PageView) : list PageView :=
  match l with
  | [] => []
  | v :: l' => withViewNumber first v :: numberViews (first + 1) l'
  end.

(** The non-empty files of the directory that match the scan-artifact
    naming pattern. *)
Definition scanArtifacts (dir : string) (fs : list (string * File)) : list (string * File) :=
  List.filter (fun e => DocumentSessionManager.isScanFile (fst e) && negb (fileSize (snd e) =? 0))
    (dirFiles dir fs).



(** The comparator [(a, b) => key(a) - key(b)]. *)
Definition byKey {A} (key : A -> Z) (a b : A) : option Z := Some (key a - key b).

(** The page list the specification describes: the scan artifacts sorted by
    modification time and numbered from 1. *)
Definition expectedPages (dir : string) (fs : list (string * File)) : list PageView :=
  numberViews 1
    (JS.sort (byKey viewTimestamp) (List.map (artifactView dir) (scanArtifacts dir fs))).

(** The page objects a load creates, in listing order: one for every entry
    with content, with the ids generated from the [k]-th on. *)
Fixpoint loadedPages (ids : nat -> string) (dir : string) (fs : list (string * File))
    (names : list string) (k : nat) : list PageInfo :=
  match names with
  | [] => []
  | n :: rest =>
      match lookupFile (path_join dir n) fs with
      | Some f =>
          if fileSize f =? 0 then loadedPages ids dir fs rest k
          else mkPageInfo (ids k) n (path_join dir n) (fileMtime f) (fileSize f) 0
               :: loadedPages ids dir fs rest (S k)
      | None => loadedPages ids dir fs rest k
      end
  end.

(** The files a load leaves: the zero-byte entries are removed. *)
Fixpoint dropZero (dir : string) (names : list string) (fs : list (string * File))
    : list (string * File) :=
  match names with
  | [] => fs
  | n :: rest =>
      dropZero dir rest
        match lookupFile (path_join dir n) fs with
        | Some f => if fileSize f =? 0 then removeFile (path_join dir n) fs else fs
        | None => fs
        end
  end.

(** The heap after [pages.forEach((p, index) => p.pageNumber = index + 1)]. *)
Fixpoint renumberHeap (index : Z) (l : list ref) (h : list PageInfo) : list PageInfo :=
  match l with
  | [] => h
  | r :: l' =>
      renumberHeap (index + 1) l'
        (alter (DocumentSessionManager.withPageNumber (index + 1)) r h)
  end.

(** Page objects numbered in order, value by value. *)
Fixpoint numberFrom (index : Z) (l : list PageInfo) : list PageInfo :=
  match l with
  | [] => []
  | p :: l' =>
      DocumentSessionManager.withPageNumber (index + 1) p :: numberFrom (index + 1) l'
  end.

(** The world after the [map] over the scan files. *)
Definition afterLoadFiles (w : World) (dir : string) (names : list string) : World :=
  with_files (dropZero dir names (files w))
    (with_heap (heap w ++ loadedPages (idOracle w) dir (files w) names (idCalls w))
       (with_idCalls
          (idCalls w + length (loadedPages (idOracle w) dir (files w) names (idCalls w)))
          w)).

(** The world after a load that found the page objects [sorted]. *)
Definition afterRebuild (w1 : World) (sorted : list ref) : World :=
  match sorted with
  | [] => w1
  | first :: _ =>
      let h := renumberHeap 0 sorted (heap w1) in
      with_sessions
        (DocumentSessionManager.mapSet "default"
           (mkDocumentSession "default" "Current Document" sorted
              (timestamp (DocumentSessionManager.pageAt h first))
              (timestamp (DocumentSessionManager.pageAt h (List.last sorted first))))
           (sessions w1))
        (with_heap h w1)
  end.

(** The scan files a load finds in the output directory. *)
Definition scanEntries (w : World) : list string :=
  List.filter DocumentSessionManager.isScanFile
    (listing (scanOutputDir (settings w)) (files w)).

(** The sub-directories of the output directory that carry a scan name:
    a load takes them for scans too. *)
Definition scanDirs (w : World) : list string :=
  List.filter DocumentSessionManager.isScanFile
    (subdirs (scanOutputDir (settings w)) w).

(** The page objects a load creates for the scan files. *)
Definition loadedFiles (w : World) : list PageInfo :=
  loadedPages (idOracle w) (scanOutputDir (settings w)) (files w) (scanEntries w) (idCalls w).

(** The page objects a load creates for the sub-directories, after those
    for the files. *)
Definition loadedDirs (w : World) : list PageInfo :=
  loadedPages (idOracle w) (scanOutputDir (settings w)) (dirs w) (scanDirs w)
    (idCalls w + length (loadedFiles w)).

(** The world after the [map] over sub-directories [names] of [dir]. *)
Definition afterLoadDirs (w : World) (dir : string) (names : list string) : World :=
  with_heap (heap w ++ loadedPages (idOracle w) dir (dirs w) names (idCalls w))
    (with_idCalls
       (idCalls w + length (loadedPages (idOracle w) dir (dirs w) names (idCalls w)))
       w).

(** The page objects a load creates in a world. *)
Definition loadedIn (w : World) : list PageInfo :=
  (loadedFiles w ++ loadedDirs w)%list.

(** The pages of the default session after a load that found scan
    entries: the new objects, sorted by timestamp and numbered. *)
Definition rebuiltPages (w : World) : list PageInfo :=
  numberFrom 0 (JS.sort (byKey timestamp) (loadedIn w)).

(** The world after the [map] over the scan entries. *)
Definition afterLoad (w : World) : World :=
  with_files (dropZero (scanOutputDir (settings w)) (scanEntries w) (files w))
    (with_heap (heap w ++ loadedIn w)
       (with_idCalls (idCalls w + length (loadedIn w)) w)).

(** No zero-byte file lies at a path. *)
Definition noEmptyFile (p : string) (fs : list (string * File)) : Prop :=
  forall f, lookupFile p fs = Some f -> fileSize f <> 0.

(** Every zero-byte file of the later world, the path [except] apart, was
    there before. *)
Definition noNewEmpty (except : string) (w w' : World) : Prop :=
  forall p f, p <> except ->
    lookupFile p (files w') = Some f -> fileSize f = 0 ->
    lookupFile p (files w) = Some f.

(** The final path of a single-sided scan started at time [t]. *)
Definition finalPathAt (st : Settings) (t : Z) : string :=
  scanOutputDir st ++ "/scan-" ++ JS.dashColonsDots (JS.toISOString t) ++ "."
  ++ ScannerManager.orElse (outputFormat st) "pdf".

(** The capture command of a single-sided scan and what follows it. *)
Definition capture (cmd tempFilePath finalFilePath : string)
    (scanner : option ScannerInfo) : M (list string) :=
  _ <- exec cmd (Redirect tempFilePath) ;;
  finishCapture tempFilePath finalFilePath scanner.




(** The page index of a batch file, 0 when it has none. *)
Definition pageIndex (batchPrefix f : string) : Z :=
  match batchIndex batchPrefix f with
  | Some i => i
  | None => 0
  end.

(** The references of a session point into the heap. *)
Definition validRefs (w : World) (s : DocumentSession) : Prop :=
  forall r, In r (pages s) -> (r < length (heap w))%nat.

(** The page objects and the sessions are those of the earlier world. *)
Definition sameStore (w w' : World) : Prop :=
  heap w' = heap w /\ sessions w' = sessions w.

(** Nothing but white space. *)
Fixpoint blank (s : string) : bool :=
  match s with
  | EmptyString => true
  | String c s' => JS.isSpace c && blank s'
  end.

(** Pairwise different strings. *)
Fixpoint distinct (l : list string) : bool :=
  match l with
  | [] => true
  | x :: l' => negb (List.existsb (String.eqb x) l') && distinct l'
  end.

(** Page numbers [1..N] in order. *)
Fixpoint contiguousFrom (first : Z) (l : list PageInfo) : Prop :=
  match l with
  | [] => True
  | p :: l' => pageNumber p = first /\ contiguousFrom (first + 1) l'
  end.

(** Every path names one file. *)
Definition wellFormed (fs : list (string * File)) : Prop := List.NoDup (List.map fst fs).

(** An HTTP or HTTPS URL as [validate] accepts it: the scheme, then at least
    one character that is no line terminator. *)
Definition httpUrl (u : string) : Prop :=
  exists c rest,
    (u = "http://" ++ String c rest \/ u = "https://" ++ String c rest) /\
    c <> "010"%char /\ c <> "013"%char.

(** The settings with another API URL. *)
Definition withApiUrl (url : string) (st : Settings) : Settings :=
  mkSettings url (paperlessApiToken st) (scanOutputDir st)
    (scanResolution st) (defaultTags st) (scannerDeviceUrl st) (pageWidth st)
    (pageHeight st) (source st) (duplex st) (swskip st) (outputFormat st).

(** The settings with another API token. *)
Definition withApiToken (token : string) (st : Settings) : Settings :=
  mkSettings (paperlessApiUrl st) token (scanOutputDir st)
    (scanResolution st) (defaultTags st) (scannerDeviceUrl st) (pageWidth st)
    (pageHeight st) (source st) (duplex st) (swskip st) (outputFormat st).

(** No file was created or changed: every file of the later world was
    there before, as it is. *)
Definition noNewFiles (w w' : World) : Prop :=
  forall p f, lookupFile p (files w') = Some f -> lookupFile p (files w) = Some f.

(** No file with content was deleted or changed. *)
Definition keepsContent (w w' : World) : Prop :=
  forall p f, lookupFile p (files w) = Some f -> fileSize f <> 0 ->
    lookupFile p (files w') = Some f.

(** The sessions other than the default one are those of the earlier
    world. *)
Definition sameOtherSessions (w w' : World) : Prop :=
  forall sid, sid <> "default" ->
    DocumentSessionManager.mapGet sid (sessions w') =
    DocumentSessionManager.mapGet sid (sessions w).

Definition sameSettings (w w' : World) : Prop := settings w' = settings w.

(** The content pages of those page files that exist, in the order of the
    pages. *)
Fixpoint documentOf (fs : list (string * File)) (l : list PageInfo) : list nat :=
  match l with
  | [] => []
  | page :: rest =>
      match lookupFile (filepath page) fs with
      | Some f =>
          match filePdf f with
          | Some content => content ++ documentOf fs rest
          | None => documentOf fs rest
          end
      | None => documentOf fs rest
      end
  end.

(** Two worlds that differ at most in the clock and the cached scanner. *)
Definition sameButCache (w1 w' : World) : Prop :=
  execLog w' = execLog w1 /\ files w' = files w1 /\ platform w' = platform w1 /\
  lastSuccessfulScan w' = lastSuccessfulScan w1 /\ oracle w' = oracle w1.

Definition sameStamp (w w' : World) : Prop :=
  lastSuccessfulScan w' = lastSuccessfulScan w.





(** The session an addition works on: the stored one, or a new one. *)
Definition sessionOrNew (sid : string) (w : World) : DocumentSession :=
  match DocumentSessionManager.mapGet sid (sessions w) with
  | Some s => s
  | None =>
      mkDocumentSession sid
        (if String.eqb sid "default" then "Current Document" else "Document " ++ sid)
        [] (clock w) (clock w)
  end.

(** The world after the file [f] at [p] was added to the session [sid] in
    the world [w]. *)
Definition afterAdd (sid p : string) (f : File) (w : World) : World :=
  with_sessions
    (DocumentSessionManager.mapSet sid
       (DocumentSessionManager.withPages
          (pages (sessionOrNew sid w) ++ [length (heap w)]) (clock w) (sessionOrNew sid w))
       (sessions w))
    (with_heap
       (heap w ++ [mkPageInfo (idOracle w (idCalls w)) (DocumentSessionManager.basename p) p
                     (fileMtime f) (fileSize f)
                     (Z.of_nat (length (pages (sessionOrNew sid w))) + 1)])
       (with_idCalls (S (idCalls w)) w)).

(** [fs.existsSync(p)] as a property of a world. *)
Definition present (w : World) (p : string) : bool :=
  match lookupFile p (files w) with
  | Some _ => true
  | None => isDir p w
  end.

(** No device is configured in the settings. *)
Definition autoDetect (st : Settings) : Prop :=
  match scannerDeviceUrl st with
  | Some url => JS.trim url = EmptyString
  | None => True
  end.



(** The name the batch pattern gives the [i]-th side. *)
Definition batchName (batchPrefix : string) (i : Z) (ext : string) : string :=
  batchPrefix ++ JS.ofZ i ++ "." ++ ext.


(* ===================================================================== *)
(** ** Scenarios                                                          *)
(* ===================================================================== *)

Module Scenario.

Definition baseSettings : Settings :=
  mkSettings "http://paperless.local:8000" "token" "/tmp" 300 ["scanned"; "automated"]
    (Some EmptyString) (Some 0) (Some 0) (Some EmptyString) (Some false) (Some 0) "pdf".

Definition withDuplex (d : bool) (st : Settings) : Settings :=
  mkSettings (paperlessApiUrl st) (paperlessApiToken st) (scanOutputDir st)
    (scanResolution st) (defaultTags st) (scannerDeviceUrl st) (pageWidth st)
    (pageHeight st) (source st) (Some d) (swskip st) (outputFormat st).

Definition withDevice (url : string) (st : Settings) : Settings :=
  mkSettings (paperlessApiUrl st) (paperlessApiToken st) (scanOutputDir st)
    (scanResolution st) (defaultTags st) (Some url) (pageWidth st)
    (pageHeight st) (source st) (duplex st) (swskip st) (outputFormat st).

Definition epson : ScannerInfo :=
  mkScannerInfo "epson2:libusb:001:004" "Epson" "PerfectionV19" "unknown" true.

(** The n-th generated id. *)
Definition ids (n : nat) : string := "id" ++ JS.ofZ (Z.of_nat n).

(** 2026-11-03T06:21:00.123Z *)
Definition t0 : Z := 1793686860123.

Definition world (st : Settings) (fs : list (string * File))
    (answers : nat -> ExecResult) : World :=
  mkWorld st "linux" t0 [("/tmp", mkFile 4096 (t0 - 86400000) None)] fs answers [] ids 0
    (fun doc => 600 + 400 * Z.of_nat (length doc)) None None [] [].

Definition noAnswer : nat -> ExecResult :=
  fun _ => mkExecResult (Rejected "Command failed") [] 1.

(** [scanimage -L] prints a device line without the quoting the parser
    expects; the scanner was used ten minutes ago. *)
Definition unparsedListing : World :=
  with_lastSuccessfulScan (Some (t0 - 10 * 60 * 1000))
    (with_cachedScanner (Some epson)
       (world baseSettings []
          (fun _ => mkExecResult
             (Exited "device epson2:libusb:001:004 is a Epson PerfectionV19 flatbed scanner"
                     EmptyString) [] 40))).

(** The same moment, with the listing command failing outright. *)
Definition failedListing : World :=
  with_lastSuccessfulScan (Some (t0 - 10 * 60 * 1000))
    (with_cachedScanner (Some epson)
       (world baseSettings [] (fun _ => mkExecResult (Rejected "spawn scanimage ETIMEDOUT") [] 5000))).

Definition noDevice : string :=
  "Command failed: scanimage
scanimage: no SANE devices found".

(** A configured device; every capture fails for want of a device, every
    other command works and lists one scanner. *)
Definition deviceGone (n : nat) : ExecResult :=
  match n with
  | O => mkExecResult (Rejected noDevice) [] 200
  | S (S (S O)) =>
      mkExecResult
        (Exited "device `epson2:libusb:001:004' is a Epson PerfectionV19 flatbed scanner"
                EmptyString) [] 40
  | S (S (S (S O))) => mkExecResult (Rejected noDevice) [] 200
  | _ => mkExecResult (Exited EmptyString EmptyString) [] 10
  end.

Definition singleNoDevice : World :=
  world (withDevice "escl:https://192.168.178.188:443" baseSettings) [] deviceGone.

Definition duplexNoDevice : World :=
  world (withDuplex true (withDevice "escl:https://192.168.178.188:443" baseSettings))
    [] deviceGone.

(** The capture breaks off after a hundred bytes reached the temp file. *)
Definition brokenCapture : World :=
  world (withDevice "escl:https://192.168.178.188:443" baseSettings) []
    (fun _ => mkExecResult
       (Rejected "Command failed: scanimage
scanimage: sane_read: Error during device I/O") [(100, None)] 3000).

(** The capture fails at once; the shell had created the temp file. *)
Definition emptyCapture : World :=
  world (withDevice "escl:https://192.168.178.188:443" baseSettings) []
    (fun _ => mkExecResult
       (Rejected "Command failed: scanimage
scanimage: open of device failed: Invalid argument") [(0, None)] 300).

(** A good capture. *)
Definition goodCapture : World :=
  world (withDevice "escl:https://192.168.178.188:443" baseSettings) []
    (fun _ => mkExecResult (Exited EmptyString EmptyString) [(52000, Some [1%nat])] 9000).

Definition pageA : File := mkFile 52000 (t0 - 5000) (Some [1%nat]).
Definition pageB : File := mkFile 48000 (t0 - 9000) (Some [2%nat]).

(** Two scans in the output directory, the older one listed last, next to
    an empty scan and two files that are no scans. *)
Definition twoScans : World :=
  world baseSettings
    [ ("/tmp/scan-2026-11-03T06-20-55-123Z.pdf", pageA);
      ("/tmp/scan-2026-11-03T06-20-51-123Z.pdf", pageB);
      ("/tmp/scan-2026-11-03T06-20-40-000Z.pdf", mkFile 0 (t0 - 20000) None);
      ("/tmp/notes.txt", mkFile 12 (t0 - 30000) None);
      ("/tmp/archive/scan-old.pdf", mkFile 900 (t0 - 90000) (Some [9%nat])) ]
    noAnswer.


(** One scan in the output directory. *)
Definition oneScan : World :=
  world baseSettings [ ("/tmp/scan-2026-11-03T06-20-55-123Z.pdf", pageA) ] noAnswer.

(** A duplex batch of eleven sides has just been written; side 3 is empty. *)
Definition batchPrefix : string := "scan-2026-11-03T06-21-00-123Z-p".

Definition batchOf (sizes : list Z) : list (string * File) :=
  batchFiles ("/tmp/" ++ batchPrefix) ".pdf" 1 t0
    (List.map (fun sz => (sz, Some [1%nat])) sizes) [].

Definition afterBatch : World :=
  world (withDuplex true baseSettings)
    (("/tmp/scan-2026-11-03T06-20-55-123Z.pdf", pageA)
       :: batchOf [100; 100; 0; 100; 100; 100; 100; 100; 100; 100; 100])
    noAnswer.

(** The same batch in a directory that lists its entries in the order of
    their names: sides 10 and 11 come before side 2.  Side 3 is empty. *)
Definition batchListedByName : World :=
  world (withDuplex true baseSettings)
    (List.map
       (fun e => ("/tmp/" ++ batchPrefix ++ JS.ofZ (fst e) ++ ".pdf",
                  mkFile (snd e) t0 (Some [1%nat])))
       [ (1, 100); (10, 100); (11, 100); (2, 100); (3, 0); (4, 100); (5, 100);
         (6, 100); (7, 100); (8, 100); (9, 100) ])
    noAnswer.

Definition scanPath : string := "/tmp/scan-2026-11-03T06-20-55-123Z.pdf".

(** The scan was added to a session of its own ... *)
Definition ownSession : World :=
  snd (DocumentSessionManager.addPageToSession "letters" scanPath oneScan).

(** ... and then deleted through the default session. *)
Definition orphanedSession : World :=
  snd (DocumentSessionManager.removePageFromSession "default" scanPath ownSession).

Definition withFormat (fmt : string) (w : World) : World :=
  let st := settings w in
  mkWorld
    (mkSettings (paperlessApiUrl st) (paperlessApiToken st) (scanOutputDir st)
       (scanResolution st) (defaultTags st) (scannerDeviceUrl st) (pageWidth st)
       (pageHeight st) (source st) (duplex st) (swskip st) fmt)
    (platform w) (clock w) (dirs w) (files w) (oracle w) (execLog w)
    (idOracle w) (idCalls w) (pdfSize w) (cachedScanner w)
    (lastSuccessfulScan w) (sessions w) (heap w).



(** A file that is no scan was added to a session of its own, in a
    directory that holds two scans. *)
Definition notesSession : World :=
  snd (DocumentSessionManager.addPageToSession "letters" "/tmp/notes.txt" twoScans).

(** The default session was read while the directory held one scan; then
    a second, older scan arrived in the directory. *)
Definition secondScanArrived : World :=
  with_files (files twoScans) (snd (DocumentSessionManager.getSession "default" oneScan)).


(** Next to the scan lies an empty file that is no scan. *)
Definition emptyLetter : World :=
  world baseSettings
    [ ("/tmp/scan-2026-11-03T06-20-55-123Z.pdf", pageA);
      ("/tmp/letter.pdf", mkFile 0 (t0 - 7000) None) ]
    noAnswer.

(** The help query of the scanner works. *)
Definition helpWorks : World :=
  world baseSettings []
    (fun _ => mkExecResult (Exited "Usage: scanimage [OPTION]..." EmptyString) [] 30).

(** No device is configured; the listing names one scanner and the capture
    works. *)
Definition detectedCapture : World :=
  world baseSettings []
    (fun n =>
       match n with
       | O => mkExecResult
                (Exited "device `epson2:libusb:001:004' is a Epson PerfectionV19 flatbed scanner"
                        EmptyString) [] 40
       | _ => mkExecResult (Exited EmptyString EmptyString) [(52000, Some [1%nat])] 9000
       end).

(** A duplex scan whose batch command fails after two sides were
    written. *)
Definition brokenBatch : World :=
  world (withDuplex true (withDevice "escl:https://192.168.178.188:443" baseSettings))
    [ ("/tmp/scan-2026-11-03T06-20-55-123Z.pdf", pageA) ]
    (fun _ => mkExecResult
       (Rejected "Command failed: scanimage
scanimage: sane_read: Document feeder jammed")
       [(52000, Some [1%nat]); (300, None)] 3000).

(** Two TIFF scans in a session of their own; the file of the first one is
    then deleted. *)
Definition tiffA : string := "/tmp/scan-2026-11-03T06-20-51-123Z.tiff".
Definition tiffB : string := "/tmp/scan-2026-11-03T06-20-55-123Z.tiff".

Definition tiffSession : World :=
  let w0 :=
    world
      (mkSettings "http://paperless.local:8000" "token" "/tmp" 300 ["scanned"]
         (Some EmptyString) (Some 0) (Some 0) (Some EmptyString) (Some false) (Some 0) "tiff")
      [ (tiffA, pageB); (tiffB, pageA) ]
      (fun _ => mkExecResult (Exited EmptyString EmptyString) [(90000, Some [2%nat])] 700) in
  let w1 := snd (DocumentSessionManager.addPageToSession "letters" tiffA w0) in
  let w2 := snd (DocumentSessionManager.addPageToSession "letters" tiffB w1) in
  with_files (removeFile tiffA (files w2)) w2.

End Scenario.

(* ===================================================================== *)
(** ** Reasoning about methods                                            *)
(* ===================================================================== *)

(** A method that relates every world it starts in to the world it ends
    in, whether it returns or throws. *)
Definition preserves {A} (R : World -> World -> Prop) (m : M A) : Prop :=
  forall w, R w (snd (m w)).

(** The world in which the answer to the listing command is examined. *)
Definition afterListing (w : World) : World :=
  snd (exec "scanimage -L" NoOutput w).

Definition sameFiles (w w' : World) : Prop := files w' = files w.
Definition sameLog (w w' : World) : Prop := execLog w' = execLog w.

Section Frames.
Variable R : World -> World -> Prop.
Hypothesis R_refl : forall w, R w w.
Hypothesis R_trans : forall a b c, R a b -> R b c -> R a c.

Lemma preserves_ret {A} (a : A) : preserves R (ret a).
Proof. intros w. apply R_refl. Qed.

Lemma preserves_throw {A} (e : string) : preserves R (@throw A e).
Proof. intros w. apply R_refl. Qed.

Lemma preserves_gets {A} (f : World -> A) : preserves R (gets f).
Proof. intros w. apply R_refl. Qed.

Lemma preserves_bind {A B} (m : M A) (k : A -> M B) :
  preserves R m -> (forall a, preserves R (k a)) -> preserves R (bind m k).
Proof.
  intros Hm Hk w. unfold bind. specialize (Hm w).
  destruct (m w) as [[a | e] w1]; simpl in *; [|assumption].
  eapply R_trans; [exact Hm | apply Hk].
Qed.

Lemma preserves_try_catch {A} (m : M A) (h : string -> M A) :
  preserves R m -> (forall e, preserves R (h e)) -> preserves R (try_catch m h).
Proof.
  intros Hm Hh w. unfold try_catch. specialize (Hm w).
  destruct (m w) as [[a | e] w1]; simpl in *; [assumption|].
  eapply R_trans; [exact Hm | apply Hh].
Qed.

Lemma preserves_modify (f : World -> World) :
  (forall w, R w (f w)) -> preserves R (modify f).
Proof. intros Hf w. apply Hf. Qed.

Lemma preserves_forEach {A} (l : list A) (body : A -> M unit) :
  (forall a, preserves R (body a)) -> preserves R (forEach l body).
Proof.
  intros Hb. induction l as [|a l IH]; simpl.
  - apply preserves_ret.
  - apply preserves_bind; [apply Hb | intros _; exact IH].
Qed.

Lemma preserves_mapM {A B} (f : A -> M B) (l : list A) :
  (forall a, preserves R (f a)) -> preserves R (mapM f l).
Proof.
  intros Hf. induction l as [|a l IH]; simpl.
  - apply preserves_ret.
  - apply preserves_bind; [apply Hf | intros b].
    apply preserves_bind; [exact IH | intros bs; apply preserves_ret].
Qed.
End Frames.

(** Splits a goal [preserves R m] along the structure of [m]. *)
Ltac frame_step R_refl R_trans :=
  lazymatch goal with
  | |- preserves _ (bind _ _) => apply (preserves_bind _ R_trans); [|intros ?]
  | |- preserves _ (try_catch _ _) => apply (preserves_try_catch _ R_trans); [|intros ?]
  | |- preserves _ (ret _) => apply (preserves_ret _ R_refl)
  | |- preserves _ (throw _) => apply (preserves_throw _ R_refl)
  | |- preserves _ (gets _) => apply (preserves_gets _ R_refl)
  | |- preserves _ now => apply (preserves_gets _ R_refl)
  | |- preserves _ (forEach _ _) => apply (preserves_forEach _ R_refl R_trans); intros ?
  | |- preserves _ (mapM _ _) => apply (preserves_mapM _ R_refl R_trans); intros ?
  | |- preserves _ (if ?b then _ else _) => destruct b
  | |- preserves _ (match ?x with _ => _ end) => destruct x
  | |- preserves _ (let _ := _ in _) => cbv zeta
  end.

(** *** Unchanged parts of the world *)

Lemma sameFiles_refl w : sameFiles w w.
Proof. reflexivity. Qed.
Lemma sameFiles_trans a b c : sameFiles a b -> sameFiles b c -> sameFiles a c.
Proof. unfold sameFiles. congruence. Qed.
Lemma sameLog_refl w : sameLog w w.
Proof. reflexivity. Qed.
Lemma sameLog_trans a b c : sameLog a b -> sameLog b c -> sameLog a c.
Proof. unfold sameLog. congruence. Qed.

Ltac files_frame := repeat frame_step sameFiles_refl sameFiles_trans.
Ltac log_frame := repeat frame_step sameLog_refl sameLog_trans.

(** A command without an output location leaves the files alone. *)
Lemma exec_NoOutput_files cmd : preserves sameFiles (exec cmd NoOutput).
Proof.
  intros w. unfold exec, sameFiles.
  destruct (status (oracle w (length (execLog w)))); reflexivity.
Qed.

Lemma sleep_files ms : preserves sameFiles (sleep ms).
Proof. intros w. reflexivity. Qed.

Lemma getCachedScanner_files : preserves sameFiles ScannerManager.getCachedScanner.
Proof. unfold ScannerManager.getCachedScanner. files_frame. Qed.

Lemma getCachedScanner_state w : snd (ScannerManager.getCachedScanner w) = w.
Proof.
  unfold ScannerManager.getCachedScanner, bind, gets, now, ret. simpl.
  destruct (cachedScanner w), (lastSuccessfulScan w); simpl; try reflexivity.
  destruct (_ <? _); reflexivity.
Qed.

Lemma markSuccessfulScan_files s : preserves sameFiles (ScannerManager.markSuccessfulScan s).
Proof. intros w. reflexivity. Qed.

Lemma cachedOr_files e : preserves sameFiles (ScannerManager.cachedOr e).
Proof.
  unfold ScannerManager.cachedOr. files_frame. apply getCachedScanner_files.
Qed.

Lemma detectScanners_files : preserves sameFiles ScannerManager.detectScanners.
Proof.
  unfold ScannerManager.detectScanners.
  files_frame;
    try apply exec_NoOutput_files; try apply getCachedScanner_files;
    try apply cachedOr_files; try (apply preserves_modify; intros; reflexivity).
Qed.

Lemma attemptFix_files : preserves sameFiles ScannerManager.attemptFix.
Proof.
  unfold ScannerManager.attemptFix, ScannerManager.bestEffort.
  files_frame;
    try apply exec_NoOutput_files; try apply sleep_files;
    try apply detectScanners_files.
Qed.

(** A guarded block that ignores its exception always returns. *)
Lemma swallowed_returns (m : M unit) w :
  fst (try_catch m (fun _ => ret tt) w) = Return tt.
Proof.
  unfold try_catch. destruct (m w) as [[[]|e] w1]; reflexivity.
Qed.

(* ===================================================================== *)
(** ** Paths and files                                                    *)
(* ===================================================================== *)

Lemma append_inj_r (a b c : string) : (a ++ b)%string = (a ++ c)%string -> b = c.
Proof.
  induction a as [|x a IH]; simpl; intros H; [exact H|].
  injection H as H. exact (IH H).
Qed.

Lemma path_join_inj dir n n' : path_join dir n = path_join dir n' -> n = n'.
Proof.
  unfold path_join. intros H. apply append_inj_r in H. apply append_inj_r in H. exact H.
Qed.

Lemma stripPrefix_Some pre p r : stripPrefix pre p = Some r -> p = (pre ++ r)%string.
Proof.
  revert p. induction pre as [|a pre IH]; intros p; simpl.
  - intros [= ->]. reflexivity.
  - destruct p as [|b p]; [discriminate|].
    destruct (Ascii.eqb_spec a b) as [->|]; [|discriminate].
    intros H. f_equal. exact (IH _ H).
Qed.

Lemma entryName_Some dir p n : entryName dir p = Some n -> p = path_join dir n.
Proof.
  unfold entryName, path_join.
  destruct (stripPrefix (dir ++ "/") p) as [r|] eqn:E; [|discriminate].
  destruct (JS.includes r "/"); [discriminate|]. intros [= ->].
  apply stripPrefix_Some in E. rewrite E.
  clear. induction dir as [|a dir IH]; simpl; [reflexivity | now rewrite IH].
Qed.

Lemma append_length (a b : string) :
  String.length (a ++ b) = (String.length a + String.length b)%nat.
Proof. induction a as [|x a IH]; simpl; [reflexivity | now rewrite IH]. Qed.

Lemma string_app_assoc (a b c : string) : ((a ++ b) ++ c = a ++ b ++ c)%string.
Proof. induction a as [|x a IH]; simpl; [reflexivity | now rewrite IH]. Qed.

Lemma string_app_nil_r (a : string) : (a ++ EmptyString)%string = a.
Proof. induction a as [|x a IH]; simpl; [reflexivity | now rewrite IH]. Qed.

Lemma temp_path_differs (final : string) : (final ++ ".tmp")%string <> final.
Proof.
  intros H. apply (f_equal String.length) in H. rewrite append_length in H.
  simpl in H. lia.
Qed.

Lemma lookupFile_remove_same p fs : lookupFile p (removeFile p fs) = None.
Proof.
  unfold lookupFile, removeFile. induction fs as [|[q f] fs IH]; simpl; [reflexivity|].
  destruct (String.eqb_spec q p) as [->|Hne]; simpl; [exact IH|].
  destruct (String.eqb_spec q p); [contradiction | exact IH].
Qed.

Lemma lookupFile_remove_other p q fs :
  p <> q -> lookupFile p (removeFile q fs) = lookupFile p fs.
Proof.
  intros Hne. unfold lookupFile, removeFile.
  induction fs as [|[x f] fs IH]; simpl; [reflexivity|].
  destruct (String.eqb_spec x q) as [->|Hxq]; simpl.
  - destruct (String.eqb_spec q p); [congruence | exact IH].
  - destruct (String.eqb_spec x p); [reflexivity | exact IH].
Qed.

Lemma lookupFile_app p fs fs' :
  lookupFile p (fs ++ fs') =
  match lookupFile p fs with
  | Some f => Some f
  | None => lookupFile p fs'
  end.
Proof.
  unfold lookupFile. induction fs as [|[x f] fs IH]; simpl; [reflexivity|].
  destruct (String.eqb_spec x p); [reflexivity | exact IH].
Qed.

Lemma lookupFile_write_same p f fs : lookupFile p (writeFile p f fs) = Some f.
Proof.
  unfold writeFile. rewrite lookupFile_app, lookupFile_remove_same.
  unfold lookupFile. simpl. now rewrite String.eqb_refl.
Qed.

Lemma lookupFile_write_other p q f fs :
  p <> q -> lookupFile p (writeFile q f fs) = lookupFile p fs.
Proof.
  intros Hne. unfold writeFile. rewrite lookupFile_app, lookupFile_remove_other by exact Hne.
  destruct (lookupFile p fs); [reflexivity|].
  unfold lookupFile. simpl. destruct (String.eqb_spec q p); [congruence | reflexivity].
Qed.

Lemma lookupFile_In p f fs : wellFormed fs -> In (p, f) fs -> lookupFile p fs = Some f.
Proof.
  unfold wellFormed, lookupFile. induction fs as [|[q g] fs IH]; simpl; [intros _ []|].
  intros Hnd [H|H].
  - injection H as -> ->. now rewrite String.eqb_refl.
  - inversion Hnd as [|? ? Hnotin Hnd']; subst.
    destruct (String.eqb_spec q p) as [->|Hne].
    + exfalso. apply Hnotin. apply in_map_iff. exists (p, f). split; [reflexivity | exact H].
    + apply IH; assumption.
Qed.


(** The entries of a directory are its listing, with their files. *)
Lemma listing_dirFiles dir fs : listing dir fs = List.map fst (dirFiles dir fs).
Proof.
  induction fs as [|[p f] fs IH]; simpl; [reflexivity|].
  destruct (entryName dir p); simpl; [now rewrite IH | exact IH].
Qed.

Lemma dirFiles_In dir fs n f :
  In (n, f) (dirFiles dir fs) -> In (path_join dir n, f) fs.
Proof.
  induction fs as [|[p g] fs IH]; simpl; [intros []|].
  destruct (entryName dir p) as [m|] eqn:E.
  - intros [H|H].
    + injection H as -> ->. left. apply entryName_Some in E. now rewrite E.
    + right. exact (IH H).
  - intros H. right. exact (IH H).
Qed.

Lemma dirFiles_NoDup dir fs : wellFormed fs -> List.NoDup (List.map fst (dirFiles dir fs)).
Proof.
  unfold wellFormed. induction fs as [|[p g] fs IH]; simpl; [constructor|].
  intros Hnd. inversion Hnd as [|? ? Hnotin Hnd']; subst.
  destruct (entryName dir p) as [m|] eqn:E; [|apply IH; exact Hnd'].
  simpl. constructor; [|apply IH; exact Hnd'].
  intros Hin. apply Hnotin. apply in_map_iff in Hin. destruct Hin as [[x y] [Hx Hin]].
  simpl in Hx. subst x. apply dirFiles_In in Hin.
  apply entryName_Some in E. subst p.
  apply in_map_iff. exists (path_join dir m, y). split; [reflexivity | exact Hin].
Qed.

(* ===================================================================== *)
(** ** The stable sort                                                    *)
(* ===================================================================== *)

Section SortFacts.
Context {A : Type}.

Lemma insert_Permutation (cmp : A -> A -> option Z) a l :
  Permutation (JS.insert cmp a l) (a :: l).
Proof.
  induction l as [|b l IH]; simpl; [reflexivity|].
  destruct (JS.before cmp a b); [reflexivity|].
  rewrite IH. apply perm_swap.
Qed.

Lemma sort_Permutation (cmp : A -> A -> option Z) l : Permutation (JS.sort cmp l) l.
Proof.
  induction l as [|a l IH]; simpl; [reflexivity|].
  rewrite insert_Permutation. now constructor.
Qed.

Lemma sort_In (cmp : A -> A -> option Z) l x : In x (JS.sort cmp l) <-> In x l.
Proof.
  split; apply Permutation_in; [|symmetry]; apply sort_Permutation.
Qed.

Lemma sort_length (cmp : A -> A -> option Z) l : length (JS.sort cmp l) = length l.
Proof. apply Permutation_length, sort_Permutation. Qed.

Lemma sort_NoDup (cmp : A -> A -> option Z) l : List.NoDup l -> List.NoDup (JS.sort cmp l).
Proof.
  intros H. eapply Permutation_NoDup; [symmetry; apply sort_Permutation | exact H].
Qed.



(** Sorting by a numeric key orders the keys. *)
Variable key : A -> Z.

Lemma insert_sorted a l :
  StronglySorted (fun x y => key x <= key y) l ->
  StronglySorted (fun x y => key x <= key y) (JS.insert (byKey key) a l).
Proof.
  induction 1 as [|b l Hs IH Hall]; simpl.
  - constructor; constructor.
  - unfold JS.before, byKey. destruct (Z.leb_spec (key a - key b) 0) as [Hle|Hgt].
    + constructor; [constructor; assumption|].
      constructor; [lia|]. apply List.Forall_forall. intros c Hc.
      rewrite List.Forall_forall in Hall. specialize (Hall c Hc). lia.
    + constructor; [exact IH|].
      eapply Permutation_Forall; [symmetry; apply insert_Permutation|].
      constructor; [lia | exact Hall].
Qed.

Lemma sort_sorted l :
  StronglySorted (fun x y => key x <= key y) (JS.sort (byKey key) l).
Proof.
  induction l as [|a l IH]; simpl; [constructor | apply insert_sorted, IH].
Qed.
End SortFacts.


(** Sorting commutes with a map the comparator factors through. *)
Lemma insert_map {A B} (f : A -> B) (cmp : B -> B -> option Z) a l :
  List.map f (JS.insert (fun x y => cmp (f x) (f y)) a l) =
  JS.insert cmp (f a) (List.map f l).
Proof.
  induction l as [|b l IH]; simpl; [reflexivity|].
  unfold JS.before. destruct (cmp (f a) (f b)) as [n|]; [destruct (n <=? 0)|];
    simpl; try reflexivity.
  now rewrite IH.
Qed.

Lemma sort_map {A B} (f : A -> B) (cmp : B -> B -> option Z) l :
  List.map f (JS.sort (fun x y => cmp (f x) (f y)) l) = JS.sort cmp (List.map f l).
Proof.
  induction l as [|a l IH]; simpl; [reflexivity|].
  now rewrite insert_map, IH.
Qed.

(* ===================================================================== *)
(** ** The scanner cache                                                  *)
(* ===================================================================== *)

Lemma getCachedScanner_eq w :
  ScannerManager.getCachedScanner w =
  (Return match cachedScanner w, lastSuccessfulScan w with
          | Some s, Some T =>
              if clock w - T <? 60 * 60 * 1000 then Some s else None
          | _, _ => None
          end, w).
Proof.
  unfold ScannerManager.getCachedScanner, bind, now, gets, ret.
  destruct (cachedScanner w) as [s|], (lastSuccessfulScan w) as [T|]; try reflexivity.
  unfold ScannerManager.hour.
  destruct (Z.ltb_spec (clock w - 60 * 60 * 1000) T),
           (Z.ltb_spec (clock w - T) (60 * 60 * 1000)); try reflexivity; lia.
Qed.

(** A successful detection replaces the cached scanner and leaves the time
    of the last successful scan as it was. *)
Lemma detectScanners_keeps_timestamp w :
  lastSuccessfulScan (snd (ScannerManager.detectScanners w)) = lastSuccessfulScan w.
Proof.
  assert (Hp : preserves (fun a b => lastSuccessfulScan b = lastSuccessfulScan a)
                 ScannerManager.detectScanners).
  { assert (Hr : forall a : World, lastSuccessfulScan a = lastSuccessfulScan a)
      by reflexivity.
    assert (Ht : forall a b c : World,
               lastSuccessfulScan b = lastSuccessfulScan a ->
               lastSuccessfulScan c = lastSuccessfulScan b ->
               lastSuccessfulScan c = lastSuccessfulScan a) by (intros; congruence).
    assert (Hg : preserves (fun a b => lastSuccessfulScan b = lastSuccessfulScan a)
                   ScannerManager.getCachedScanner).
    { intros a. now rewrite getCachedScanner_state. }
    unfold ScannerManager.detectScanners, ScannerManager.cachedOr.
    repeat frame_step Hr Ht; try exact Hg;
      try (apply preserves_modify; intros; reflexivity).
    intros a. unfold exec. destruct (status _); reflexivity. }
  apply Hp.
Qed.

(** C8.  [getCachedScanner] returns a scanner exactly when one is cached
    and the last successful scan lies strictly less than one hour in the
    past, and it changes nothing.  A scanner marked successful at time [T]
    is therefore returned at every instant before [T] plus one hour, and at
    that instant and at every later one the answer is null. *)
Theorem getCachedScanner_fresh_for_one_hour :
  (forall w,
     ScannerManager.getCachedScanner w =
     (Return match cachedScanner w, lastSuccessfulScan w with
             | Some s, Some T =>
                 if clock w - T <? 60 * 60 * 1000 then Some s else None
             | _, _ => None
             end, w)) /\
  (forall w s,
     fst (ScannerManager.getCachedScanner w) = Return (Some s) <->
     cachedScanner w = Some s /\
     exists T, lastSuccessfulScan w = Some T /\ clock w - T < 60 * 60 * 1000) /\
  (forall w s later,
     let marked := snd (ScannerManager.markSuccessfulScan s w) in
     let T := clock w in
     fst (ScannerManager.getCachedScanner (with_clock later marked)) =
     Return (if later <? T + 60 * 60 * 1000 then Some s else None)) /\
  (forall w s later,
     clock w + 60 * 60 * 1000 <= later ->
     fst (ScannerManager.getCachedScanner
            (with_clock later (snd (ScannerManager.markSuccessfulScan s w)))) =
     Return None).
Proof.
  split; [exact getCachedScanner_eq|]. split; [|split].
  - intros w s. rewrite getCachedScanner_eq. simpl. split.
    + destruct (cachedScanner w) as [c|], (lastSuccessfulScan w) as [T|]; try discriminate.
      destruct (Z.ltb_spec (clock w - T) (60 * 60 * 1000)); try discriminate.
      intros [= ->]. split; [reflexivity|]. exists T. split; [reflexivity | assumption].
    + intros [-> [T [-> HT]]].
      destruct (Z.ltb_spec (clock w - T) (60 * 60 * 1000)); [reflexivity | lia].
  - intros w s later. cbv zeta. rewrite getCachedScanner_eq. simpl.
    destruct (Z.ltb_spec (later - clock w) (60 * 60 * 1000)),
             (Z.ltb_spec later (clock w + 60 * 60 * 1000)); try reflexivity; lia.
  - intros w s later Hlate. rewrite getCachedScanner_eq. simpl.
    destruct (Z.ltb_spec (later - clock w) (60 * 60 * 1000)); [lia | reflexivity].
Qed.

(* ===================================================================== *)
(** ** Scanner detection                                                  *)
(* ===================================================================== *)

(** A cache is fresh when a scan succeeded with it less than an hour ago. *)
Lemma getCachedScanner_fresh w s T :
  cachedScanner w = Some s -> lastSuccessfulScan w = Some T ->
  clock w - T < 60 * 60 * 1000 ->
  ScannerManager.getCachedScanner w = (Return (Some s), w).
Proof.
  intros Hc HT Hfresh. rewrite getCachedScanner_eq, Hc, HT.
  destruct (Z.ltb_spec (clock w - T) (60 * 60 * 1000)); [reflexivity | lia].
Qed.

Lemma cachedOr_fresh w s T e :
  cachedScanner w = Some s -> lastSuccessfulScan w = Some T ->
  clock w - T < 60 * 60 * 1000 ->
  ScannerManager.cachedOr e w = (Return (ScannerManager.mkDetection [s] None), w).
Proof.
  intros Hc HT Hfresh. unfold ScannerManager.cachedOr, bind.
  rewrite (getCachedScanner_fresh w s T) by assumption. reflexivity.
Qed.

(** A failing listing command falls back to a fresh cache. *)
Lemma detectScanners_command_error_falls_back w message s T :
  status (oracle w (length (execLog w))) = Rejected message ->
  cachedScanner w = Some s -> lastSuccessfulScan w = Some T ->
  clock (afterListing w) - T < 60 * 60 * 1000 ->
  fst (ScannerManager.detectScanners w) = Return (ScannerManager.mkDetection [s] None).
Proof.
  intros Hst Hc HT Hfresh. unfold afterListing in Hfresh.
  unfold ScannerManager.detectScanners, try_catch, bind.
  unfold exec in *. rewrite Hst in *. cbv beta iota zeta in *.
  erewrite getCachedScanner_fresh; [reflexivity | exact Hc | exact HT | exact Hfresh].
Qed.

(** So does the explicit message that no scanner was identified. *)
Lemma detectScanners_no_scanners_message_falls_back w stdout stderr s T :
  status (oracle w (length (execLog w))) = Exited stdout stderr ->
  JS.includes stdout "No scanners were identified" = true \/
  JS.includes stderr "No scanners were identified" = true ->
  cachedScanner w = Some s -> lastSuccessfulScan w = Some T ->
  clock (afterListing w) - T < 60 * 60 * 1000 ->
  fst (ScannerManager.detectScanners w) = Return (ScannerManager.mkDetection [s] None).
Proof.
  intros Hst Hmsg Hc HT Hfresh. unfold afterListing in Hfresh.
  assert (Hor : JS.includes stdout "No scanners were identified" ||
                JS.includes stderr "No scanners were identified" = true).
  { destruct Hmsg as [-> | ->]; [reflexivity | apply orb_true_r]. }
  unfold ScannerManager.detectScanners, try_catch, bind.
  unfold exec in *. rewrite Hst in *. cbv beta iota zeta in *. unfold ret at 1.
  cbv beta iota. rewrite Hor.
  erewrite cachedOr_fresh; [reflexivity | exact Hc | exact HT | exact Hfresh].
Qed.

(** So does empty output. *)
Lemma detectScanners_empty_output_falls_back w stdout stderr s T :
  status (oracle w (length (execLog w))) = Exited stdout stderr ->
  JS.trim stdout = EmptyString ->
  cachedScanner w = Some s -> lastSuccessfulScan w = Some T ->
  clock (afterListing w) - T < 60 * 60 * 1000 ->
  fst (ScannerManager.detectScanners w) = Return (ScannerManager.mkDetection [s] None).
Proof.
  intros Hst Hblank Hc HT Hfresh. unfold afterListing in Hfresh.
  unfold ScannerManager.detectScanners, try_catch, bind.
  unfold exec in *. rewrite Hst in *. cbv beta iota zeta in *. unfold ret at 1.
  cbv beta iota. rewrite Hblank.
  replace (negb (JS.truthy stdout) || String.eqb EmptyString EmptyString) with true
    by (symmetry; apply orb_true_r).
  destruct (_ || _);
    (erewrite cachedOr_fresh; [reflexivity | exact Hc | exact HT | exact Hfresh]).
Qed.

(** Output that is not blank, does not carry the message and yields no
    scanner is answered with the parse error, whatever the cache holds. *)
Lemma detectScanners_unparsed_output_ignores_cache w stdout stderr :
  status (oracle w (length (execLog w))) = Exited stdout stderr ->
  JS.includes stdout "No scanners were identified" = false ->
  JS.includes stderr "No scanners were identified" = false ->
  JS.truthy stdout = true ->
  JS.trim stdout <> EmptyString ->
  let lines := List.filter (fun line => JS.truthy (JS.trim line))
                 (JS.splitChar "010" stdout) in
  lines <> [] ->
  ScannerManager.parseLines lines = [] ->
  fst (ScannerManager.detectScanners w) =
  Return (ScannerManager.mkDetection []
    (Some ("Could not parse scanner information. Raw output: " ++ JS.join " | " lines))).
Proof.
  intros Hst H1 H2 H3 H4 lines Hlines Hparse.
  unfold ScannerManager.detectScanners, try_catch, bind.
  unfold exec. rewrite Hst. cbv beta iota zeta. unfold ret at 1.
  cbv beta iota. rewrite H1, H2, H3.
  destruct (String.eqb_spec (JS.trim stdout) EmptyString) as [Hb|_]; [contradiction|].
  cbn [orb negb]. fold lines. rewrite Hparse.
  destruct lines; [contradiction | reflexivity].
Qed.

(** *** The last fallback of the detection is never reached *)

Lemma trimStart_blank s : JS.trimStart s = EmptyString <-> blank s = true.
Proof.
  induction s as [|c s IH]; simpl; [tauto|].
  destruct (JS.isSpace c); simpl; [exact IH|].
  split; discriminate.
Qed.

Lemma trimStart_head s c r : JS.trimStart s = String c r -> JS.isSpace c = false.
Proof.
  induction s as [|a s IH]; simpl; [discriminate|].
  destruct (JS.isSpace a) eqn:Ea; [exact IH|]. intros [= <- <-]. exact Ea.
Qed.

Lemma rev_onto_blank s acc : blank (JS.rev_onto s acc) = blank s && blank acc.
Proof.
  revert acc. induction s as [|c s IH]; intros acc; simpl; [reflexivity|].
  rewrite IH. simpl. destruct (JS.isSpace c), (blank s); reflexivity.
Qed.

Lemma rev_onto_empty s acc : JS.rev_onto s acc = EmptyString -> s = EmptyString.
Proof.
  revert acc. induction s as [|c s IH]; intros acc; simpl; [reflexivity|].
  intros H. pose proof (IH _ H) as Hs. subst s. discriminate H.
Qed.

Lemma trim_blank s : JS.trim s = EmptyString <-> blank s = true.
Proof.
  unfold JS.trim, JS.trimEnd, JS.reverse. split.
  - intros H. apply rev_onto_empty in H. apply trimStart_blank in H.
    rewrite rev_onto_blank, andb_true_r in H.
    destruct (JS.trimStart s) as [|c r] eqn:E; [apply trimStart_blank; exact E|].
    apply trimStart_head in E. simpl in H. rewrite E in H. discriminate.
  - intros H. apply trimStart_blank in H. rewrite H. reflexivity.
Qed.

Lemma splitChar_nonempty sep s : JS.splitChar sep s <> [].
Proof.
  destruct s as [|c s]; simpl; [discriminate|].
  destruct (Ascii.eqb c sep); [discriminate|].
  destruct (JS.splitChar sep s); discriminate.
Qed.

(** A string that is not blank has a line that is not blank. *)
Lemma nonblank_line s :
  blank s = false ->
  exists line, In line (JS.splitChar "010" s) /\ blank line = false.
Proof.
  induction s as [|c s IH]; simpl; [discriminate|].
  destruct (Ascii.eqb_spec c "010") as [->|Hc].
  - simpl. intros H. destruct (IH H) as [line [Hin Hb]].
    exists line. split; [right; exact Hin | exact Hb].
  - intros H. pose proof (splitChar_nonempty "010" s) as Hne.
    destruct (JS.splitChar "010" s) as [|w ws]; [contradiction|].
    destruct (JS.isSpace c) eqn:Ec; simpl in H.
    + destruct (IH H) as [line [[<-|Hin] Hb]].
      * exists (String c w). split; [left; reflexivity|]. simpl. now rewrite Ec, Hb.
      * exists line. split; [right; exact Hin | exact Hb].
    + exists (String c w). split; [left; reflexivity|]. simpl. now rewrite Ec.
Qed.

(** Output that passed the test for blank output has a line to parse, so
    the branch for "no scanner and no line" cannot be taken. *)
Lemma detectScanners_lines_nonempty stdout :
  JS.trim stdout <> EmptyString ->
  List.filter (fun line => JS.truthy (JS.trim line)) (JS.splitChar "010" stdout) <> [].
Proof.
  intros Hne.
  assert (Hb : blank stdout = false).
  { destruct (blank stdout) eqn:E; [|reflexivity].
    exfalso. apply Hne. apply trim_blank. exact E. }
  destruct (nonblank_line stdout Hb) as [line [Hin Hline]].
  intros Hnil.
  assert (Hin' : In line (List.filter (fun line => JS.truthy (JS.trim line))
                            (JS.splitChar "010" stdout))).
  { apply filter_In. split; [exact Hin|].
    destruct (JS.trim line) eqn:E; [|reflexivity].
    apply trim_blank in E. congruence. }
  rewrite Hnil in Hin'. destruct Hin'.
Qed.

(** So whenever no scanner is parsed from output that is not blank and
    does not carry the message, the answer is the parse error. *)
Lemma detectScanners_zero_parsed_never_falls_back w stdout stderr :
  status (oracle w (length (execLog w))) = Exited stdout stderr ->
  JS.includes stdout "No scanners were identified" = false ->
  JS.includes stderr "No scanners were identified" = false ->
  JS.trim stdout <> EmptyString ->
  ScannerManager.parseLines
    (List.filter (fun line => JS.truthy (JS.trim line)) (JS.splitChar "010" stdout)) = [] ->
  exists message,
    fst (ScannerManager.detectScanners w) =
    Return (ScannerManager.mkDetection [] (Some message)) /\
    JS.startsWith message "Could not parse scanner information." = true.
Proof.
  intros Hst H1 H2 H3 Hparse. eexists. split.
  - apply (detectScanners_unparsed_output_ignores_cache w stdout stderr Hst H1 H2);
      [|exact H3|apply detectScanners_lines_nonempty; exact H3|exact Hparse].
    destruct stdout; [exfalso; apply H3; reflexivity | reflexivity].
  - reflexivity.
Qed.

(** C1.  Ten minutes after a successful scan, a listing that prints one
    device line the parser cannot read is answered with an error and no
    scanner: the cached scanner is not used, although it is still fresh and
    is used when the command fails outright. *)
Theorem detectScanners_unparsed_listing_surfaces_error :
  ScannerManager.getCachedScanner Scenario.unparsedListing =
    (Return (Some Scenario.epson), Scenario.unparsedListing) /\
  fst (ScannerManager.detectScanners Scenario.unparsedListing) =
    Return (ScannerManager.mkDetection []
      (Some "Could not parse scanner information. Raw output: device epson2:libusb:001:004 is a Epson PerfectionV19 flatbed scanner")) /\
  fst (ScannerManager.detectScanners Scenario.failedListing) =
    Return (ScannerManager.mkDetection [Scenario.epson] None).
Proof. repeat split; vm_compute; reflexivity. Qed.

(* ===================================================================== *)
(** ** Temp files of a single-sided scan                                  *)
(* ===================================================================== *)

Lemma noNewEmpty_refl x w : noNewEmpty x w w.
Proof. intros p f _ H _. exact H. Qed.

Lemma noNewEmpty_trans x a b c : noNewEmpty x a b -> noNewEmpty x b c -> noNewEmpty x a c.
Proof. intros Hab Hbc p f Hp Hc Hz. apply Hab; auto. Qed.

Lemma sameFiles_noNewEmpty x {A} (m : M A) :
  preserves sameFiles m -> preserves (noNewEmpty x) m.
Proof.
  intros H w p f _ Hl _. specialize (H w). unfold sameFiles in H. now rewrite <- H.
Qed.

Lemma exec_Redirect_noNewEmpty cmd temp :
  preserves (noNewEmpty temp) (exec cmd (Redirect temp)).
Proof.
  intros w p f Hp. unfold exec.
  destruct (status (oracle w (length (execLog w)))); simpl;
    (destruct (outputs (oracle w (length (execLog w)))) as [|[sz doc] outs]; simpl;
     [auto | rewrite lookupFile_write_other by exact Hp; auto]).
Qed.

(** [statSync] reads the stats of a regular file, or else of a directory,
    and changes nothing. *)
Lemma statSync_eq p w :
  statSync p w =
  match lookupFile p (files w) with
  | Some f => (Return f, w)
  | None =>
      match lookupFile p (dirs w) with
      | Some d => (Return d, w)
      | None => (Throw (enoent "stat" p), w)
      end
  end.
Proof.
  unfold statSync, bind, gets, ret, throw.
  destruct (lookupFile p (files w)); [reflexivity|].
  destruct (lookupFile p (dirs w)); reflexivity.
Qed.

Lemma statSync_state p w : snd (statSync p w) = w.
Proof.
  rewrite statSync_eq. destruct (lookupFile p (files w)); [reflexivity|].
  destruct (lookupFile p (dirs w)); reflexivity.
Qed.

(** Reduction along two lookups that are known. *)
Ltac reduce_by E D := repeat (cbv beta iota; cbn [negb]; rewrite ?E, ?D).

(** What the guarded removal does. *)
Lemma removeZeroByteTemp_eq temp w :
  removeZeroByteTemp temp w =
  (Return tt,
   match lookupFile temp (files w) with
   | Some f => if fileSize f =? 0 then with_files (removeFile temp (files w)) w else w
   | None => w
   end).
Proof.
  unfold removeZeroByteTemp, try_catch, bind, existsSync, statSync, unlinkSync,
    bind, gets, modify, ret, throw.
  destruct (lookupFile temp (files w)) as [f|] eqn:E; simpl.
  - rewrite E. destruct (fileSize f =? 0); [rewrite E|]; reflexivity.
  - destruct (isDir temp w) eqn:I; [|reflexivity]. unfold isDir in *.
    destruct (lookupFile temp (dirs w)) as [d|] eqn:D; [|discriminate].
    reduce_by E D. destruct (fileSize d =? 0); [|reflexivity].
    reduce_by E D. reflexivity.
Qed.

Lemma removeZeroByteTemp_noEmpty temp w :
  noEmptyFile temp (files (snd (removeZeroByteTemp temp w))).
Proof.
  rewrite removeZeroByteTemp_eq. simpl. intros f.
  destruct (lookupFile temp (files w)) as [g|] eqn:E.
  - destruct (Z.eqb_spec (fileSize g) 0) as [Hz|Hnz]; simpl.
    + rewrite lookupFile_remove_same. discriminate.
    + rewrite E. intros [= <-]. exact Hnz.
  - rewrite E. discriminate.
Qed.

Lemma removeZeroByteTemp_noNewEmpty temp x :
  preserves (noNewEmpty x) (removeZeroByteTemp temp).
Proof.
  intros w p f Hp. rewrite removeZeroByteTemp_eq. simpl.
  destruct (lookupFile temp (files w)) as [g|] eqn:E; [|auto].
  destruct (fileSize g =? 0); [|auto]. simpl.
  destruct (String.eqb_spec p temp) as [->|Hne].
  - rewrite lookupFile_remove_same. discriminate.
  - rewrite lookupFile_remove_other by exact Hne. auto.
Qed.

(** What the check after a capture command does. *)
Lemma finishCapture_eq temp final scanner w :
  finishCapture temp final scanner w =
  match lookupFile temp (files w) with
  | None =>
      match lookupFile temp (dirs w) with
      | Some d =>
          if fileSize d =? 0
          then (Throw (unlinkDirError (platform w) temp), w)
          else (Throw (enoent "rename" temp), w)
      | None => (Throw "Scan failed - no file was created", w)
      end
  | Some f =>
      if fileSize f =? 0
      then (Throw "Scan failed - empty file created",
            with_files (removeFile temp (files w)) w)
      else
        let moved := with_files (writeFile final f (removeFile temp (files w))) w in
        (Return [final],
         match scanner with
         | Some s => snd (ScannerManager.markSuccessfulScan s moved)
         | None => moved
         end)
  end.
Proof.
  unfold finishCapture, bind, existsSync, statSync, unlinkSync, renameSync,
    bind, gets, modify, ret, throw.
  destruct (lookupFile temp (files w)) as [f|] eqn:E; simpl.
  - rewrite E. destruct (fileSize f =? 0); rewrite E; [reflexivity|].
    destruct scanner; reflexivity.
  - unfold isDir. destruct (lookupFile temp (dirs w)) as [d|] eqn:D; [|reflexivity].
    reduce_by E D. destruct (fileSize d =? 0); reduce_by E D; reflexivity.
Qed.

Lemma finishCapture_noNewEmpty temp final scanner :
  preserves (noNewEmpty temp) (finishCapture temp final scanner).
Proof.
  intros w p f Hp. rewrite finishCapture_eq.
  destruct (lookupFile temp (files w)) as [g|] eqn:E.
  - destruct (Z.eqb_spec (fileSize g) 0) as [Hz|Hnz]; simpl.
    + rewrite lookupFile_remove_other by exact Hp. auto.
    + assert (Hfiles : forall w', files w' = writeFile final g (removeFile temp (files w)) ->
        lookupFile p (files w') = Some f -> fileSize f = 0 ->
        lookupFile p (files w) = Some f).
      { intros w' -> Hl Hz. destruct (String.eqb_spec p final) as [->|Hne].
        - rewrite lookupFile_write_same in Hl. injection Hl as <-. contradiction.
        - rewrite lookupFile_write_other, lookupFile_remove_other in Hl by assumption.
          exact Hl. }
      destruct scanner; apply Hfiles; reflexivity.
  - destruct (lookupFile temp (dirs w)) as [d|]; [destruct (fileSize d =? 0)|]; simpl; auto.
Qed.

Lemma capture_noNewEmpty cmd temp final scanner :
  preserves (noNewEmpty temp) (capture cmd temp final scanner).
Proof.
  unfold capture. apply preserves_bind.
  - apply noNewEmpty_trans.
  - apply exec_Redirect_noNewEmpty.
  - intros _. apply finishCapture_noNewEmpty.
Qed.

(** A capture that returns has moved a non-empty temp file to the final
    path. *)
Lemma capture_returns cmd temp final scanner w l w1 :
  temp <> final ->
  capture cmd temp final scanner w = (Return l, w1) ->
  l = [final] /\ lookupFile temp (files w1) = None /\
  exists f, lookupFile final (files w1) = Some f /\ fileSize f <> 0.
Proof.
  intros Hne. unfold capture, bind.
  destruct (exec cmd (Redirect temp) w) as [[out|e] w0]; [|discriminate].
  rewrite finishCapture_eq.
  destruct (lookupFile temp (files w0)) as [g|] eqn:E.
  - destruct (Z.eqb_spec (fileSize g) 0) as [Hz|Hnz]; [discriminate|].
    intros [= <- <-]. split; [reflexivity|].
    assert (Hfiles : forall w', files w' = writeFile final g (removeFile temp (files w0)) ->
      lookupFile temp (files w') = None /\
      exists f, lookupFile final (files w') = Some f /\ fileSize f <> 0).
    { intros w' ->. split.
      - rewrite lookupFile_write_other, lookupFile_remove_same by exact Hne. reflexivity.
      - exists g. rewrite lookupFile_write_same. split; [reflexivity | exact Hnz]. }
    destruct scanner; apply Hfiles; reflexivity.
  - destruct (lookupFile temp (dirs w0)) as [d|]; [destruct (fileSize d =? 0)|]; discriminate.
Qed.

Lemma attemptFix_returns w : exists r, fst (ScannerManager.attemptFix w) = Return r.
Proof.
  unfold ScannerManager.attemptFix, try_catch.
  match goal with |- context [match ?m w with _ => _ end] => destruct (m w) as [[r|e] w1] end;
    eexists; reflexivity.
Qed.

(** The single-sided branch: no zero-byte temp file is left, no zero-byte
    file is added elsewhere, and a scan that returns has its one non-empty
    file at the final path and nothing at the temp path. *)
Lemma scanSingle_temp cmd temp final scanner w r w' :
  temp <> final ->
  scanSingle cmd temp final scanner w = (r, w') ->
  noEmptyFile temp (files w') /\
  noNewEmpty temp w w' /\
  forall l, r = Return l ->
    l = [final] /\ lookupFile temp (files w') = None /\
    exists f, lookupFile final (files w') = Some f /\ fileSize f <> 0.
Proof.
  intros Hne Hrun.
  assert (Hframe : preserves (noNewEmpty temp) (scanSingle cmd temp final scanner)).
  { unfold scanSingle. fold (capture cmd temp final scanner).
    repeat frame_step (noNewEmpty_refl temp) (noNewEmpty_trans temp);
      try apply capture_noNewEmpty; try apply removeZeroByteTemp_noNewEmpty.
    apply sameFiles_noNewEmpty, attemptFix_files. }
  specialize (Hframe w). rewrite Hrun in Hframe. simpl in Hframe.
  enough (H : noEmptyFile temp (files w') /\
              forall l, r = Return l ->
                l = [final] /\ lookupFile temp (files w') = None /\
                exists f, lookupFile final (files w') = Some f /\ fileSize f <> 0)
    by (destruct H; auto).
  assert (Hok : forall u l u', capture cmd temp final scanner u = (Return l, u') ->
    noEmptyFile temp (files u') /\
    forall l', Return l = Return l' ->
      l' = [final] /\ lookupFile temp (files u') = None /\
      exists f, lookupFile final (files u') = Some f /\ fileSize f <> 0).
  { intros u l u' E. destruct (capture_returns _ _ _ _ _ _ _ Hne E) as [Hl [Hnone Hf]].
    split.
    - intros f. rewrite Hnone. discriminate.
    - intros l' [= <-]. auto. }
  assert (Hclean : forall u (e : string),
    noEmptyFile temp (files (snd (removeZeroByteTemp temp u))) /\
    forall l : list string, @Throw (list string) e = Return l ->
      l = [final] /\ lookupFile temp (files (snd (removeZeroByteTemp temp u))) = None /\
      exists f, lookupFile final (files (snd (removeZeroByteTemp temp u))) = Some f /\
                fileSize f <> 0).
  { intros u e. split; [apply removeZeroByteTemp_noEmpty | discriminate]. }
  unfold scanSingle in Hrun. fold (capture cmd temp final scanner) in Hrun.
  unfold try_catch at 1 in Hrun.
  destruct (capture cmd temp final scanner w) as [[l|e] w1] eqn:E1.
  - injection Hrun as <- <-. exact (Hok _ _ _ E1).
  - unfold bind at 1 in Hrun.
    pose proof (Hclean w1) as Hc1. rewrite removeZeroByteTemp_eq in Hrun, Hc1.
    simpl in Hc1.
    set (w2 := match lookupFile temp (files w1) with
               | Some f => if fileSize f =? 0
                           then with_files (removeFile temp (files w1)) w1 else w1
               | None => w1 end) in *.
    destruct (JS.includes e "no SANE devices found").
    + unfold bind at 1 in Hrun.
      pose proof (attemptFix_files w2) as Hfix. unfold sameFiles in Hfix.
      destruct (attemptFix_returns w2) as [fr Hr].
      destruct (ScannerManager.attemptFix w2) as [fr' w3]. simpl in Hr, Hfix. subst fr'.
      destruct (ScannerManager.success fr).
      * unfold try_catch in Hrun.
        destruct (capture cmd temp final scanner w3) as [[l|e2] w4] eqn:E2.
        -- injection Hrun as <- <-. exact (Hok _ _ _ E2).
        -- unfold bind in Hrun. pose proof (Hclean w4) as Hc4.
           rewrite removeZeroByteTemp_eq in Hrun, Hc4. simpl in Hc4.
           injection Hrun as <- <-. apply Hc4.
      * unfold throw in Hrun. injection Hrun as <- <-. rewrite Hfix. apply Hc1.
    + unfold bind in Hrun. pose proof (Hclean w2) as Hc2.
      rewrite removeZeroByteTemp_eq in Hrun, Hc2. simpl in Hc2.
      injection Hrun as <- <-. apply Hc2.
Qed.

Lemma resolveDevice_files st : preserves sameFiles (resolveDevice st).
Proof.
  unfold resolveDevice. files_frame. apply detectScanners_files.
Qed.

(** The capture broke off after a hundred bytes: the scan fails and the
    temp file stays, with its hundred bytes. *)
Lemma scanPage_broken_capture_leaves_temp_file :
  let '(r, w') := scanPage Scenario.brokenCapture in
  r = Throw "Scan failed: Command failed: scanimage
scanimage: sane_read: Error during device I/O" /\
  lookupFile "/tmp/scan-2026-11-03T06-21-00-123Z.pdf.tmp" (files w') =
    Some (mkFile 100 (Scenario.t0 + 3000) None).
Proof. vm_compute. split; reflexivity. Qed.

(** C4, as the code has it.  After a single-sided scan attempt, whether it
    returned or threw: no zero-byte file lies at the temp path of the
    attempt; every zero-byte file there is anywhere was there before; and
    if the scan returned, it returned one final path, the file at it is not
    empty and nothing lies at the temp path.  (A temp file that a failed
    capture left with content is not removed.) *)
Theorem scanPage_single_leaves_no_empty_file :
  forall w r w',
    duplex (settings w) <> Some true ->
    scanPage w = (r, w') ->
    (forall resolved w1,
       resolveDevice (settings w) w = (Return resolved, w1) ->
       noEmptyFile (finalPathAt (settings w) (clock w1) ++ ".tmp") (files w')) /\
    (forall p f, lookupFile p (files w') = Some f -> fileSize f = 0 ->
                 lookupFile p (files w) = Some f) /\
    (forall l, r = Return l ->
       exists final, l = [final] /\
         lookupFile (final ++ ".tmp") (files w') = None /\
         exists f, lookupFile final (files w') = Some f /\ fileSize f <> 0).
Proof.
  intros w r w' Hsingle Hrun.
  unfold scanPage, bind at 1, gets at 1 in Hrun. unfold bind at 1 in Hrun.
  pose proof (resolveDevice_files (settings w) w) as Hres. unfold sameFiles in Hres.
  destruct (resolveDevice (settings w) w) as [[resolved|e] w1].
  - unfold bind at 1, now, gets in Hrun.
    assert (Hd : match duplex (settings w) with Some true => true | _ => false end = false).
    { destruct (duplex (settings w)) as [[|]|]; [contradiction | reflexivity | reflexivity]. }
    rewrite Hd in Hrun. cbv zeta in Hrun.
    apply scanSingle_temp in Hrun; [|apply temp_path_differs].
    destruct Hrun as [Hnone [Hnew Hret]]. simpl in Hres.
    split; [|split].
    + intros resolved' w1' [= <- <-]. exact Hnone.
    + intros p f Hl Hz. rewrite <- Hres.
      destruct (String.eqb_spec p (finalPathAt (settings w) (clock w1) ++ ".tmp"))
        as [->|Hne].
      * exfalso. exact (Hnone f Hl Hz).
      * apply Hnew; assumption.
    + intros l Hl. destruct (Hret l Hl) as [-> [Ht Hf]].
      eexists. split; [reflexivity|]. split; [exact Ht | exact Hf].
  - injection Hrun as <- <-. simpl in Hres. split; [|split].
    + intros resolved w1' [=].
    + intros p f Hl _. rewrite <- Hres. exact Hl.
    + intros l [=].
Qed.

Lemma scanPage_single_witness :
  duplex (settings Scenario.emptyCapture) <> Some true /\
  fst (scanPage Scenario.emptyCapture) =
    Throw "Scan failed: Command failed: scanimage
scanimage: open of device failed: Invalid argument" /\
  noEmptyFile "/tmp/scan-2026-11-03T06-21-00-123Z.pdf.tmp"
    (files (snd (scanPage Scenario.emptyCapture))) /\
  forall p f, lookupFile p (files (snd (scanPage Scenario.emptyCapture))) = Some f ->
    fileSize f = 0 -> lookupFile p (files Scenario.emptyCapture) = Some f.
Proof.
  assert (Hsingle : duplex (settings Scenario.emptyCapture) <> Some true)
    by (vm_compute; discriminate).
  destruct (scanPage_single_leaves_no_empty_file Scenario.emptyCapture
              (fst (scanPage Scenario.emptyCapture)) (snd (scanPage Scenario.emptyCapture))
              Hsingle (surjective_pairing _)) as [Htemp [Hnew _]].
  split; [exact Hsingle|]. split; [vm_compute; reflexivity|]. split; [|exact Hnew].
  exact (Htemp (None, "escl:https://192.168.178.188:443") Scenario.emptyCapture eq_refl).
Defined.

(* ===================================================================== *)
(** ** Recovery after a failed capture                                    *)
(* ===================================================================== *)

Lemma removeZeroByteTemp_log temp : preserves sameLog (removeZeroByteTemp temp).
Proof.
  intros w. rewrite removeZeroByteTemp_eq. unfold sameLog. simpl.
  destruct (lookupFile temp (files w)) as [f|]; [|reflexivity].
  destruct (fileSize f =? 0); reflexivity.
Qed.

(** A failure of the capture that is not the missing device ends the scan:
    no further command is run. *)
Lemma scanSingle_other_failure_is_final cmd temp final scanner w e w1 :
  capture cmd temp final scanner w = (Throw e, w1) ->
  JS.includes e "no SANE devices found" = false ->
  fst (scanSingle cmd temp final scanner w) = Throw ("Scan failed: " ++ e) /\
  execLog (snd (scanSingle cmd temp final scanner w)) = execLog w1.
Proof.
  intros Hcap Hother.
  assert (H : exists w2, scanSingle cmd temp final scanner w =
                           (Throw ("Scan failed: " ++ e), w2) /\
                         execLog w2 = execLog w1).
  { unfold scanSingle. fold (capture cmd temp final scanner).
    unfold try_catch at 1. rewrite Hcap. unfold bind at 1.
    pose proof (removeZeroByteTemp_log temp w1) as Hl1. unfold sameLog in Hl1.
    rewrite removeZeroByteTemp_eq in Hl1 |- *. cbn [snd] in Hl1. rewrite Hother.
    unfold bind.
    match goal with
    | |- context [removeZeroByteTemp temp ?u] =>
        pose proof (removeZeroByteTemp_log temp u) as Hl2; unfold sameLog in Hl2;
        rewrite removeZeroByteTemp_eq in Hl2 |- *; cbn [snd] in Hl2
    end.
    eexists. split; [reflexivity|]. rewrite Hl2. exact Hl1. }
  destruct H as [w2 [-> Hlog]]. split; [reflexivity | exact Hlog].
Qed.

(** A capture that finds no device is followed by the fix attempt; if that
    reports success the capture is run once more and its outcome is final,
    otherwise the scan ends. *)
Lemma scanSingle_no_device_retries_once cmd temp final scanner w e w1 :
  capture cmd temp final scanner w = (Throw e, w1) ->
  JS.includes e "no SANE devices found" = true ->
  let cleaned := snd (removeZeroByteTemp temp w1) in
  let fixResult := fst (ScannerManager.attemptFix cleaned) in
  let fixed := snd (ScannerManager.attemptFix cleaned) in
  scanSingle cmd temp final scanner w =
  match fixResult with
  | Return r =>
      if ScannerManager.success r then
        match capture cmd temp final scanner fixed with
        | (Return l, w4) => (Return l, w4)
        | (Throw retryErr, w4) =>
            (Throw ("Scan failed after fix attempt: " ++ errorToString retryErr),
             snd (removeZeroByteTemp temp w4))
        end
      else (Throw ("Scanner not available: " ++ ScannerManager.message r), fixed)
  | Throw e' => (Throw e', fixed)
  end.
Proof.
  intros Hcap Hphrase cleaned fixResult fixed. subst cleaned fixResult fixed.
  unfold scanSingle. fold (capture cmd temp final scanner).
  unfold try_catch at 1. rewrite Hcap. unfold bind at 1.
  rewrite removeZeroByteTemp_eq. cbn [snd]. rewrite Hphrase. unfold bind at 1.
  destruct (ScannerManager.attemptFix _) as [[r|e'] w3]; cbn [fst snd]; [|reflexivity].
  destruct (ScannerManager.success r); [|reflexivity].
  unfold try_catch. destruct (capture cmd temp final scanner w3) as [[l|e2] w4];
    [reflexivity|].
  unfold bind. rewrite removeZeroByteTemp_eq. reflexivity.
Qed.

(** A single-sided capture that finds no device is followed by the fix
    attempt (daemon restart, module reload, a new listing) and by one more
    capture, whose failure is final. *)
Example scanPage_single_no_device_fixes_and_retries_once :
  let '(r, w') := scanPage Scenario.singleNoDevice in
  r = Throw ("Scan failed after fix attempt: Error: " ++ Scenario.noDevice) /\
  execLog w' =
    [ "scanimage --device-name=" ++ quoted "escl:https://192.168.178.188:443"
        ++ " --format=pdf --resolution=300 > "
        ++ quoted "/tmp/scan-2026-11-03T06-21-00-123Z.pdf.tmp";
      "sudo systemctl restart saned 2>/dev/null || true";
      "sudo modprobe -r usblp && sudo modprobe usblp 2>/dev/null || true";
      "scanimage -L";
      "scanimage --device-name=" ++ quoted "escl:https://192.168.178.188:443"
        ++ " --format=pdf --resolution=300 > "
        ++ quoted "/tmp/scan-2026-11-03T06-21-00-123Z.pdf.tmp" ].
Proof. vm_compute. split; reflexivity. Qed.

(** Whatever the failure of a duplex capture, the capture is the last
    command of the scan. *)
Lemma readdirSync_log dir : preserves sameLog (readdirSync dir).
Proof. unfold readdirSync. log_frame. Qed.

Lemma unlinkSync_log p : preserves sameLog (unlinkSync p).
Proof.
  unfold unlinkSync. log_frame. apply preserves_modify. intros; reflexivity.
Qed.

Lemma cleanupBatch_log dir batchPrefix ext :
  preserves sameLog (cleanupBatch dir batchPrefix ext).
Proof.
  unfold cleanupBatch. log_frame;
    try apply readdirSync_log; try apply unlinkSync_log.
Qed.

Lemma scanDuplex_failed_capture_is_final cmd dir batchPrefix ext scanner w message :
  status (oracle w (length (execLog w))) = Rejected message ->
  fst (scanDuplex cmd dir batchPrefix ext scanner w) =
    Throw ("Duplex scan failed: " ++ message) /\
  execLog (snd (scanDuplex cmd dir batchPrefix ext scanner w)) = (execLog w ++ [cmd])%list.
Proof.
  intros Hst.
  assert (H : exists w2,
    scanDuplex cmd dir batchPrefix ext scanner w =
      (Throw ("Duplex scan failed: " ++ message), w2) /\
    execLog w2 = (execLog w ++ [cmd])%list).
  { unfold scanDuplex, try_catch at 1, bind at 1.
    unfold exec at 1. rewrite Hst. cbv beta iota zeta.
    unfold bind.
    match goal with
    | |- context [cleanupBatch dir batchPrefix ext ?w1] =>
        pose proof (cleanupBatch_log dir batchPrefix ext w1) as Hlog;
        pose proof (swallowed_returns
          (dirEntries <- readdirSync dir ;;
           forEach dirEntries (fun f =>
             if isBatchFile batchPrefix ext f
             then unlinkSync (path_join dir f) else ret tt)) w1) as Hret;
        fold (cleanupBatch dir batchPrefix ext) in Hret;
        destruct (cleanupBatch dir batchPrefix ext w1) as [r w2]
    end.
    simpl in Hret. subst r. unfold sameLog in Hlog. simpl in Hlog.
    exists w2. split; [reflexivity | exact Hlog]. }
  destruct H as [w2 [-> Hlog]]. split; [reflexivity | exact Hlog].
Qed.

(** C3.  With duplex scanning on, a capture that fails with "no SANE
    devices found" ends the scan at once: the error is thrown, and the
    capture is the only command that ran: no fix attempt, no retry.  The
    same failure of a single-sided capture runs four more commands. *)
Theorem scanPage_duplex_no_device_is_not_recovered :
  JS.includes Scenario.noDevice "no SANE devices found" = true /\
  fst (scanPage Scenario.duplexNoDevice) =
    Throw ("Duplex scan failed: " ++ Scenario.noDevice) /\
  execLog (snd (scanPage Scenario.duplexNoDevice)) =
    [ "scanimage --device-name=" ++ quoted "escl:https://192.168.178.188:443"
        ++ " --format=pdf --resolution=300 --batch="
        ++ quoted "/tmp/scan-2026-11-03T06-21-00-123Z-p%d.pdf" ] /\
  length (execLog (snd (scanPage Scenario.singleNoDevice))) = 5%nat.
Proof. vm_compute. repeat split; reflexivity. Qed.

(* ===================================================================== *)
(** ** Collecting a duplex batch                                          *)
(* ===================================================================== *)

Lemma distinct_NoDup l : distinct l = true -> List.NoDup l.
Proof.
  induction l as [|x l IH]; simpl; [constructor|].
  intros H. apply andb_prop in H. destruct H as [Hx Hl].
  constructor; [|exact (IH Hl)].
  intros Hin. apply negb_true_iff in Hx.
  assert (Ht : List.existsb (String.eqb x) l = true).
  { apply existsb_exists. exists x. split; [exact Hin | apply String.eqb_refl]. }
  congruence.
Qed.





Lemma filter_filter_and {A} (f g : A -> bool) l :
  List.filter f (List.filter g l) = List.filter (fun x => g x && f x) l.
Proof.
  induction l as [|x l IH]; simpl; [reflexivity|].
  destruct (g x); simpl; [destruct (f x); now rewrite IH | exact IH].
Qed.


Lemma listing_lookup dir fs n :
  wellFormed fs -> In n (listing dir fs) ->
  exists f, lookupFile (path_join dir n) fs = Some f /\ In (n, f) (dirFiles dir fs).
Proof.
  intros Hwf Hin. rewrite listing_dirFiles in Hin. apply in_map_iff in Hin.
  destruct Hin as [[m f] [Hm Hin]]. simpl in Hm. subst m.
  exists f. split; [|exact Hin].
  apply lookupFile_In; [exact Hwf | apply dirFiles_In; exact Hin].
Qed.

(** *** The page index in a batch file name *)














Lemma readdirSync_eq dir w :
  isDir dir w = true -> readdirSync dir w = (Return (dirEntries dir w), w).
Proof. intros H. unfold readdirSync, bind, gets. rewrite H. reflexivity. Qed.






(** Eleven sides that the directory lists in the order of their names,
    sides 10 and 11 before side 2, the third one empty: the sides are
    returned in the order of their numbers, and side 3 is gone from the
    directory. *)
Example collectBatch_orders_side_2_before_side_10 :
  List.filter (isBatchFile Scenario.batchPrefix "pdf")
    (dirEntries "/tmp" Scenario.batchListedByName) =
    List.map (fun i => batchName Scenario.batchPrefix i "pdf")
      [1; 10; 11; 2; 3; 4; 5; 6; 7; 8; 9] /\
  let '(r, w') :=
    collectBatch "/tmp" Scenario.batchPrefix "pdf" Scenario.batchListedByName in
  r = Return (List.map (fun i => path_join "/tmp" (batchName Scenario.batchPrefix i "pdf"))
                [1; 2; 4; 5; 6; 7; 8; 9; 10; 11]) /\
  lookupFile (path_join "/tmp" (batchName Scenario.batchPrefix 3 "pdf")) (files w') = None.
Proof. vm_compute. repeat split; reflexivity. Qed.

(* ===================================================================== *)
(** ** Reading a session                                                  *)
(* ===================================================================== *)

Lemma loadSessions_returns w : fst (DocumentSessionManager.loadSessions w) = Return tt.
Proof.
  unfold DocumentSessionManager.loadSessions, bind, existsSync, gets.
  cbv beta iota zeta.
  destruct (negb _); [reflexivity|]. apply swallowed_returns.
Qed.

(** [getSession] is the load followed by the lookup. *)
Lemma getSession_eq sid w :
  DocumentSessionManager.getSession sid w =
  (Return (DocumentSessionManager.mapGet sid
             (sessions (snd (DocumentSessionManager.loadSessions w)))),
   snd (DocumentSessionManager.loadSessions w)).
Proof.
  unfold DocumentSessionManager.getSession, bind.
  pose proof (loadSessions_returns w) as H.
  destruct (DocumentSessionManager.loadSessions w) as [r w1]. simpl in *. subst r.
  reflexivity.
Qed.

Lemma getSessions_eq w :
  DocumentSessionManager.getSessions w =
  (Return (List.map snd (sessions (snd (DocumentSessionManager.loadSessions w)))),
   snd (DocumentSessionManager.loadSessions w)).
Proof.
  unfold DocumentSessionManager.getSessions, bind.
  pose proof (loadSessions_returns w) as H.
  destruct (DocumentSessionManager.loadSessions w) as [r w1]. simpl in *. subst r.
  reflexivity.
Qed.

(* ===================================================================== *)
(** ** Loading the default session                                        *)
(* ===================================================================== *)

Lemma with_heap_same w : with_heap (heap w) w = w.
Proof. destruct w; reflexivity. Qed.

Lemma with_heap_twice h h' w : with_heap h (with_heap h' w) = with_heap h w.
Proof. reflexivity. Qed.

Lemma loadedPages_remove ids dir fs n names k :
  ~ In n names ->
  loadedPages ids dir (removeFile (path_join dir n) fs) names k =
  loadedPages ids dir fs names k.
Proof.
  revert k. induction names as [|m rest IH]; intros k Hn; simpl; [reflexivity|].
  rewrite lookupFile_remove_other.
  - destruct (lookupFile (path_join dir m) fs) as [f|].
    + destruct (fileSize f =? 0); [|f_equal]; apply IH; intros H; apply Hn; right; exact H.
    + apply IH. intros H; apply Hn; right; exact H.
  - intros H. apply path_join_inj in H. apply Hn. left. exact H.
Qed.

Lemma loadFile_eq dir n w f :
  lookupFile (path_join dir n) (files w) = Some f ->
  DocumentSessionManager.loadFile dir n w =
  if fileSize f =? 0
  then (Return None, with_files (removeFile (path_join dir n) (files w)) w)
  else (Return (Some (length (heap w))),
        with_heap
          (heap w ++ [mkPageInfo (idOracle w (idCalls w)) n (path_join dir n)
                        (fileMtime f) (fileSize f) 0])
          (with_idCalls (S (idCalls w)) w)).
Proof.
  intros E.
  unfold DocumentSessionManager.loadFile, DocumentSessionManager.tryUnlink,
    DocumentSessionManager.generateId, DocumentSessionManager.alloc,
    try_catch, bind, statSync, unlinkSync, bind, gets, modify, ret.
  rewrite E. destruct (fileSize f =? 0); [rewrite E|]; reflexivity.
Qed.

Lemma mapM_loadFile_eq dir names :
  forall w,
    List.NoDup names ->
    (forall n, In n names -> lookupFile (path_join dir n) (files w) <> None) ->
    exists refs,
      mapM (DocumentSessionManager.loadFile dir) names w =
        (Return refs, afterLoadFiles w dir names) /\
      DocumentSessionManager.nonNull refs =
        seq (length (heap w))
            (length (loadedPages (idOracle w) dir (files w) names (idCalls w))).
Proof.
  induction names as [|n rest IH]; intros w Hnd Hall.
  - exists []. simpl. unfold ret, afterLoadFiles. simpl.
    rewrite app_nil_r, Nat.add_0_r. destruct w; split; reflexivity.
  - inversion Hnd as [|? ? Hnotin Hnd']; subst.
    destruct (lookupFile (path_join dir n) (files w)) as [f|] eqn:E;
      [|exfalso; apply (Hall n); [left; reflexivity | exact E]].
    cbn [mapM]. unfold bind at 1. rewrite (loadFile_eq dir n w f E).
    unfold afterLoadFiles. cbn [loadedPages dropZero]. rewrite E.
    destruct (fileSize f =? 0) eqn:Esz.
    + set (w1 := with_files (removeFile (path_join dir n) (files w)) w).
      destruct (IH w1 Hnd') as [refs [Hm Hrefs]].
      { intros m Hm. simpl. rewrite lookupFile_remove_other.
        - apply Hall. right. exact Hm.
        - intros H. apply path_join_inj in H. subst m. contradiction. }
      exists (None :: refs). unfold bind. rewrite Hm.
      unfold afterLoadFiles in *. simpl in Hrefs |- *.
      rewrite loadedPages_remove in * by exact Hnotin.
      split; [reflexivity | exact Hrefs].
    + set (page := mkPageInfo (idOracle w (idCalls w)) n (path_join dir n)
                     (fileMtime f) (fileSize f) 0).
      set (w2 := with_heap (heap w ++ [page]) (with_idCalls (S (idCalls w)) w)).
      destruct (IH w2 Hnd') as [refs [Hm Hrefs]].
      { intros m Hm. simpl. apply Hall. right. exact Hm. }
      exists (Some (length (heap w)) :: refs). unfold bind. rewrite Hm. unfold ret.
      unfold afterLoadFiles in *. simpl in Hrefs |- *.
      rewrite length_app in Hrefs. simpl in Hrefs.
      split.
      * f_equal. unfold with_files, with_heap, with_idCalls. simpl.
        f_equal; first [lia | rewrite <- app_assoc; reflexivity].
      * rewrite Hrefs, Nat.add_1_r. reflexivity.
Qed.

(** *** Renumbering page objects *)

Lemma pageAt_alter_same f h r :
  (r < length h)%nat ->
  DocumentSessionManager.pageAt (alter f r h) r = f (DocumentSessionManager.pageAt h r).
Proof.
  intros Hr. unfold DocumentSessionManager.pageAt.
  rewrite !nth_lookup, list_lookup_alter_eq.
  destruct (lookup_lt_is_Some_2 h r Hr) as [p Hp]. rewrite Hp. reflexivity.
Qed.

Lemma pageAt_alter_other f h r r' :
  r <> r' ->
  DocumentSessionManager.pageAt (alter f r h) r' = DocumentSessionManager.pageAt h r'.
Proof.
  intros Hne. unfold DocumentSessionManager.pageAt.
  rewrite !nth_lookup, list_lookup_alter_ne by exact Hne. reflexivity.
Qed.

Lemma renumberFrom_eq l :
  forall k w,
    DocumentSessionManager.renumberFrom k l w =
    (Return tt, with_heap (renumberHeap k l (heap w)) w).
Proof.
  induction l as [|r l IH]; intros k w; simpl.
  - unfold ret. now rewrite with_heap_same.
  - unfold bind, DocumentSessionManager.setPageNumber, modify. rewrite IH. reflexivity.
Qed.

Lemma renumberHeap_length l : forall k h, length (renumberHeap k l h) = length h.
Proof.
  induction l as [|r l IH]; intros k h; simpl; [reflexivity|].
  now rewrite IH, length_alter.
Qed.

(** Objects that are not renumbered are not written. *)
Lemma renumberHeap_other l :
  forall k h r,
    ~ In r l ->
    DocumentSessionManager.pageAt (renumberHeap k l h) r = DocumentSessionManager.pageAt h r.
Proof.
  induction l as [|x l IH]; intros k h r Hr; simpl; [reflexivity|].
  rewrite IH by (intros H; apply Hr; right; exact H).
  apply pageAt_alter_other. intros ->. apply Hr. left. reflexivity.
Qed.

(** Renumbering distinct objects numbers them in order. *)
Lemma renumberHeap_pages l :
  forall k h,
    List.NoDup l ->
    (forall r, In r l -> (r < length h)%nat) ->
    List.map (DocumentSessionManager.pageAt (renumberHeap k l h)) l =
    numberFrom k (List.map (DocumentSessionManager.pageAt h) l).
Proof.
  induction l as [|r l IH]; intros k h Hnd Hlt; simpl; [reflexivity|].
  inversion Hnd as [|? ? Hnotin Hnd']; subst.
  f_equal.
  - rewrite renumberHeap_other by exact Hnotin.
    apply pageAt_alter_same. apply Hlt. left. reflexivity.
  - rewrite IH.
    + f_equal. apply map_ext_in. intros x Hx. apply pageAt_alter_other.
      intros ->. contradiction.
    + exact Hnd'.
    + intros x Hx. rewrite length_alter. apply Hlt. right. exact Hx.
Qed.

(** The new objects of a heap, read through their references. *)
Lemma pageAt_new h new :
  List.map (DocumentSessionManager.pageAt (h ++ new)%list) (seq (length h) (length new))
  = new.
Proof.
  revert h. induction new as [|p new IH]; intros h; simpl; [reflexivity|].
  f_equal.
  - unfold DocumentSessionManager.pageAt. rewrite app_nth2 by lia.
    now rewrite Nat.sub_diag.
  - specialize (IH (h ++ [p])%list). rewrite <- app_assoc, length_app in IH. simpl in IH.
    rewrite Nat.add_1_r in IH. exact IH.
Qed.


Lemma numberFrom_ids k l : List.map id (numberFrom k l) = List.map id l.
Proof.
  revert k. induction l as [|p l IH]; intros k; simpl; [reflexivity|].
  now rewrite IH.
Qed.

Lemma numberFrom_contiguous k l : contiguousFrom (k + 1) (numberFrom k l).
Proof.
  revert k. induction l as [|p l IH]; intros k; simpl; [exact I|].
  split; [reflexivity | apply IH].
Qed.

(** *** The load, step by step *)

Lemma scanEntries_NoDup w : wellFormed (files w) -> List.NoDup (scanEntries w).
Proof.
  intros Hwf. unfold scanEntries. apply List.NoDup_filter.
  rewrite listing_dirFiles. apply dirFiles_NoDup. exact Hwf.
Qed.

Lemma scanEntries_exist w n :
  wellFormed (files w) -> In n (scanEntries w) ->
  lookupFile (path_join (scanOutputDir (settings w)) n) (files w) <> None.
Proof.
  intros Hwf Hn. unfold scanEntries in Hn. apply filter_In in Hn. destruct Hn as [Hn _].
  destruct (listing_lookup _ _ n Hwf Hn) as [f [Hf _]]. rewrite Hf. discriminate.
Qed.

Lemma dropZero_lookup dir names p : forall fs,
  lookupFile p (dropZero dir names fs) =
  match lookupFile p fs with
  | Some f =>
      if (fileSize f =? 0) && List.existsb (fun n => String.eqb p (path_join dir n)) names
      then None else Some f
  | None => None
  end.
Proof.
  induction names as [|n rest IH]; intros fs.
  - cbn [dropZero List.existsb]. destruct (lookupFile p fs) as [f|]; [|reflexivity].
    now rewrite andb_false_r.
  - cbn [dropZero List.existsb]. rewrite IH.
    destruct (String.eqb_spec p (path_join dir n)) as [->|Hne].
    + destruct (lookupFile (path_join dir n) fs) as [g|] eqn:Eg; [|now rewrite Eg].
      destruct (fileSize g =? 0) eqn:Ez.
      * rewrite lookupFile_remove_same. reflexivity.
      * rewrite Eg, Ez. reflexivity.
    + cbn [orb].
      destruct (lookupFile (path_join dir n) fs) as [g|]; [|reflexivity].
      destruct (fileSize g =? 0); [|reflexivity].
      now rewrite lookupFile_remove_other.
Qed.

Lemma lookupFile_listing dir fs n :
  In n (listing dir fs) -> lookupFile (path_join dir n) fs <> None.
Proof.
  unfold lookupFile. induction fs as [|[p f] fs IH]; cbn [listing List.find fst]; [intros []|].
  destruct (String.eqb_spec p (path_join dir n)) as [_|Hne]; [discriminate|].
  destruct (entryName dir p) as [m|] eqn:Em; [|exact IH].
  intros [->|Hin]; [|exact (IH Hin)].
  exfalso. apply Hne. exact (entryName_Some _ _ _ Em).
Qed.

(** A sub-directory of the listing is no regular file, and has stats. *)
Lemma subdirs_lookup dir w n :
  In n (subdirs dir w) ->
  lookupFile (path_join dir n) (files w) = None /\
  lookupFile (path_join dir n) (dirs w) <> None.
Proof.
  unfold subdirs. intros Hn. apply filter_In in Hn. destruct Hn as [Hn Hfile].
  split; [|exact (lookupFile_listing _ _ _ Hn)].
  destruct (lookupFile (path_join dir n) (files w)); [discriminate | reflexivity].
Qed.

(** The callback of the load on a sub-directory: a page object, unless the
    directory reports the size zero; nothing is deleted. *)
Lemma loadFile_dir_eq dir n w d :
  lookupFile (path_join dir n) (files w) = None ->
  lookupFile (path_join dir n) (dirs w) = Some d ->
  DocumentSessionManager.loadFile dir n w =
  if fileSize d =? 0
  then (Return None, w)
  else (Return (Some (length (heap w))),
        with_heap
          (heap w ++ [mkPageInfo (idOracle w (idCalls w)) n (path_join dir n)
                        (fileMtime d) (fileSize d) 0])
          (with_idCalls (S (idCalls w)) w)).
Proof.
  intros E D.
  unfold DocumentSessionManager.loadFile, DocumentSessionManager.tryUnlink,
    DocumentSessionManager.generateId, DocumentSessionManager.alloc,
    try_catch, bind, statSync, unlinkSync, bind, gets, modify, ret, throw, isDir.
  rewrite E, D. destruct (fileSize d =? 0); [rewrite E, D|]; reflexivity.
Qed.

Lemma mapM_loadDir_eq dir names :
  forall w,
    (forall n, In n names ->
       lookupFile (path_join dir n) (files w) = None /\
       lookupFile (path_join dir n) (dirs w) <> None) ->
    exists refs,
      mapM (DocumentSessionManager.loadFile dir) names w =
        (Return refs, afterLoadDirs w dir names) /\
      DocumentSessionManager.nonNull refs =
        seq (length (heap w))
            (length (loadedPages (idOracle w) dir (dirs w) names (idCalls w))).
Proof.
  induction names as [|n rest IH]; intros w Hall.
  - exists []. simpl. unfold ret, afterLoadDirs. simpl.
    rewrite app_nil_r, Nat.add_0_r. destruct w; split; reflexivity.
  - destruct (Hall n (or_introl eq_refl)) as [E D].
    destruct (lookupFile (path_join dir n) (dirs w)) as [d|] eqn:Ed; [clear D|contradiction].
    cbn [mapM]. unfold bind at 1. rewrite (loadFile_dir_eq dir n w d E Ed).
    unfold afterLoadDirs. cbn [loadedPages]. rewrite Ed.
    destruct (fileSize d =? 0) eqn:Esz.
    + destruct (IH w) as [refs [Hm Hrefs]].
      { intros m Hm. apply Hall. right. exact Hm. }
      exists (None :: refs). unfold bind. rewrite Hm.
      split; [reflexivity | exact Hrefs].
    + set (page := mkPageInfo (idOracle w (idCalls w)) n (path_join dir n)
                     (fileMtime d) (fileSize d) 0).
      set (w2 := with_heap (heap w ++ [page]) (with_idCalls (S (idCalls w)) w)).
      destruct (IH w2) as [refs [Hm Hrefs]].
      { intros m Hm. apply Hall. right. exact Hm. }
      exists (Some (length (heap w)) :: refs). unfold bind. rewrite Hm. unfold ret.
      unfold afterLoadDirs in *. simpl in Hrefs |- *.
      rewrite length_app in Hrefs. simpl in Hrefs.
      split.
      * f_equal. unfold with_heap, with_idCalls. simpl.
        f_equal; first [lia | rewrite <- app_assoc; reflexivity].
      * rewrite Hrefs, Nat.add_1_r. reflexivity.
Qed.

Lemma mapM_app {A B} (f : A -> M B) l1 l2 w :
  mapM f (l1 ++ l2) w =
  match mapM f l1 w with
  | (Return xs, w1) =>
      match mapM f l2 w1 with
      | (Return ys, w2) => (Return (xs ++ ys)%list, w2)
      | (Throw e, w2) => (Throw e, w2)
      end
  | (Throw e, w1) => (Throw e, w1)
  end.
Proof.
  revert w. induction l1 as [|x l1 IH]; intros w; cbn [mapM app].
  - unfold ret. destruct (mapM f l2 w) as [[ys|e] w2]; reflexivity.
  - unfold bind. destruct (f x w) as [[y|e] w0]; [|reflexivity].
    fold (mapM f (l1 ++ l2)). rewrite IH.
    destruct (mapM f l1 w0) as [[xs|e] w1]; unfold ret; cbv beta iota; [|reflexivity].
    destruct (mapM f l2 w1) as [[ys|e] w2]; reflexivity.
Qed.

Lemma nonNull_app {A} (l1 l2 : list (option A)) :
  DocumentSessionManager.nonNull (l1 ++ l2) =
  (DocumentSessionManager.nonNull l1 ++ DocumentSessionManager.nonNull l2)%list.
Proof.
  induction l1 as [|[a|] l1 IH]; simpl; [reflexivity | now rewrite IH | exact IH].
Qed.
Lemma loadedIn_length w :
  length (loadedIn w) = (length (loadedFiles w) + length (loadedDirs w))%nat.
Proof. unfold loadedIn. apply length_app. Qed.

(** The [map] of the load over the entries of the output directory. *)
Lemma mapM_loadFile_entries w :
  isDir (scanOutputDir (settings w)) w = true ->
  wellFormed (files w) ->
  exists refs,
    mapM (DocumentSessionManager.loadFile (scanOutputDir (settings w)))
      (List.filter DocumentSessionManager.isScanFile
         (dirEntries (scanOutputDir (settings w)) w)) w =
      (Return refs, afterLoad w) /\
    DocumentSessionManager.nonNull refs = seq (length (heap w)) (length (loadedIn w)).
Proof.
  intros Hdir Hwf. set (dir := scanOutputDir (settings w)).
  destruct (mapM_loadFile_eq dir (scanEntries w) w
              (scanEntries_NoDup w Hwf) (fun n => scanEntries_exist w n Hwf))
    as [refs1 [Hm1 Hrefs1]].
  change (loadedPages (idOracle w) dir (files w) (scanEntries w) (idCalls w))
    with (loadedFiles w) in Hrefs1.
  set (w1 := afterLoadFiles w dir (scanEntries w)) in *.
  destruct (mapM_loadDir_eq dir (scanDirs w) w1) as [refs2 [Hm2 Hrefs2]].
  { intros n Hn. unfold scanDirs in Hn. apply filter_In in Hn. destruct Hn as [Hn _].
    destruct (subdirs_lookup _ _ _ Hn) as [Hfile Hd]. split; [|exact Hd].
    unfold w1, afterLoadFiles. cbn [files with_files]. rewrite dropZero_lookup.
    unfold dir. now rewrite Hfile. }
  change (loadedPages (idOracle w1) dir (dirs w1) (scanDirs w) (idCalls w1))
    with (loadedDirs w) in Hrefs2.
  exists (refs1 ++ refs2)%list. split.
  - unfold dirEntries. rewrite List.filter_app.
    change (List.filter DocumentSessionManager.isScanFile (listing dir (files w)))
      with (scanEntries w).
    change (List.filter DocumentSessionManager.isScanFile (subdirs dir w))
      with (scanDirs w).
    rewrite mapM_app, Hm1, Hm2. f_equal.
    unfold afterLoadDirs.
    change (loadedPages (idOracle w1) dir (dirs w1) (scanDirs w) (idCalls w1))
      with (loadedDirs w).
    unfold w1, afterLoadFiles, afterLoad, loadedIn.
    change (loadedPages (idOracle w) dir (files w) (scanEntries w) (idCalls w))
      with (loadedFiles w).
    unfold with_files, with_heap, with_idCalls. cbn.
    rewrite length_app, <- app_assoc, Nat.add_assoc. reflexivity.
  - rewrite nonNull_app, Hrefs1, Hrefs2, loadedIn_length, seq_app. f_equal.
    unfold w1, afterLoadFiles. cbn [heap with_files with_heap]. now rewrite length_app.
Qed.

(** What [loadSessions] does in an existing output directory. *)
Lemma loadSessions_eq w :
  isDir (scanOutputDir (settings w)) w = true ->
  wellFormed (files w) ->
  let w1 := afterLoad w in
  let sorted :=
    JS.sort (DocumentSessionManager.byTimestamp (heap w1))
      (seq (length (heap w)) (length (loadedIn w))) in
  DocumentSessionManager.loadSessions w = (Return tt, afterRebuild w1 sorted).
Proof.
  intros Hdir Hwf w1 sorted.
  destruct (mapM_loadFile_entries w Hdir Hwf) as [refs [Hm Hrefs]].
  fold w1 in Hm.
  unfold DocumentSessionManager.loadSessions.
  unfold bind at 1, gets at 1. unfold bind at 1, existsSync, gets at 1.
  rewrite Hdir.
  replace (match lookupFile (scanOutputDir (settings w)) (files w) with
           | Some _ => true | None => true end) with true
    by (destruct (lookupFile _ _); reflexivity).
  cbn [negb]. unfold try_catch, bind at 1.
  rewrite (readdirSync_eq _ w Hdir).
  unfold bind at 1. rewrite Hm. unfold bind at 1, gets at 1. rewrite Hrefs.
  fold sorted. unfold afterRebuild.
  destruct sorted as [|first rest] eqn:Es; [reflexivity|].
  unfold bind at 1, DocumentSessionManager.renumber. rewrite renumberFrom_eq.
  unfold bind, gets, DocumentSessionManager.setSession, modify. reflexivity.
Qed.

(** *** The session a load builds *)

Lemma mapGet_mapSet_same {V} k (v : V) m :
  DocumentSessionManager.mapGet k (DocumentSessionManager.mapSet k v m) = Some v.
Proof.
  unfold DocumentSessionManager.mapGet.
  induction m as [|[k' v'] m IH]; simpl.
  - now rewrite String.eqb_refl.
  - destruct (String.eqb_spec k' k) as [->|Hne]; simpl.
    + now rewrite String.eqb_refl.
    + destruct (String.eqb_spec k' k); [contradiction | exact IH].
Qed.


Lemma loadedPages_ids ids dir fs names :
  forall k,
    List.map id (loadedPages ids dir fs names k) =
    List.map ids (seq k (length (loadedPages ids dir fs names k))).
Proof.
  induction names as [|n rest IH]; intros k; simpl; [reflexivity|].
  destruct (lookupFile (path_join dir n) fs) as [f|]; [|apply IH].
  destruct (fileSize f =? 0); [apply IH|]. simpl. now rewrite IH.
Qed.

(** The new objects are the scan artifacts, as pages without a number. *)
Lemma loadedPages_entries ids dir fs es :
  forall k,
    (forall n f, In (n, f) es -> lookupFile (path_join dir n) fs = Some f) ->
    List.map viewOf (loadedPages ids dir fs (List.map fst es) k) =
    List.map (artifactView dir)
      (List.filter (fun e => negb (fileSize (snd e) =? 0)) es).
Proof.
  induction es as [|[n f] es IH]; intros k Hes; simpl; [reflexivity|].
  rewrite (Hes n f) by (left; reflexivity).
  assert (Hes' : forall n f, In (n, f) es -> lookupFile (path_join dir n) fs = Some f)
    by (intros; apply Hes; right; assumption).
  destruct (fileSize f =? 0); simpl; [apply IH; exact Hes'|].
  f_equal. apply IH. exact Hes'.
Qed.

Lemma filter_map_fst {A B} (f : A -> bool) (l : list (A * B)) :
  List.filter f (List.map fst l) = List.map fst (List.filter (fun e => f (fst e)) l).
Proof.
  induction l as [|[a b] l IH]; simpl; [reflexivity|].
  destruct (f a); simpl; now rewrite IH.
Qed.

Lemma loadedPages_views ids w k :
  wellFormed (files w) ->
  List.map viewOf
    (loadedPages ids (scanOutputDir (settings w)) (files w) (scanEntries w) k) =
  List.map (artifactView (scanOutputDir (settings w)))
    (scanArtifacts (scanOutputDir (settings w)) (files w)).
Proof.
  intros Hwf. unfold scanEntries, scanArtifacts.
  rewrite listing_dirFiles, filter_map_fst, loadedPages_entries.
  - now rewrite filter_filter_and.
  - intros n f Hin. apply filter_In in Hin. destruct Hin as [Hin _].
    apply lookupFile_In; [exact Hwf | apply dirFiles_In; exact Hin].
Qed.






(** A load that finds scan files stores the default session anew. *)
Lemma loadSessions_rebuilds w :
  isDir (scanOutputDir (settings w)) w = true ->
  wellFormed (files w) ->
  loadedIn w <> [] ->
  let w' := snd (DocumentSessionManager.loadSessions w) in
  exists s,
    DocumentSessionManager.mapGet "default" (sessions w') = Some s /\
    DocumentSessionManager.pagesOf w' s = rebuiltPages w /\
    idCalls w' = (idCalls w + length (loadedIn w))%nat /\
    idOracle w' = idOracle w.
Proof.
  intros Hdir Hwf Hne w'. subst w'. rewrite (loadSessions_eq w Hdir Hwf). cbn [snd].
  set (w1 := afterLoad w).
  set (refs := seq (length (heap w)) (length (loadedIn w))).
  set (sorted := JS.sort (DocumentSessionManager.byTimestamp (heap w1)) refs).
  assert (Hheap : heap w1 = (heap w ++ loadedIn w)%list) by reflexivity.
  assert (Hsorted : List.map (DocumentSessionManager.pageAt (heap w1)) sorted =
                    JS.sort (byKey timestamp) (loadedIn w)).
  { unfold sorted.
    change (DocumentSessionManager.byTimestamp (heap w1)) with
      (fun a b => byKey timestamp (DocumentSessionManager.pageAt (heap w1) a)
                                  (DocumentSessionManager.pageAt (heap w1) b)).
    rewrite sort_map. f_equal. unfold refs. rewrite Hheap. apply pageAt_new. }
  assert (Hnd : List.NoDup sorted) by (apply sort_NoDup, seq_NoDup).
  assert (Hlt : forall r, In r sorted -> (r < length (heap w1))%nat).
  { intros r Hr. apply sort_In in Hr. apply in_seq in Hr.
    rewrite Hheap, length_app. lia. }
  unfold afterRebuild.
  destruct sorted as [|first rest] eqn:Es.
  { exfalso. apply Hne. apply (f_equal (@length _)) in Es.
    unfold sorted in Es. rewrite sort_length in Es. unfold refs in Es.
    rewrite length_seq in Es. destruct (loadedIn w); [reflexivity | discriminate]. }
  eexists. split; [apply mapGet_mapSet_same|]. split; [|split; [|reflexivity]].
  - unfold DocumentSessionManager.pagesOf. cbn [pages heap with_sessions with_heap].
    rewrite renumberHeap_pages by assumption. rewrite Hsorted. reflexivity.
  - cbn [idCalls with_sessions with_heap]. reflexivity.
Qed.

(** A load that finds no scan file leaves the stored sessions alone. *)
Lemma loadSessions_keeps w :
  isDir (scanOutputDir (settings w)) w = true ->
  wellFormed (files w) ->
  loadedIn w = [] ->
  sessions (snd (DocumentSessionManager.loadSessions w)) = sessions w /\
  heap (snd (DocumentSessionManager.loadSessions w)) = heap w.
Proof.
  intros Hdir Hwf He. rewrite (loadSessions_eq w Hdir Hwf). cbn [snd].
  rewrite He. cbn [length seq JS.sort afterRebuild].
  unfold afterLoad. rewrite He. simpl.
  now rewrite app_nil_r.
Qed.

(** *** The page list the specification describes *)

Lemma numberViews_timestamps k l :
  List.map viewTimestamp (numberViews k l) = List.map viewTimestamp l.
Proof.
  revert k. induction l as [|v l IH]; intros k; simpl; [reflexivity | now rewrite IH].
Qed.

Lemma numberViews_unnumbered k l :
  (forall v, In v l -> viewPageNumber v = 0) ->
  List.map (withViewNumber 0) (numberViews k l) = l.
Proof.
  revert k. induction l as [|v l IH]; intros k H; simpl; [reflexivity|].
  rewrite IH by (intros; apply H; right; assumption).
  f_equal. specialize (H v (or_introl eq_refl)). destruct v; simpl in *. now subst.
Qed.

Lemma numberViews_numbers k l :
  List.map viewPageNumber (numberViews k l) =
  List.map (fun i => k + Z.of_nat i) (seq 0 (length l)).
Proof.
  revert k. induction l as [|v l IH]; intros k; simpl; [reflexivity|].
  rewrite IH, <- seq_shift, map_map. f_equal; [lia|].
  apply map_ext. intros i. lia.
Qed.

Lemma StronglySorted_keys {A} (key : A -> Z) l :
  StronglySorted (fun a b => key a <= key b) l -> StronglySorted Z.le (List.map key l).
Proof.
  induction 1 as [|a l Hs IH Hall]; simpl; constructor; [exact IH|].
  apply List.Forall_forall. intros z Hz. apply in_map_iff in Hz.
  destruct Hz as [b [<- Hb]]. rewrite List.Forall_forall in Hall. exact (Hall b Hb).
Qed.

(** The expected pages are the scan artifacts, each once, in the order of
    their modification times, numbered 1, 2, ... *)
Lemma expectedPages_meaning dir fs :
  Permutation (List.map (withViewNumber 0) (expectedPages dir fs))
              (List.map (artifactView dir) (scanArtifacts dir fs)) /\
  StronglySorted Z.le (List.map viewTimestamp (expectedPages dir fs)) /\
  List.map viewPageNumber (expectedPages dir fs) =
    List.map (fun i => 1 + Z.of_nat i) (seq 0 (length (scanArtifacts dir fs))).
Proof.
  unfold expectedPages. split; [|split].
  - rewrite numberViews_unnumbered; [apply sort_Permutation|].
    intros v Hv. apply sort_In in Hv. apply in_map_iff in Hv.
    destruct Hv as [e [<- _]]. reflexivity.
  - rewrite numberViews_timestamps. apply StronglySorted_keys, sort_sorted.
  - rewrite numberViews_numbers, sort_length, length_map. reflexivity.
Qed.


Lemma scanArtifacts_loaded w :
  wellFormed (files w) ->
  scanArtifacts (scanOutputDir (settings w)) (files w) <> [] -> loadedIn w <> [].
Proof.
  intros Hwf Hne He. apply Hne.
  pose proof (loadedPages_views (idOracle w) w (idCalls w) Hwf) as Hv.
  fold (loadedFiles w) in Hv. unfold loadedIn in He.
  apply app_eq_nil in He. destruct He as [He _]. rewrite He in Hv. simpl in Hv.
  destruct (scanArtifacts _ _); [reflexivity | discriminate].
Qed.






(* ===================================================================== *)
(** ** Page ids across reads                                              *)
(* ===================================================================== *)

Lemma ofZ_inj a b : JS.ofZ a = JS.ofZ b -> a = b.
Proof.
  unfold JS.ofZ. intros H. apply DecimalZ.to_int_inj.
  assert (Hisi : forall z,
    NilZero.int_of_string (NilZero.string_of_int (Z.to_int z)) = Some (Z.to_int z)).
  { intros z. apply NilZero.isi; destruct z; simpl; try discriminate;
      intros [= E]; exact (DecimalPos.Unsigned.to_uint_nonnil _ E). }
  pose proof (Hisi a) as Ha. rewrite H, Hisi in Ha. now injection Ha.
Qed.

Lemma scenario_ids_inj i j : Scenario.ids i = Scenario.ids j -> i = j.
Proof.
  unfold Scenario.ids. intros H. apply append_inj_r in H. apply ofZ_inj in H. lia.
Qed.

Lemma findIndex_None {A} (pred : A -> bool) l :
  (forall x, In x l -> pred x = false) -> DocumentSessionManager.findIndex pred l = None.
Proof.
  induction l as [|a l IH]; intros H; simpl; [reflexivity|].
  rewrite (H a) by (left; reflexivity).
  rewrite IH by (intros; apply H; right; assumption). reflexivity.
Qed.

Lemma findIndex_Some {A} (pred : A -> bool) l i :
  DocumentSessionManager.findIndex pred l = Some i ->
  exists x, In x l /\ pred x = true.
Proof.
  revert i. induction l as [|a l IH]; intros i; simpl; [discriminate|].
  destruct (pred a) eqn:Ea.
  - intros _. exists a. split; [left; reflexivity | exact Ea].
  - destruct (DocumentSessionManager.findIndex pred l) as [k|]; [|discriminate].
    intros _. destruct (IH k eq_refl) as [x [Hx Hp]]. exists x. split; [right|]; assumption.
Qed.

(** The ids of a rebuilt session are the ids generated during the load. *)
Lemma rebuiltPages_ids w x :
  In x (List.map id (rebuiltPages w)) ->
  exists i, (idCalls w <= i < idCalls w + length (loadedIn w))%nat /\ x = idOracle w i.
Proof.
  unfold rebuiltPages.
  rewrite numberFrom_ids. intros Hx.
  apply (Permutation_in x (Permutation_map id (sort_Permutation _ (loadedIn w)))) in Hx.
  rewrite loadedIn_length. unfold loadedIn in Hx. rewrite map_app in Hx.
  unfold loadedFiles, loadedDirs in Hx. rewrite !loadedPages_ids in Hx.
  fold (loadedFiles w) in Hx. fold (loadedDirs w) in Hx.
  apply in_app_or in Hx.
  destruct Hx as [Hx|Hx]; apply in_map_iff in Hx; destruct Hx as [i [<- Hi]];
    apply in_seq in Hi; exists i; (split; [lia | reflexivity]).
Qed.

(** An id that names no page of the session is not found by [find]. *)
Lemma find_id_None h sessionPages x :
  ~ In x (List.map id (List.map (DocumentSessionManager.pageAt h) sessionPages)) ->
  List.find (fun r => String.eqb (id (DocumentSessionManager.pageAt h r)) x) sessionPages
  = None.
Proof.
  intros Hx. destruct (List.find _ sessionPages) as [r|] eqn:E; [|reflexivity].
  exfalso. apply find_some in E. destruct E as [Hr Heq]. apply String.eqb_eq in Heq.
  apply Hx. rewrite <- Heq. apply in_map, in_map. exact Hr.
Qed.

(** C10.  Let the generator never return an id twice, and let the default
    session be read from a directory that holds scans.  Then, in any later
    world whose directory holds scans: the read at the start of every
    operation gives every page a new id, so that an id [x] taken from the
    earlier read names no page any more; [reorderPages] called with a list
    that starts with [x] fails with "Page x not found"; and if
    [removePageFromSession] succeeds for [x], then [x] is the file path of
    a page. *)
Theorem page_ids_do_not_survive_a_rebuild :
  forall w1 w2 s1 x,
    (forall i j, idOracle w1 i = idOracle w1 j -> i = j) ->
    isDir (scanOutputDir (settings w1)) w1 = true ->
    wellFormed (files w1) ->
    scanArtifacts (scanOutputDir (settings w1)) (files w1) <> [] ->
    fst (DocumentSessionManager.getSession "default" w1) = Return (Some s1) ->
    In x (List.map id
            (DocumentSessionManager.pagesOf
               (snd (DocumentSessionManager.getSession "default" w1)) s1)) ->
    (forall n, idOracle w2 n = idOracle w1 n) ->
    (idCalls (snd (DocumentSessionManager.getSession "default" w1)) <= idCalls w2)%nat ->
    isDir (scanOutputDir (settings w2)) w2 = true ->
    wellFormed (files w2) ->
    scanArtifacts (scanOutputDir (settings w2)) (files w2) <> [] ->
    exists s2 w2',
      DocumentSessionManager.getSession "default" w2 = (Return (Some s2), w2') /\
      DocumentSessionManager.pagesOf w2' s2 <> [] /\
      ~ In x (List.map id (DocumentSessionManager.pagesOf w2' s2)) /\
      (forall rest,
         DocumentSessionManager.reorderPages "default" (x :: rest) w2 =
         (Return (DocumentSessionManager.failed ("Page " ++ x ++ " not found")), w2')) /\
      (forall res,
         fst (DocumentSessionManager.removePageFromSession "default" x w2) = Return res ->
         DocumentSessionManager.success res = true ->
         In x (List.map filepath (DocumentSessionManager.pagesOf w2' s2))).
Proof.
  intros w1 w2 s1 x Hinj Hdir1 Hwf1 Hne1 Hget1 Hx Hsame Hlater Hdir2 Hwf2 Hne2.
  (* the earlier read *)
  destruct (loadSessions_rebuilds w1 Hdir1 Hwf1 (scanArtifacts_loaded w1 Hwf1 Hne1))
    as [s1' [Hs1 [Hpages1 [Hcalls1 _]]]].
  rewrite getSession_eq in Hget1, Hx, Hlater. cbn [fst snd] in Hget1, Hx, Hlater.
  rewrite Hs1 in Hget1. injection Hget1 as <-.
  rewrite Hpages1 in Hx. apply rebuiltPages_ids in Hx. destruct Hx as [i [Hi ->]].
  (* the later read *)
  destruct (loadSessions_rebuilds w2 Hdir2 Hwf2 (scanArtifacts_loaded w2 Hwf2 Hne2))
    as [s2 [Hs2 [Hpages2 _]]].
  set (w2' := snd (DocumentSessionManager.loadSessions w2)) in *.
  assert (Hfresh : ~ In (idOracle w1 i)
                     (List.map id (DocumentSessionManager.pagesOf w2' s2))).
  { rewrite Hpages2. intros Hin. apply rebuiltPages_ids in Hin.
    destruct Hin as [j [Hj Heq]]. rewrite Hsame in Heq. apply Hinj in Heq. lia. }
  exists s2, w2'. split; [rewrite getSession_eq; fold w2'; now rewrite Hs2|].
  split; [|split; [exact Hfresh|split]].
  - rewrite Hpages2. unfold rebuiltPages.
    pose proof (scanArtifacts_loaded w2 Hwf2 Hne2) as Hl.
    pose proof (sort_length (byKey timestamp) (loadedIn w2)) as Hlen.
    destruct (JS.sort (byKey timestamp) (loadedIn w2)); [|discriminate].
    destruct (loadedIn w2); [contradiction | discriminate].
  - intros rest.
    unfold DocumentSessionManager.reorderPages, try_catch, bind at 1.
    rewrite getSession_eq. fold w2'. rewrite Hs2.
    unfold bind, gets. cbv beta iota. cbn [DocumentSessionManager.pagesById].
    rewrite find_id_None by exact Hfresh. reflexivity.
  - intros res Hres Hsucc.
    unfold DocumentSessionManager.removePageFromSession, try_catch, bind at 1 in Hres.
    rewrite getSession_eq in Hres. fold w2' in Hres. rewrite Hs2 in Hres.
    unfold bind at 1, gets at 1 in Hres. cbv beta iota zeta in Hres.
    rewrite (findIndex_None (fun r => String.eqb (id (DocumentSessionManager.pageAt (heap w2') r))
                                        (idOracle w1 i))) in Hres.
    + destruct (DocumentSessionManager.findIndex
                  (fun r => String.eqb (filepath (DocumentSessionManager.pageAt (heap w2') r))
                              (idOracle w1 i)) (pages s2)) as [k|] eqn:Ef.
      * apply findIndex_Some in Ef. destruct Ef as [r [Hr Heq]].
        apply String.eqb_eq in Heq. rewrite <- Heq.
        unfold DocumentSessionManager.pagesOf. apply in_map, in_map. exact Hr.
      * unfold ret in Hres. cbn [fst] in Hres. injection Hres as <-. discriminate Hsucc.
    + intros r Hr. apply String.eqb_neq. intros Heq. apply Hfresh. rewrite <- Heq.
      unfold DocumentSessionManager.pagesOf. apply in_map, in_map. exact Hr.
Qed.

Lemma page_ids_witness :
  let w1 := Scenario.twoScans in
  let w2 := snd (DocumentSessionManager.getSession "default" Scenario.twoScans) in
  (exists s1, fst (DocumentSessionManager.getSession "default" w1) = Return (Some s1) /\
     List.map id (DocumentSessionManager.pagesOf w2 s1) = ["id1"; "id0"]) /\
  (forall rest,
     fst (DocumentSessionManager.reorderPages "default" ("id0" :: rest) w2) =
     Return (DocumentSessionManager.failed "Page id0 not found")) /\
  fst (DocumentSessionManager.removePageFromSession "default" "id0" w2) =
    Return (DocumentSessionManager.failed "Page not found").
Proof.
  intros w1 w2.
  assert (Hdir : isDir "/tmp" w1 = true) by reflexivity.
  assert (Hwf : wellFormed (files w1)) by (apply distinct_NoDup; vm_compute; reflexivity).
  assert (Hne : scanArtifacts "/tmp" (files w1) <> []) by (vm_compute; discriminate).
  assert (Hwf2 : wellFormed (files w2)) by (apply distinct_NoDup; vm_compute; reflexivity).
  assert (Hne2 : scanArtifacts "/tmp" (files w2) <> []) by (vm_compute; discriminate).
  assert (Hget : fst (DocumentSessionManager.getSession "default" w1) =
                 Return (Some (mkDocumentSession "default" "Current Document" [1%nat; 0%nat]
                                 (Scenario.t0 - 9000) (Scenario.t0 - 5000))))
    by (vm_compute; reflexivity).
  destruct (page_ids_do_not_survive_a_rebuild w1 w2 _ "id0" scenario_ids_inj
              Hdir Hwf Hne Hget) as [s2 [w2' [Hget2 [_ [_ [Hre _]]]]]].
  - vm_compute. tauto.
  - reflexivity.
  - apply Nat.le_refl.
  - reflexivity.
  - exact Hwf2.
  - exact Hne2.
  - split; [|split].
    + eexists. split; [exact Hget | vm_compute; reflexivity].
    + intros rest. rewrite Hre. reflexivity.
    + vm_compute. reflexivity.
Defined.

(* ===================================================================== *)
(** ** Reordering                                                         *)
(* ===================================================================== *)

(** The validation stops at the first id that names no page. *)
Lemma pagesById_unknown h sessionPages pageIds :
  (exists x, In x pageIds /\
     ~ In x (List.map (fun r => id (DocumentSessionManager.pageAt h r)) sessionPages)) ->
  exists missing,
    DocumentSessionManager.pagesById h sessionPages pageIds = inl missing /\
    In missing pageIds /\
    ~ In missing (List.map (fun r => id (DocumentSessionManager.pageAt h r)) sessionPages).
Proof.
  induction pageIds as [|pageId rest IH]; intros [x [Hin Hx]]; [destruct Hin|].
  simpl.
  destruct (List.find _ sessionPages) as [page|] eqn:Efind.
  - apply find_some in Efind. destruct Efind as [Hpage Heq].
    apply String.eqb_eq in Heq.
    destruct Hin as [->|Hin].
    + exfalso. apply Hx. apply in_map_iff. exists page. split; assumption.
    + destruct IH as [missing [E [Hm Hno]]]; [exists x; split; assumption|].
      exists missing. rewrite E. repeat split; [right; exact Hm | exact Hno].
  - exists pageId. repeat split; [left; reflexivity|].
    intros Hin'. apply in_map_iff in Hin'. destruct Hin' as [r [Hr Hin']].
    pose proof (find_none _ _ Efind r Hin') as Hf. simpl in Hf.
    rewrite Hr, String.eqb_refl in Hf. discriminate.
Qed.

(* ===================================================================== *)
(** ** Page numbers after a change of a session                           *)
(* ===================================================================== *)

Lemma sameStore_refl w : sameStore w w.
Proof. split; reflexivity. Qed.

Lemma sameStore_trans a b c : sameStore a b -> sameStore b c -> sameStore a c.
Proof. unfold sameStore. intros [? ?] [? ?]. split; congruence. Qed.

Lemma unlinkSync_store p : preserves sameStore (unlinkSync p).
Proof.
  unfold unlinkSync. repeat frame_step sameStore_refl sameStore_trans.
  apply preserves_modify. intros w. split; reflexivity.
Qed.

Lemma contiguousFrom_app k l p :
  contiguousFrom k l -> pageNumber p = k + Z.of_nat (length l) ->
  contiguousFrom k (l ++ [p])%list.
Proof.
  revert k. induction l as [|q l IH]; intros k Hl Hp; simpl in *.
  - split; [lia | exact I].
  - destruct Hl as [Hq Hl]. split; [exact Hq|]. apply IH; [exact Hl | lia].
Qed.

Lemma splice1_In {A} i (l : list A) x : In x (DocumentSessionManager.splice1 i l) -> In x l.
Proof.
  revert i. induction l as [|a l IH]; intros i; destruct i as [|i]; simpl; try tauto.
  intros [->|H]; [left; reflexivity | right; exact (IH _ H)].
Qed.

Lemma splice1_NoDup {A} i (l : list A) :
  List.NoDup l -> List.NoDup (DocumentSessionManager.splice1 i l).
Proof.
  revert i. induction l as [|a l IH]; intros i Hnd; destruct i as [|i]; simpl;
    try constructor; inversion Hnd as [|? ? Hnotin Hnd']; subst; try exact Hnd'.
  - intros H. apply Hnotin. exact (splice1_In _ _ _ H).
  - apply IH. exact Hnd'.
Qed.

(** The validation of a reorder returns the pages of the requested ids. *)
Lemma pagesById_inr h sessionPages pageIds reordered :
  DocumentSessionManager.pagesById h sessionPages pageIds = inr reordered ->
  List.map (fun r => id (DocumentSessionManager.pageAt h r)) reordered = pageIds /\
  forall r, In r reordered -> In r sessionPages.
Proof.
  revert reordered. induction pageIds as [|pageId rest IH]; intros reordered; simpl.
  - intros [= <-]. split; [reflexivity | intros r []].
  - destruct (List.find _ sessionPages) as [page|] eqn:Ef; [|discriminate].
    destruct (DocumentSessionManager.pagesById h sessionPages rest) as [|l]; [discriminate|].
    intros [= <-]. destruct (IH l eq_refl) as [Hids Hin].
    apply find_some in Ef. destruct Ef as [Hpage Heq]. apply String.eqb_eq in Heq.
    split.
    + simpl. now rewrite Heq, Hids.
    + intros r [<-|Hr]; [exact Hpage | exact (Hin r Hr)].
Qed.

Lemma NoDup_map_inv' {A B} (f : A -> B) l : List.NoDup (List.map f l) -> List.NoDup l.
Proof.
  induction l as [|a l IH]; simpl; intros H; [constructor|].
  inversion H as [|? ? Hnotin Hnd]; subst. constructor; [|exact (IH Hnd)].
  intros Hin. apply Hnotin. apply in_map. exact Hin.
Qed.

(** A successful reorder with pairwise different ids numbers the pages
    1, 2, ... *)
Lemma reorderPages_distinct_ids_numbered w sid pageIds s w' :
  fst (DocumentSessionManager.getSession sid w) = Return (Some s) ->
  validRefs (snd (DocumentSessionManager.getSession sid w)) s ->
  List.NoDup pageIds ->
  DocumentSessionManager.reorderPages sid pageIds w = (Return DocumentSessionManager.ok, w') ->
  exists s',
    DocumentSessionManager.mapGet sid (sessions w') = Some s' /\
    List.map id (DocumentSessionManager.pagesOf w' s') = pageIds /\
    contiguousFrom 1 (DocumentSessionManager.pagesOf w' s').
Proof.
  intros Hget Hvalid Hnd Hrun.
  rewrite getSession_eq in Hget, Hvalid. cbn [fst snd] in Hget, Hvalid.
  injection Hget as Hget.
  set (w1 := snd (DocumentSessionManager.loadSessions w)) in *.
  unfold DocumentSessionManager.reorderPages, try_catch, bind at 1 in Hrun.
  rewrite getSession_eq in Hrun. fold w1 in Hrun. rewrite Hget in Hrun.
  unfold bind at 1, gets at 1 in Hrun. cbv beta iota in Hrun.
  destruct (DocumentSessionManager.pagesById (heap w1) (pages s) pageIds)
    as [missing|reordered] eqn:Eby; [discriminate Hrun|].
  destruct (pagesById_inr _ _ _ _ Eby) as [Hids Hin].
  unfold bind at 1, DocumentSessionManager.renumber in Hrun.
  rewrite renumberFrom_eq in Hrun.
  unfold bind, now, gets, DocumentSessionManager.setSession, modify, ret in Hrun.
  injection Hrun as <-.
  assert (Hnd' : List.NoDup reordered).
  { apply (NoDup_map_inv' (fun r => id (DocumentSessionManager.pageAt (heap w1) r))).
    rewrite Hids. exact Hnd. }
  assert (Hpages : List.map (DocumentSessionManager.pageAt
                               (renumberHeap 0 reordered (heap w1))) reordered =
                   numberFrom 0 (List.map (DocumentSessionManager.pageAt (heap w1)) reordered)).
  { apply renumberHeap_pages; [exact Hnd'|]. intros r Hr. apply Hvalid, Hin, Hr. }
  eexists. split; [apply mapGet_mapSet_same|].
  unfold DocumentSessionManager.pagesOf. cbn [pages heap with_sessions with_heap
    DocumentSessionManager.withPages]. rewrite Hpages. split.
  - rewrite numberFrom_ids, map_map. exact Hids.
  - apply (numberFrom_contiguous 0).
Qed.

(** A successful removal from a session without a repeated page object
    numbers the remaining pages 1, 2, ... *)
Lemma removePageFromSession_numbered w sid pageIdOrPath s w' :
  fst (DocumentSessionManager.getSession sid w) = Return (Some s) ->
  validRefs (snd (DocumentSessionManager.getSession sid w)) s ->
  List.NoDup (pages s) ->
  DocumentSessionManager.removePageFromSession sid pageIdOrPath w =
    (Return DocumentSessionManager.ok, w') ->
  exists s',
    DocumentSessionManager.mapGet sid (sessions w') = Some s' /\
    S (length (pages s')) = length (pages s) /\
    contiguousFrom 1 (DocumentSessionManager.pagesOf w' s').
Proof.
  intros Hget Hvalid Hnd Hrun.
  rewrite getSession_eq in Hget, Hvalid. cbn [fst snd] in Hget, Hvalid.
  injection Hget as Hget.
  set (w1 := snd (DocumentSessionManager.loadSessions w)) in *.
  unfold DocumentSessionManager.removePageFromSession, try_catch, bind at 1 in Hrun.
  rewrite getSession_eq in Hrun. fold w1 in Hrun. rewrite Hget in Hrun.
  unfold bind at 1, gets at 1 in Hrun. cbv beta iota zeta in Hrun.
  match type of Hrun with
  | context [match ?pi with Some _ => _ | None => ret (DocumentSessionManager.failed _) end] =>
      destruct pi as [i|] eqn:Ei; [|discriminate Hrun]
  end.
  destruct (nth_error (pages s) i) as [r|] eqn:Er; [|discriminate Hrun].
  unfold bind at 1, existsSync, gets at 1 in Hrun. cbv beta iota in Hrun.
  unfold bind at 1 in Hrun.
  match type of Hrun with
  | context [(if ?b then unlinkSync ?p else ret tt) w1] =>
      assert (Hstore : sameStore w1 (snd ((if b then unlinkSync p else ret tt) w1)))
        by (destruct b; [apply unlinkSync_store | apply sameStore_refl]);
      destruct ((if b then unlinkSync p else ret tt) w1) as [[[]|e] w2]
  end; [|discriminate Hrun].
  destruct Hstore as [Hheap Hsessions]. cbn [snd] in Hheap, Hsessions.
  unfold bind at 1, DocumentSessionManager.renumber in Hrun.
  rewrite renumberFrom_eq in Hrun.
  unfold bind, now, gets, DocumentSessionManager.setSession, modify, ret in Hrun.
  injection Hrun as <-.
  set (remaining := DocumentSessionManager.splice1 i (pages s)) in *.
  assert (Hpages : List.map (DocumentSessionManager.pageAt
                               (renumberHeap 0 remaining (heap w2))) remaining =
                   numberFrom 0 (List.map (DocumentSessionManager.pageAt (heap w2)) remaining)).
  { apply renumberHeap_pages; [apply splice1_NoDup; exact Hnd|].
    intros x Hx. rewrite Hheap. apply Hvalid. exact (splice1_In _ _ _ Hx). }
  eexists. split; [apply mapGet_mapSet_same|].
  unfold DocumentSessionManager.pagesOf. cbn [pages heap with_sessions with_heap
    DocumentSessionManager.withPages]. rewrite Hpages. split.
  - fold remaining. clear - Er. subst remaining. revert i Er.
    induction (pages s) as [|a l IH]; intros i Er; destruct i as [|i]; simpl in *;
      try discriminate; [reflexivity|]. f_equal. exact (IH i Er).
  - apply (numberFrom_contiguous 0).
Qed.

(** A successful addition to a session that is numbered 1, 2, ... leaves it
    numbered 1, 2, ... *)
Lemma addPageToSession_numbered w sid pageFilepath w' :
  (forall s, fst (DocumentSessionManager.getSession sid w) = Return (Some s) ->
     validRefs (snd (DocumentSessionManager.getSession sid w)) s /\
     contiguousFrom 1
       (DocumentSessionManager.pagesOf (snd (DocumentSessionManager.getSession sid w)) s)) ->
  DocumentSessionManager.addPageToSession sid pageFilepath w =
    (Return DocumentSessionManager.ok, w') ->
  exists s',
    DocumentSessionManager.mapGet sid (sessions w') = Some s' /\
    contiguousFrom 1 (DocumentSessionManager.pagesOf w' s').
Proof.
  intros Hinv Hrun.
  rewrite getSession_eq in Hinv. cbn [fst snd] in Hinv.
  set (w1 := snd (DocumentSessionManager.loadSessions w)) in *.
  unfold DocumentSessionManager.addPageToSession, try_catch, bind at 1 in Hrun.
  rewrite getSession_eq in Hrun. fold w1 in Hrun.
  unfold bind at 1, now, gets at 1 in Hrun. cbv beta iota zeta in Hrun.
  set (session := match DocumentSessionManager.mapGet sid (sessions w1) with
                  | Some s => s
                  | None => mkDocumentSession sid
                      (if String.eqb sid "default" then "Current Document"
                       else "Document " ++ sid) [] (clock w1) (clock w1)
                  end) in *.
  assert (Hs : validRefs w1 session /\
               contiguousFrom 1 (DocumentSessionManager.pagesOf w1 session)).
  { subst session. destruct (DocumentSessionManager.mapGet sid (sessions w1)) as [s|].
    - apply Hinv. reflexivity.
    - split; [intros r []|exact I]. }
  destruct Hs as [Hvalid Hnum].
  unfold bind at 1, existsSync, gets at 1 in Hrun. cbv beta iota in Hrun.
  match type of Hrun with
  | context [if negb ?b then _ else _] => destruct b; cbn [negb] in Hrun; [|discriminate Hrun]
  end.
  unfold bind at 1 in Hrun. pose proof (statSync_state pageFilepath w1) as Hst.
  destruct (statSync pageFilepath w1) as [[f|e] w1']; [|discriminate Hrun].
  cbn [snd] in Hst. subst w1'.
  destruct (fileSize f =? 0).
  { unfold bind, DocumentSessionManager.tryUnlink, try_catch in Hrun.
    destruct (unlinkSync pageFilepath w1) as [[[]|e] w2]; discriminate Hrun. }
  unfold DocumentSessionManager.generateId, DocumentSessionManager.alloc,
    DocumentSessionManager.setSession, modify, gets, ret in Hrun.
  injection Hrun as <-.
  eexists. split; [apply mapGet_mapSet_same|].
  unfold DocumentSessionManager.pagesOf. cbn [pages heap with_sessions with_heap
    with_idCalls DocumentSessionManager.withPages].
  rewrite map_app. cbn [List.map].
  replace (List.map (DocumentSessionManager.pageAt (heap w1 ++ _)) (pages session))
    with (List.map (DocumentSessionManager.pageAt (heap w1)) (pages session)).
  - unfold DocumentSessionManager.pageAt at 2. rewrite app_nth2 by lia.
    rewrite Nat.sub_diag. cbn [nth].
    apply contiguousFrom_app; [exact Hnum|]. cbn [pageNumber].
    rewrite length_map. lia.
  - apply map_ext_in. intros r Hr. unfold DocumentSessionManager.pageAt.
    rewrite app_nth1 by (apply Hvalid; exact Hr). reflexivity.
Qed.

(** C6.  The session "letters" holds one page, with id "id1".  Reordering
    it with that id given twice succeeds, and the session then lists the
    page twice, both times with page number 2: the numbers are not 1, 2. *)
Theorem reorderPages_duplicate_id_breaks_numbering :
  let w := Scenario.ownSession in
  (exists s, DocumentSessionManager.mapGet "letters" (sessions w) = Some s /\
     List.map id (DocumentSessionManager.pagesOf w s) = ["id1"]) /\
  (let '(r, w') := DocumentSessionManager.reorderPages "letters" ["id1"; "id1"] w in
   r = Return DocumentSessionManager.ok /\
   exists s, DocumentSessionManager.mapGet "letters" (sessions w') = Some s /\
     List.map pageNumber (DocumentSessionManager.pagesOf w' s) = [2; 2] /\
     ~ contiguousFrom 1 (DocumentSessionManager.pagesOf w' s)).
Proof.
  vm_compute. split.
  - eexists. split; reflexivity.
  - split; [reflexivity|]. eexists. split; [reflexivity|]. split; [reflexivity|].
    intros [H _]. discriminate H.
Qed.

(* ===================================================================== *)
(** ** Combining a session whose page files are gone                      *)
(* ===================================================================== *)

(** C5.  The session "letters" lists one page whose file no longer exists.
    With the PDF format the combination succeeds: it returns the path of a
    new file, and that file is a PDF that holds no page of the session,
    only the blank page that saving an empty document adds.  With the TIFF
    format the same session is refused and nothing is written. *)
Theorem combinePdfPages_without_inputs_writes_empty_document :
  let w := Scenario.orphanedSession in
  (exists s, DocumentSessionManager.mapGet "letters" (sessions w) = Some s /\
     List.map filepath (DocumentSessionManager.pagesOf w s) = [Scenario.scanPath] /\
     lookupFile Scenario.scanPath (files w) = None) /\
  (let '(r, w') := DocumentSessionManager.combineSessionPages "letters" w in
   r = Return "/tmp/combined-letters-2026-11-03T06-21-00-123Z.pdf" /\
   lookupFile "/tmp/combined-letters-2026-11-03T06-21-00-123Z.pdf" (files w') =
     Some (mkFile 1000 Scenario.t0 (Some [blankPage]))) /\
  (let '(r, w') :=
     DocumentSessionManager.combineSessionPages "letters" (Scenario.withFormat "tiff" w) in
   r = Throw "Failed to combine TIFF pages into PDF: No valid TIFF files to combine" /\
   files w' = []).
Proof.
  vm_compute. repeat split; try reflexivity.
  eexists. repeat split; reflexivity.
Qed.

(* ===================================================================== *)
(** ** Validation of the settings                                         *)
(* ===================================================================== *)

Lemma run_chr_Some a s caps k x :
  Regex.run (Regex.chr a) s caps k = Some x ->
  exists s', s = String a s' /\ k s' caps = Some x.
Proof.
  destruct s as [|c s']; simpl; [discriminate|].
  destruct (Ascii.eqb a c) eqn:E; [|discriminate].
  apply Ascii.eqb_eq in E. subst c. intros H. exists s'. split; [reflexivity | exact H].
Qed.

Lemma run_chr_same a s caps k :
  Regex.run (Regex.chr a) (String a s) caps k = k s caps.
Proof. simpl. now rewrite Ascii.eqb_refl. Qed.

(** A greedy star followed by nothing that can fail always matches. *)
Lemma run_star_total r s caps :
  Regex.run (Regex.Star true r) s caps (fun _ c => Some c) <> None.
Proof.
  simpl. generalize (String.length s) at 1. intros n. revert s caps.
  induction n as [|n IH]; intros s caps; [discriminate|].
  match goal with |- match ?m with _ => _ end <> None => destruct m end; discriminate.
Qed.

Lemma urlRegex_after_scheme c rest :
  Regex.run (Regex.plus Regex.dot) (String c rest) [] (fun _ x => Some x) <> None <->
  c <> "010"%char /\ c <> "013"%char.
Proof.
  unfold Regex.plus.
  change (Regex.run (Regex.Seq Regex.dot (Regex.Star true Regex.dot)) (String c rest) []
            (fun _ x => Some x))
    with (if negb (Ascii.eqb c "010" || Ascii.eqb c "013")
          then Regex.run (Regex.Star true Regex.dot) rest [] (fun _ x => Some x)
          else None).
  destruct (Ascii.eqb c "010") eqn:E1; [apply Ascii.eqb_eq in E1|apply Ascii.eqb_neq in E1];
  destruct (Ascii.eqb c "013") eqn:E2; [apply Ascii.eqb_eq in E2|apply Ascii.eqb_neq in E2
                                        |apply Ascii.eqb_eq in E2|apply Ascii.eqb_neq in E2];
    cbn [orb negb]; try (split; [intros H; now contradiction H | intros [? ?]; congruence]).
  split; [intros _; split; assumption | intros _; apply run_star_total].
Qed.

Lemma urlRegex_httpUrl u :
  Regex.matchesFromStart SettingsManager.urlRegex u = true <-> httpUrl u.
Proof.
  unfold Regex.matchesFromStart, httpUrl.
  set (k := fun (_ : string) (x : Regex.captures) => Some x).
  split.
  - destruct (Regex.run SettingsManager.urlRegex u [] k) as [x|] eqn:E; [|discriminate].
    intros _. unfold SettingsManager.urlRegex in E. cbn [Regex.seqs Regex.lit] in E.
    cbn [Regex.run] in E.
    apply run_chr_Some in E. destruct E as [u1 [-> E]].
    apply run_chr_Some in E. destruct E as [u2 [-> E]].
    apply run_chr_Some in E. destruct E as [u3 [-> E]].
    apply run_chr_Some in E. destruct E as [u4 [-> E]].
    unfold Regex.opt in E. cbn [Regex.run] in E.
    assert (Hrest : forall v,
      Regex.run (Regex.chr ":") v []
        (fun s1 c1 => Regex.run (Regex.chr "/") s1 c1
           (fun s2 c2 => Regex.run (Regex.chr "/") s2 c2
              (fun s3 c3 => Regex.run (Regex.plus Regex.dot) s3 c3 k))) = Some x ->
      exists c rest, v = "://" ++ String c rest /\ c <> "010"%char /\ c <> "013"%char).
    { intros v Hv.
      apply run_chr_Some in Hv. destruct Hv as [v1 [-> Hv]].
      apply run_chr_Some in Hv. destruct Hv as [v2 [-> Hv]].
      apply run_chr_Some in Hv. destruct Hv as [v3 [-> Hv]].
      destruct v3 as [|c rest]; [discriminate Hv|].
      exists c, rest. split; [reflexivity|].
      apply (urlRegex_after_scheme c rest). unfold k in Hv. rewrite Hv. discriminate. }
    match type of E with
    | match ?m with _ => _ end = _ => destruct m as [y|] eqn:Es
    end.
    + injection E as ->. apply run_chr_Some in Es. destruct Es as [u5 [-> Es]].
      destruct (Hrest _ Es) as [c [rest [-> Hc]]].
      exists c, rest. split; [right; reflexivity | exact Hc].
    + cbn [Regex.run] in E. destruct (Hrest _ E) as [c [rest [-> Hc]]].
      exists c, rest. split; [left; reflexivity | exact Hc].
  - intros [c [rest [[-> | ->] Hc]]].
    + apply (urlRegex_after_scheme c rest) in Hc.
      unfold SettingsManager.urlRegex. cbn [Regex.seqs Regex.lit]. cbn [Regex.run].
      cbn [append]. rewrite !run_chr_same. unfold Regex.opt. cbn [Regex.run].
      replace (Regex.run (Regex.chr "s") (String ":" _) [] _) with (@None Regex.captures)
        by reflexivity.
      rewrite !run_chr_same. unfold k in *.
      destruct (Regex.run (Regex.plus Regex.dot) (String c rest) [] _);
        [reflexivity | now contradiction Hc].
    + apply (urlRegex_after_scheme c rest) in Hc.
      unfold SettingsManager.urlRegex. cbn [Regex.seqs Regex.lit]. cbn [Regex.run].
      cbn [append]. rewrite !run_chr_same. unfold Regex.opt. cbn [Regex.run].
      rewrite !run_chr_same. unfold k in *.
      destruct (Regex.run (Regex.plus Regex.dot) (String c rest) [] _);
        [reflexivity | now contradiction Hc].
Qed.

Lemma truthy_true s : JS.truthy s = true <-> s <> EmptyString.
Proof. destruct s; simpl; split; intros; congruence. Qed.

(** X1.  [validate] accepts the settings exactly when the API URL is an
    HTTP or HTTPS URL, the token and the output directory are not empty,
    the resolution lies between 75 and 1200, and the output format is
    empty or one of pdf, tiff, png, jpeg. *)
Theorem validate_accepts_exactly_the_usable_settings :
  forall st,
    SettingsManager.valid (SettingsManager.validate st) = true <->
    httpUrl (paperlessApiUrl st) /\
    paperlessApiToken st <> EmptyString /\
    scanOutputDir st <> EmptyString /\
    75 <= scanResolution st <= 1200 /\
    (outputFormat st = EmptyString \/ In (outputFormat st) ["pdf"; "tiff"; "png"; "jpeg"]).
Proof.
  intros st. unfold SettingsManager.validate. cbv zeta. cbn [SettingsManager.valid].
  rewrite Nat.eqb_eq, !length_app, !Nat.eq_add_0.
  pose proof (urlRegex_httpUrl (paperlessApiUrl st)) as Hurl.
  assert (Hfmt : List.existsb (String.eqb (outputFormat st)) SettingsManager.outputFormats = true
                 <-> In (outputFormat st) ["pdf"; "tiff"; "png"; "jpeg"]).
  { unfold SettingsManager.outputFormats. rewrite existsb_exists. split.
    - intros [x [Hx E]]. apply String.eqb_eq in E. now subst x.
    - intros H. exists (outputFormat st). split; [exact H | apply String.eqb_refl]. }
  split.
  - intros (H1 & H2 & H3 & H4 & H5).
    destruct (JS.truthy (paperlessApiUrl st)); [|discriminate H1].
    destruct (Regex.matchesFromStart _ _); [|discriminate H1].
    destruct (JS.truthy (paperlessApiToken st)) eqn:Et; [|discriminate H2].
    destruct (JS.truthy (scanOutputDir st)) eqn:Ed; [|discriminate H3].
    destruct (scanResolution st <? 75) eqn:E5; [discriminate H4|].
    destruct (1200 <? scanResolution st) eqn:E6; [discriminate H4|].
    apply Z.ltb_ge in E5, E6. apply truthy_true in Et, Ed.
    repeat split; try assumption; try lia; [now apply Hurl|].
    destruct (JS.truthy (outputFormat st)) eqn:Ef.
    + right. apply Hfmt. destruct (List.existsb _ _); [reflexivity | discriminate H5].
    + left. destruct (outputFormat st); [reflexivity | discriminate Ef].
  - intros (H1 & H2 & H3 & [H4 H4'] & H5).
    assert (Hu : paperlessApiUrl st <> EmptyString).
    { intros E. rewrite E in H1. destruct H1 as [c [rest [[H|H] _]]]; discriminate H. }
    apply truthy_true in Hu, H2, H3. apply Hurl in H1. rewrite Hu, H1, H2, H3.
    apply Z.ltb_ge in H4, H4'. rewrite H4, H4'. cbn [negb orb length].
    repeat split. destruct H5 as [-> | H5]; [reflexivity|].
    apply Hfmt in H5. rewrite H5. now rewrite andb_false_r.
Qed.

(** X2.  The defaults pass every check but the one for the API token: with
    a token filled in they are accepted, without one the only error is the
    missing token. *)
Theorem validate_defaults_need_only_a_token :
  forall token,
    SettingsManager.errors
      (SettingsManager.validate (withApiToken token SettingsManager.DEFAULT_SETTINGS)) =
    (if JS.truthy token then [] else ["Paperless API Token is required"]) /\
    SettingsManager.valid
      (SettingsManager.validate (withApiToken token SettingsManager.DEFAULT_SETTINGS)) =
    JS.truthy token.
Proof. intros token. destruct token; split; reflexivity. Qed.

(* ===================================================================== *)
(** ** The upload endpoint                                                *)
(* ===================================================================== *)

Lemma rev_onto_acc s : forall acc, JS.rev_onto s acc = (JS.reverse s ++ acc)%string.
Proof.
  unfold JS.reverse. induction s as [|c s IH]; intros acc; simpl; [reflexivity|].
  rewrite (IH (String c acc)), (IH (String c EmptyString)), string_app_assoc. reflexivity.
Qed.

Lemma rev_onto_app a b : forall acc,
  JS.rev_onto (a ++ b) acc = JS.rev_onto b (JS.rev_onto a acc).
Proof. induction a as [|c a IH]; intros acc; simpl; [reflexivity | apply IH]. Qed.

Lemma reverse_app a b : JS.reverse (a ++ b) = (JS.reverse b ++ JS.reverse a)%string.
Proof. unfold JS.reverse at 1. now rewrite rev_onto_app, rev_onto_acc. Qed.

Lemma startsWith_app p s : JS.startsWith (p ++ s) p = true.
Proof.
  induction p as [|c p IH]; simpl; [destruct s; reflexivity | now rewrite Ascii.eqb_refl].
Qed.

Lemma startsWith_prefix a b : forall s,
  JS.startsWith s (a ++ b) = true -> JS.startsWith s a = true.
Proof.
  induction a as [|c a IH]; intros s; [intros _; destruct s; reflexivity|].
  destruct s as [|d s]; simpl; [discriminate|].
  destruct (Ascii.eqb c d); cbn [andb]; [apply IH | discriminate].
Qed.

Lemma endsWith_app a b : JS.endsWith (a ++ b) b = true.
Proof. unfold JS.endsWith. rewrite reverse_app. apply startsWith_app. Qed.

(** A string that is not empty ends as its tail does. *)
Lemma endsWith_tail c d s p :
  JS.endsWith (String c (String d s)) (String p EmptyString) =
  JS.endsWith (String d s) (String p EmptyString).
Proof.
  unfold JS.endsWith.
  change (String c (String d s)) with (String c EmptyString ++ String d s)%string.
  rewrite reverse_app.
  destruct (JS.reverse (String d s)) as [|x r] eqn:E.
  - unfold JS.reverse in E. apply rev_onto_empty in E. discriminate E.
  - cbn. destruct (Ascii.eqb p x); [destruct r; destruct (String c EmptyString)|]; reflexivity.
Qed.

Lemma restAfter_trailingSlash s :
  Regex.restAfter SettingsManager.trailingSlash s =
  if String.eqb s "/" then Some EmptyString else None.
Proof.
  unfold Regex.restAfter, SettingsManager.trailingSlash.
  destruct s as [|c [|d s]]; [reflexivity| |].
  - cbn [Regex.run Regex.chr]. destruct (Ascii.eqb_spec "/" c) as [<-|Hc]; [reflexivity|].
    destruct (String.eqb_spec (String c EmptyString) "/") as [E|_]; [|reflexivity].
    injection E as E. congruence.
  - cbn [Regex.run Regex.chr].
    destruct (String.eqb_spec (String c (String d s)) "/") as [E|_]; [discriminate E|].
    destruct (Ascii.eqb "/" c); reflexivity.
Qed.

Lemma replace_trailingSlash_present u :
  Regex.replace SettingsManager.trailingSlash (u ++ "/") EmptyString = u.
Proof.
  induction u as [|c u IH].
  - reflexivity.
  - cbn [append Regex.replace]. rewrite restAfter_trailingSlash.
    replace (String.eqb (String c (u ++ "/")) "/") with false.
    + now rewrite IH.
    + symmetry. apply String.eqb_neq. intros E. injection E as _ E.
      destruct u; discriminate E.
Qed.

Lemma replace_trailingSlash_absent u :
  JS.endsWith u "/" = false ->
  Regex.replace SettingsManager.trailingSlash u EmptyString = u.
Proof.
  induction u as [|c u IH]; intros Hend; [reflexivity|].
  cbn [Regex.replace]. rewrite restAfter_trailingSlash.
  destruct (String.eqb_spec (String c u) "/") as [E|_].
  - rewrite E in Hend. discriminate Hend.
  - f_equal. destruct u as [|d u]; [reflexivity|].
    apply IH. now rewrite <- (endsWith_tail c).
Qed.

(** X3.  One slash at the end of the API URL makes no difference to the
    upload endpoint: for a URL [u] that does not end in a slash, both [u]
    and [u/] give [u/api/documents/post_document/]. *)
Theorem getPaperlessApiEndpoint_ignores_one_trailing_slash :
  forall st u,
    JS.endsWith u "/" = false ->
    paperlessApiUrl st = u \/ paperlessApiUrl st = (u ++ "/")%string ->
    SettingsManager.getPaperlessApiEndpoint st =
      (u ++ "/api/documents/post_document/")%string.
Proof.
  intros st u Hend [E|E]; unfold SettingsManager.getPaperlessApiEndpoint; cbv zeta;
    rewrite E.
  - now rewrite replace_trailingSlash_absent.
  - now rewrite replace_trailingSlash_present.
Qed.

Lemma getPaperlessApiEndpoint_witness :
  SettingsManager.getPaperlessApiEndpoint
    (withApiUrl "http://paperless.local:8000/" SettingsManager.DEFAULT_SETTINGS) =
  "http://paperless.local:8000/api/documents/post_document/".
Proof.
  apply (getPaperlessApiEndpoint_ignores_one_trailing_slash
           (withApiUrl "http://paperless.local:8000/" SettingsManager.DEFAULT_SETTINGS)
           "http://paperless.local:8000");
    [reflexivity | right; reflexivity].
Defined.

(* ===================================================================== *)
(** ** From the scanner to the session                                    *)
(* ===================================================================== *)

(** Accepted settings name a format that can be an extension of a scan. *)
Lemma validate_format st :
  SettingsManager.valid (SettingsManager.validate st) = true ->
  In (ScannerManager.orElse (outputFormat st) "pdf") SettingsManager.outputFormats.
Proof.
  unfold SettingsManager.validate. cbv zeta. cbn [SettingsManager.valid].
  rewrite Nat.eqb_eq, !length_app, !Nat.eq_add_0. intros (_ & _ & _ & _ & H).
  unfold ScannerManager.orElse. destruct (JS.truthy (outputFormat st)); [|left; reflexivity].
  destruct (List.existsb _ _) eqn:E; [|discriminate H].
  apply existsb_exists in E. destruct E as [x [Hx E]].
  apply String.eqb_eq in E. now subst x.
Qed.

Lemma isScanFile_named ext n :
  In ext SettingsManager.outputFormats ->
  JS.startsWith n "scan-" = true ->
  JS.endsWith n ("." ++ ext) = true ->
  DocumentSessionManager.isScanFile n = true.
Proof.
  intros Hext Hs He. unfold DocumentSessionManager.isScanFile. rewrite Hs. cbn [andb].
  apply existsb_exists. exists ("." ++ ext)%string. split; [|exact He].
  unfold SettingsManager.outputFormats in Hext. simpl in Hext.
  destruct Hext as [<-|[<-|[<-|[<-|[]]]]]; simpl; tauto.
Qed.

Lemma keepNonEmpty_In dir names :
  forall acc w l w',
    keepNonEmpty dir names acc w = (Return l, w') ->
    forall p, In p l -> In p acc \/ exists n, In n names /\ p = path_join dir n.
Proof.
  induction names as [|n rest IH]; intros acc w l w' Hrun p Hp.
  - injection Hrun as <- _. left. exact Hp.
  - cbn [keepNonEmpty] in Hrun. unfold bind at 1 in Hrun.
    destruct (statSync (path_join dir n) w) as [[stats|e] w1]; [|discriminate Hrun].
    destruct (0 <? fileSize stats).
    + destruct (IH _ _ _ _ Hrun p Hp) as [Hacc|[m [Hm ->]]].
      * apply in_app_or in Hacc. destruct Hacc as [Hacc|[<-|[]]]; [left; exact Hacc|].
        right. exists n. split; [left; reflexivity | reflexivity].
      * right. exists m. split; [right; exact Hm | reflexivity].
    + unfold bind at 1 in Hrun.
      destruct (unlinkSync (path_join dir n) w1) as [[[]|e] w2]; [|discriminate Hrun].
      destruct (IH _ _ _ _ Hrun p Hp) as [Hacc|[m [Hm ->]]]; [left; exact Hacc|].
      right. exists m. split; [right; exact Hm | reflexivity].
Qed.

(** The files a duplex scan returns are batch files of the directory. *)
Lemma scanDuplex_returns cmd dir batchPrefix ext scanner w l w' :
  scanDuplex cmd dir batchPrefix ext scanner w = (Return l, w') ->
  forall p, In p l ->
    exists n, p = path_join dir n /\ isBatchFile batchPrefix ext n = true.
Proof.
  unfold scanDuplex, try_catch. intros Hrun p Hp.
  match type of Hrun with
  | match ?m w with _ => _ end = _ => destruct (m w) as [[l0|e] w0] eqn:Em
  end.
  2:{ unfold bind in Hrun. destruct (cleanupBatch dir batchPrefix ext w0) as [[[]|e'] w2];
        discriminate Hrun. }
  injection Hrun as -> ->.
  unfold bind at 1 in Em.
  destruct (exec cmd _ w) as [[out|e] w1]; [|discriminate Em].
  unfold bind at 1 in Em.
  destruct (collectBatch dir batchPrefix ext w1) as [[scanned|e] w2] eqn:Ec; [|discriminate Em].
  assert (l = scanned).
  { unfold bind in Em. destruct scanner as [s|].
    - destruct (ScannerManager.markSuccessfulScan s w2) as [[[]|e] w3];
        [injection Em as <- _; reflexivity | discriminate Em].
    - unfold ret in Em. injection Em as <- _. reflexivity. }
  subst scanned. clear Em.
  unfold collectBatch, bind at 1 in Ec.
  destruct (readdirSync dir w1) as [[entries|e] w3]; [|discriminate Ec].
  unfold bind at 1 in Ec.
  destruct (keepNonEmpty dir _ [] w3) as [[scanned|e] w4] eqn:Ek; [|discriminate Ec].
  destruct (length scanned =? 0)%nat; [discriminate Ec|].
  injection Ec as <- _.
  destruct (keepNonEmpty_In _ _ _ _ _ _ Ek p Hp) as [[]|[n [Hn ->]]].
  exists n. split; [reflexivity|].
  apply sort_In in Hn. apply filter_In in Hn. exact (proj2 Hn).
Qed.

(** X4.  With settings that [validate] accepts, every file [scanPage]
    returns lies in the output directory under a name that [loadSessions]
    takes for a scan: it starts with [scan-] and ends in one of the
    recognised extensions. *)
Theorem scanPage_returns_files_the_session_loader_recognises :
  forall w l w',
    SettingsManager.valid (SettingsManager.validate (settings w)) = true ->
    scanPage w = (Return l, w') ->
    forall p, In p l ->
      exists n, p = path_join (scanOutputDir (settings w)) n /\
                DocumentSessionManager.isScanFile n = true.
Proof.
  intros w l w' Hvalid Hrun p Hp.
  apply validate_format in Hvalid.
  unfold scanPage, bind at 1, gets at 1 in Hrun. cbv beta iota in Hrun.
  unfold bind at 1 in Hrun.
  destruct (resolveDevice (settings w) w) as [[resolved|e] w1]; [|discriminate Hrun].
  unfold bind at 1, now, gets at 1 in Hrun. cbv beta iota zeta in Hrun.
  set (ext := ScannerManager.orElse (outputFormat (settings w)) "pdf") in *.
  set (ts := JS.dashColonsDots (JS.toISOString (clock w1))) in *.
  destruct (match duplex (settings w) with Some true => true | _ => false end).
  - destruct (scanDuplex_returns _ _ _ _ _ _ _ _ Hrun p Hp) as [n [-> Hn]].
    exists n. split; [reflexivity|].
    unfold isBatchFile in Hn. apply andb_true_iff in Hn. destruct Hn as [Hs He].
    apply (isScanFile_named ext); [exact Hvalid | | exact He].
    exact (startsWith_prefix "scan-" _ n Hs).
  - match type of Hrun with
    | scanSingle _ (?final ++ ".tmp") _ _ _ = _ =>
        destruct (scanSingle_temp _ _ _ _ _ _ _ (temp_path_differs final) Hrun)
          as [_ [_ Hl]]
    end.
    destruct (Hl l eq_refl) as [-> _]. destruct Hp as [<-|[]].
    exists ("scan-" ++ ts ++ "." ++ ext)%string. split.
    + reflexivity.
    + apply (isScanFile_named ext); [exact Hvalid | apply (startsWith_app "scan-") |].
      replace ("scan-" ++ ts ++ "." ++ ext)%string
        with (("scan-" ++ ts) ++ ("." ++ ext))%string by apply string_app_assoc.
      apply endsWith_app.
Qed.

Lemma scanPage_returns_files_witness :
  exists n, "/tmp/scan-2026-11-03T06-21-00-123Z.pdf" = path_join "/tmp" n /\
            DocumentSessionManager.isScanFile n = true.
Proof.
  apply (scanPage_returns_files_the_session_loader_recognises Scenario.goodCapture
           ["/tmp/scan-2026-11-03T06-21-00-123Z.pdf"] (snd (scanPage Scenario.goodCapture)));
    [vm_compute; reflexivity | vm_compute; reflexivity | left; reflexivity].
Defined.

(* ===================================================================== *)
(** ** What reading a session does to the world                           *)
(* ===================================================================== *)

Lemma noNewFiles_refl w : noNewFiles w w.
Proof. intros p f H. exact H. Qed.
Lemma noNewFiles_trans a b c : noNewFiles a b -> noNewFiles b c -> noNewFiles a c.
Proof. intros Hab Hbc p f H. apply Hab, Hbc, H. Qed.
Lemma keepsContent_refl w : keepsContent w w.
Proof. intros p f H _. exact H. Qed.
Lemma keepsContent_trans a b c : keepsContent a b -> keepsContent b c -> keepsContent a c.
Proof. intros Hab Hbc p f H Hf. apply Hbc; [apply Hab|]; assumption. Qed.
Lemma sameOtherSessions_refl w : sameOtherSessions w w.
Proof. intros sid _. reflexivity. Qed.
Lemma sameOtherSessions_trans a b c :
  sameOtherSessions a b -> sameOtherSessions b c -> sameOtherSessions a c.
Proof. intros Hab Hbc sid H. rewrite (Hbc sid H). apply Hab, H. Qed.

(** A step that leaves the files alone. *)
Lemma sameFiles_noNewFiles {A} (m : M A) : preserves sameFiles m -> preserves noNewFiles m.
Proof. intros H w p f. rewrite (H w). tauto. Qed.

Lemma sameFiles_keepsContent {A} (m : M A) : preserves sameFiles m -> preserves keepsContent m.
Proof. intros H w p f. rewrite (H w). tauto. Qed.

Lemma lookupFile_remove_Some p q f fs :
  lookupFile p (removeFile q fs) = Some f -> lookupFile p fs = Some f.
Proof.
  destruct (String.eqb_spec p q) as [->|Hne].
  - now rewrite lookupFile_remove_same.
  - now rewrite lookupFile_remove_other.
Qed.

Lemma unlinkSync_noNewFiles p : preserves noNewFiles (unlinkSync p).
Proof.
  unfold unlinkSync. repeat frame_step noNewFiles_refl noNewFiles_trans.
  apply preserves_modify. intros w0 q g. apply lookupFile_remove_Some.
Qed.

Lemma generateId_files : preserves sameFiles DocumentSessionManager.generateId.
Proof. intros w. reflexivity. Qed.
Lemma alloc_files p : preserves sameFiles (DocumentSessionManager.alloc p).
Proof. intros w. reflexivity. Qed.
Lemma setSession_files k s : preserves sameFiles (DocumentSessionManager.setSession k s).
Proof. intros w. reflexivity. Qed.
Lemma renumberFrom_files l : forall k,
  preserves sameFiles (DocumentSessionManager.renumberFrom k l).
Proof.
  induction l as [|r l IH]; intros k; simpl; files_frame.
  - intros w. reflexivity.
  - apply IH.
Qed.
Lemma readdirSync_files dir : preserves sameFiles (readdirSync dir).
Proof. unfold readdirSync. files_frame. Qed.

(** A load never creates or changes a file ... *)
Lemma loadSessions_noNewFiles : preserves noNewFiles DocumentSessionManager.loadSessions.
Proof.
  unfold DocumentSessionManager.loadSessions, DocumentSessionManager.loadFile,
    DocumentSessionManager.tryUnlink, DocumentSessionManager.renumber, existsSync, statSync.
  repeat frame_step noNewFiles_refl noNewFiles_trans;
    first [ apply unlinkSync_noNewFiles
          | apply sameFiles_noNewFiles;
            first [ apply generateId_files | apply alloc_files | apply setSession_files
                  | apply renumberFrom_files | apply readdirSync_files ] ].
Qed.

(** ... deletes no file with content ... *)
Lemma loadFile_keepsContent dir n :
  preserves keepsContent (DocumentSessionManager.loadFile dir n).
Proof.
  intros w p f Hp Hf.
  destruct (lookupFile (path_join dir n) (files w)) as [g|] eqn:Eg.
  - rewrite (loadFile_eq dir n w g Eg).
    destruct (Z.eqb_spec (fileSize g) 0) as [Hz|Hnz]; [|exact Hp].
    cbn. rewrite lookupFile_remove_other; [exact Hp|].
    intros ->. rewrite Eg in Hp. injection Hp as ->. contradiction.
  - destruct (lookupFile (path_join dir n) (dirs w)) as [d|] eqn:Ed.
    + rewrite (loadFile_dir_eq dir n w d Eg Ed). destruct (fileSize d =? 0); exact Hp.
    + unfold DocumentSessionManager.loadFile, bind. rewrite statSync_eq, Eg, Ed. exact Hp.
Qed.

Lemma loadSessions_keepsContent : preserves keepsContent DocumentSessionManager.loadSessions.
Proof.
  unfold DocumentSessionManager.loadSessions, DocumentSessionManager.renumber, existsSync.
  repeat frame_step keepsContent_refl keepsContent_trans;
    first [ apply loadFile_keepsContent
          | apply sameFiles_keepsContent;
            first [ apply setSession_files | apply renumberFrom_files
                  | apply readdirSync_files ] ].
Qed.

Lemma mapGet_mapSet_other {V} k k' (v : V) m :
  k <> k' ->
  DocumentSessionManager.mapGet k (DocumentSessionManager.mapSet k' v m) =
  DocumentSessionManager.mapGet k m.
Proof.
  intros Hne. unfold DocumentSessionManager.mapGet.
  induction m as [|[a b] m IH]; simpl.
  - destruct (String.eqb_spec k' k); [congruence | reflexivity].
  - destruct (String.eqb_spec a k') as [->|Ha]; simpl.
    + destruct (String.eqb_spec k' k); [congruence | reflexivity].
    + destruct (String.eqb a k); [reflexivity | exact IH].
Qed.

Lemma renumberFrom_sessions l : forall k w,
  sessions (snd (DocumentSessionManager.renumberFrom k l w)) = sessions w.
Proof.
  induction l as [|r l IH]; intros k w; [reflexivity|].
  cbn [DocumentSessionManager.renumberFrom]. unfold bind, DocumentSessionManager.setPageNumber,
    modify. rewrite IH. reflexivity.
Qed.

(** ... touches no session but the default one ... *)
Lemma loadSessions_sameOtherSessions :
  preserves sameOtherSessions DocumentSessionManager.loadSessions.
Proof.
  assert (Hleaf : forall A (m : M A),
            (forall w, sessions (snd (m w)) = sessions w) -> preserves sameOtherSessions m).
  { intros A m H w sid _. now rewrite H. }
  unfold DocumentSessionManager.loadSessions, DocumentSessionManager.loadFile,
    DocumentSessionManager.tryUnlink, DocumentSessionManager.renumber, existsSync, statSync,
    readdirSync, unlinkSync.
  repeat frame_step sameOtherSessions_refl sameOtherSessions_trans;
    first [ apply Hleaf; intros w; first [reflexivity | apply renumberFrom_sessions]
          | idtac ].
  intros w sid Hsid. unfold DocumentSessionManager.setSession, modify. cbn.
  apply mapGet_mapSet_other. exact Hsid.
Qed.

Lemma setPageNumber_log r n : preserves sameLog (DocumentSessionManager.setPageNumber r n).
Proof. intros w. reflexivity. Qed.
Lemma renumberFrom_log l : forall k, preserves sameLog (DocumentSessionManager.renumberFrom k l).
Proof.
  induction l as [|r l IH]; intros k; simpl; log_frame;
    [apply setPageNumber_log | apply IH].
Qed.

(** ... and runs no command. *)
Lemma loadSessions_log : preserves sameLog DocumentSessionManager.loadSessions.
Proof.
  unfold DocumentSessionManager.loadSessions, DocumentSessionManager.loadFile,
    DocumentSessionManager.tryUnlink, DocumentSessionManager.renumber, existsSync, statSync.
  log_frame;
    first [ apply readdirSync_log | apply unlinkSync_log | apply renumberFrom_log
          | intros w; reflexivity ].
Qed.

(* ===================================================================== *)
(** ** A reorder that names an unknown page                               *)
(* ===================================================================== *)

(** Without an output directory a load does nothing. *)
Lemma loadSessions_no_dir w :
  isDir (scanOutputDir (settings w)) w = false ->
  DocumentSessionManager.loadSessions w = (Return tt, w).
Proof.
  intros Hdir. unfold DocumentSessionManager.loadSessions.
  unfold bind at 1, gets at 1. unfold bind at 1, existsSync, gets at 1. rewrite Hdir.
  destruct (lookupFile (scanOutputDir (settings w)) (files w)) as [f|] eqn:Ef;
    cbn [negb]; [|reflexivity].
  unfold try_catch, bind at 1, readdirSync, bind at 1, gets at 1. rewrite Hdir.
  unfold bind, gets. rewrite Ef. reflexivity.
Qed.

(** A load writes no page object that existed before it. *)
Lemma loadSessions_old_pages w r :
  wellFormed (files w) ->
  (r < length (heap w))%nat ->
  DocumentSessionManager.pageAt (heap (snd (DocumentSessionManager.loadSessions w))) r =
  DocumentSessionManager.pageAt (heap w) r.
Proof.
  intros Hwf Hr.
  destruct (isDir (scanOutputDir (settings w)) w) eqn:Hdir;
    [|now rewrite (loadSessions_no_dir w Hdir)].
  rewrite (loadSessions_eq w Hdir Hwf). cbn [snd].
  assert (Hold : DocumentSessionManager.pageAt (heap (afterLoad w)) r =
                 DocumentSessionManager.pageAt (heap w) r).
  { unfold afterLoad, DocumentSessionManager.pageAt. cbn [heap with_files with_heap].
    now rewrite app_nth1. }
  unfold afterRebuild.
  destruct (JS.sort _ _) as [|first rest] eqn:Es; [exact Hold|].
  cbn [heap with_sessions with_heap]. rewrite renumberHeap_other; [exact Hold|].
  rewrite <- Es. intros Hin. apply sort_In in Hin. apply in_seq in Hin. lia.
Qed.

(** A failed reorder does change the stored default session.  After a
    scan the session lists the scanned file twice, with the numbers 1 and
    2; a reorder that names an unknown page fails, and the session then
    lists the file once.  And when a second scan has arrived in the
    directory since the session was read, the failed reorder leaves two
    pages where one was stored. *)
Lemma reorderPages_failed_call_changes_the_default_session :
  (let w := snd (startPageScan Scenario.goodCapture) in
   (exists s, DocumentSessionManager.mapGet "default" (sessions w) = Some s /\
      List.map filepath (DocumentSessionManager.pagesOf w s) =
        [ "/tmp/scan-2026-11-03T06-21-00-123Z.pdf"; "/tmp/scan-2026-11-03T06-21-00-123Z.pdf" ] /\
      List.map pageNumber (DocumentSessionManager.pagesOf w s) = [1; 2]) /\
   let '(r, w') := DocumentSessionManager.reorderPages "default" ["zzz"] w in
   r = Return (DocumentSessionManager.failed "Page zzz not found") /\
   exists s', DocumentSessionManager.mapGet "default" (sessions w') = Some s' /\
     List.map filepath (DocumentSessionManager.pagesOf w' s') =
       [ "/tmp/scan-2026-11-03T06-21-00-123Z.pdf" ]) /\
  (let w := Scenario.secondScanArrived in
   (exists s, DocumentSessionManager.mapGet "default" (sessions w) = Some s /\
      List.map filepath (DocumentSessionManager.pagesOf w s) = [Scenario.scanPath]) /\
   let '(r, w') := DocumentSessionManager.reorderPages "default" ["zzz"] w in
   r = Return (DocumentSessionManager.failed "Page zzz not found") /\
   exists s', DocumentSessionManager.mapGet "default" (sessions w') = Some s' /\
     List.map filepath (DocumentSessionManager.pagesOf w' s') =
       [ "/tmp/scan-2026-11-03T06-20-51-123Z.pdf"; Scenario.scanPath ]).
Proof.
  vm_compute. split; (split; [eexists; repeat split; reflexivity|]);
    (split; [reflexivity|]); eexists; split; reflexivity.
Qed.

(** C7, as the code has it.  When the requested order holds an id that
    matches no page of the session as the call reads it, [reorderPages]
    returns the failure "Page ... not found" for the first such id and
    applies no reorder: the world it leaves is the one the read at its
    start produced, and the session is stored as it was read, with the
    same pages in the same order and no page object written.  A session
    other than the default one is therefore exactly as it was stored
    before the call, pages, order and page numbers; the default session is
    the one the read rebuilt from the directory. *)
Theorem reorderPages_unknown_id_applies_no_reorder :
  forall w sid pageIds session,
    fst (DocumentSessionManager.getSession sid w) = Return (Some session) ->
    (exists x, In x pageIds /\
       ~ In x (List.map id
                 (DocumentSessionManager.pagesOf
                    (snd (DocumentSessionManager.getSession sid w)) session))) ->
    let w1 := snd (DocumentSessionManager.getSession sid w) in
    let w' := snd (DocumentSessionManager.reorderPages sid pageIds w) in
    exists missing,
      In missing pageIds /\
      ~ In missing (List.map id (DocumentSessionManager.pagesOf w1 session)) /\
      DocumentSessionManager.reorderPages sid pageIds w =
        (Return (DocumentSessionManager.failed ("Page " ++ missing ++ " not found")), w1) /\
      DocumentSessionManager.mapGet sid (sessions w') = Some session /\
      DocumentSessionManager.pagesOf w' session = DocumentSessionManager.pagesOf w1 session /\
      (sid <> "default" ->
       DocumentSessionManager.mapGet sid (sessions w) = Some session /\
       (wellFormed (files w) -> validRefs w session ->
        DocumentSessionManager.pagesOf w' session = DocumentSessionManager.pagesOf w session)).
Proof.
  intros w sid pageIds session Hget Hunknown w1 w'. subst w1 w'.
  rewrite getSession_eq in *. cbn [fst snd] in *.
  injection Hget as Hget.
  pose proof (loadSessions_sameOtherSessions w) as Hother.
  set (w1 := snd (DocumentSessionManager.loadSessions w)) in *.
  unfold DocumentSessionManager.pagesOf in Hunknown. rewrite map_map in Hunknown.
  destruct (pagesById_unknown (heap w1) (pages session) pageIds Hunknown)
    as [missing [E [Hin Hno]]].
  exists missing.
  assert (Hre : DocumentSessionManager.reorderPages sid pageIds w =
    (Return (DocumentSessionManager.failed ("Page " ++ missing ++ " not found")), w1)).
  { unfold DocumentSessionManager.reorderPages, try_catch, bind at 1.
    rewrite getSession_eq. fold w1. rewrite Hget.
    unfold bind, gets. cbv beta iota. rewrite E. reflexivity. }
  rewrite Hre. cbn [snd].
  split; [exact Hin|].
  split; [unfold DocumentSessionManager.pagesOf; rewrite map_map; exact Hno|].
  split; [reflexivity|]. split; [exact Hget|]. split; [reflexivity|].
  intros Hsid. split.
  - rewrite <- (Hother sid Hsid). exact Hget.
  - intros Hwf Hvalid. unfold DocumentSessionManager.pagesOf.
    apply map_ext_in. intros r Hr. apply loadSessions_old_pages; [exact Hwf|].
    apply Hvalid. exact Hr.
Qed.

Lemma reorderPages_unknown_id_witness :
  (exists missing,
     In missing ["id1"; "zzz"; "id0"] /\
     DocumentSessionManager.reorderPages "default" ["id1"; "zzz"; "id0"] Scenario.twoScans =
       (Return (DocumentSessionManager.failed ("Page " ++ missing ++ " not found")),
        snd (DocumentSessionManager.getSession "default" Scenario.twoScans))) /\
  (exists session,
     DocumentSessionManager.mapGet "letters" (sessions Scenario.notesSession) = Some session /\
     fst (DocumentSessionManager.reorderPages "letters" ["zzz"] Scenario.notesSession) =
       Return (DocumentSessionManager.failed "Page zzz not found") /\
     DocumentSessionManager.mapGet "letters"
       (sessions (snd (DocumentSessionManager.reorderPages "letters" ["zzz"]
                         Scenario.notesSession))) = Some session /\
     DocumentSessionManager.pagesOf
       (snd (DocumentSessionManager.reorderPages "letters" ["zzz"] Scenario.notesSession))
       session =
     DocumentSessionManager.pagesOf Scenario.notesSession session).
Proof.
  split.
  - edestruct (reorderPages_unknown_id_applies_no_reorder Scenario.twoScans "default"
                 ["id1"; "zzz"; "id0"]) as [missing [Hin [_ [Hre _]]]].
    + vm_compute. reflexivity.
    + exists "zzz". split; [simpl; tauto|].
      vm_compute. intros [H|[H|[]]]; discriminate H.
    + exists missing. split; [exact Hin | exact Hre].
  - edestruct (reorderPages_unknown_id_applies_no_reorder Scenario.notesSession "letters"
                 ["zzz"]) as [missing [Hin [_ [Hre [Hstored [_ Hsame]]]]]].
    + vm_compute. reflexivity.
    + exists "zzz". split; [simpl; tauto|].
      vm_compute. intros [H|[]]; discriminate H.
    + destruct Hsame as [Hbefore Hpages]; [discriminate|].
      destruct Hin as [<-|[]].
      eexists. split; [exact Hbefore|]. split; [rewrite Hre; reflexivity|].
      split; [exact Hstored|]. apply Hpages.
      * apply distinct_NoDup. vm_compute. reflexivity.
      * intros r Hr. vm_compute in Hr. vm_compute. destruct Hr as [<-|[]]. lia.
Defined.

(** X5.  Looking up a session is not a pure read, but its effects are
    bounded: whatever the session id and the state, [getSession] and
    [getSessions] create and change no file, delete no file that has
    content, leave every session other than the default one as it is, and
    run no command. *)
Theorem getSession_effects_are_bounded :
  forall sid w,
    let w1 := snd (DocumentSessionManager.getSession sid w) in
    let w2 := snd (DocumentSessionManager.getSessions w) in
    (noNewFiles w w1 /\ keepsContent w w1 /\ sameOtherSessions w w1 /\
     execLog w1 = execLog w) /\
    (noNewFiles w w2 /\ keepsContent w w2 /\ sameOtherSessions w w2 /\
     execLog w2 = execLog w).
Proof.
  intros sid w. cbv zeta. rewrite getSession_eq, getSessions_eq. cbn [snd].
  pose proof (loadSessions_noNewFiles w). pose proof (loadSessions_keepsContent w).
  pose proof (loadSessions_sameOtherSessions w). pose proof (loadSessions_log w).
  repeat split; assumption.
Qed.

(* ===================================================================== *)
(** ** Operations on a session: what they report and what they change     *)
(* ===================================================================== *)

(** X6.  When no session is stored under an id, removing a page, reordering
    and clearing report 'Session not found', combining throws 'No pages to
    combine', and each leaves the world as the lookup of the session left
    it. *)
Theorem operations_on_an_unknown_session_fail_cleanly :
  forall sid w,
    fst (DocumentSessionManager.getSession sid w) = Return None ->
    let w1 := snd (DocumentSessionManager.getSession sid w) in
    (forall pageIdOrPath,
       DocumentSessionManager.removePageFromSession sid pageIdOrPath w =
       (Return (DocumentSessionManager.failed "Session not found"), w1)) /\
    (forall pageIds,
       DocumentSessionManager.reorderPages sid pageIds w =
       (Return (DocumentSessionManager.failed "Session not found"), w1)) /\
    DocumentSessionManager.clearSession sid w =
      (Return (DocumentSessionManager.mkClearResult
                 (DocumentSessionManager.failed "Session not found") 0), w1) /\
    DocumentSessionManager.combineSessionPages sid w = (Throw "No pages to combine", w1).
Proof.
  intros sid w Hget w1. subst w1. rewrite getSession_eq in *. cbn [fst snd] in *.
  injection Hget as Hget.
  repeat split; intros;
    unfold DocumentSessionManager.removePageFromSession, DocumentSessionManager.reorderPages,
      DocumentSessionManager.clearSession, DocumentSessionManager.combineSessionPages,
      try_catch, bind at 1;
    rewrite getSession_eq, Hget; reflexivity.
Qed.

Lemma operations_on_an_unknown_session_witness :
  let w := Scenario.oneScan in
  let w1 := snd (DocumentSessionManager.getSession "letters" w) in
  (forall pageIdOrPath,
     DocumentSessionManager.removePageFromSession "letters" pageIdOrPath w =
     (Return (DocumentSessionManager.failed "Session not found"), w1)) /\
  (forall pageIds,
     DocumentSessionManager.reorderPages "letters" pageIds w =
     (Return (DocumentSessionManager.failed "Session not found"), w1)) /\
  DocumentSessionManager.clearSession "letters" w =
    (Return (DocumentSessionManager.mkClearResult
               (DocumentSessionManager.failed "Session not found") 0), w1) /\
  DocumentSessionManager.combineSessionPages "letters" w = (Throw "No pages to combine", w1).
Proof.
  apply (operations_on_an_unknown_session_fail_cleanly "letters" Scenario.oneScan).
  vm_compute. reflexivity.
Defined.

(** X7.  Removing a page that the session does not list, neither by id nor
    by path, reports 'Page not found' and changes nothing: the world is the
    one the lookup of the session left. *)
Theorem removePageFromSession_unknown_page_changes_nothing :
  forall sid pageIdOrPath w s,
    fst (DocumentSessionManager.getSession sid w) = Return (Some s) ->
    (forall page,
       In page (DocumentSessionManager.pagesOf
                  (snd (DocumentSessionManager.getSession sid w)) s) ->
       id page <> pageIdOrPath /\ filepath page <> pageIdOrPath) ->
    DocumentSessionManager.removePageFromSession sid pageIdOrPath w =
      (Return (DocumentSessionManager.failed "Page not found"),
       snd (DocumentSessionManager.getSession sid w)).
Proof.
  intros sid x w s Hget Hno. rewrite getSession_eq in *. cbn [fst snd] in *.
  injection Hget as Hget.
  set (w1 := snd (DocumentSessionManager.loadSessions w)) in *.
  unfold DocumentSessionManager.removePageFromSession, try_catch, bind at 1.
  rewrite getSession_eq. fold w1. rewrite Hget.
  unfold bind at 1, gets at 1. cbv beta iota zeta.
  rewrite !findIndex_None; [reflexivity | |];
    intros r Hr; apply String.eqb_neq;
    apply (Hno (DocumentSessionManager.pageAt (heap w1) r));
    unfold DocumentSessionManager.pagesOf; apply in_map; exact Hr.
Qed.

Lemma removePageFromSession_unknown_page_witness :
  exists s,
    fst (DocumentSessionManager.getSession "default" Scenario.twoScans) = Return (Some s) /\
    DocumentSessionManager.removePageFromSession "default" "/tmp/notes.txt" Scenario.twoScans =
      (Return (DocumentSessionManager.failed "Page not found"),
       snd (DocumentSessionManager.getSession "default" Scenario.twoScans)).
Proof.
  eexists. split; [vm_compute; reflexivity|].
  eapply (removePageFromSession_unknown_page_changes_nothing "default" "/tmp/notes.txt"
            Scenario.twoScans).
  - vm_compute. reflexivity.
  - vm_compute. intros page [<-|[<-|[]]]; split; discriminate.
Defined.

Lemma findIndex_nth {A} (pred : A -> bool) l i :
  DocumentSessionManager.findIndex pred l = Some i ->
  exists x, nth_error l i = Some x /\ pred x = true.
Proof.
  revert i. induction l as [|a l IH]; intros i; simpl; [discriminate|].
  destruct (pred a) eqn:Ea.
  - intros [= <-]. exists a. split; [reflexivity | exact Ea].
  - destruct (DocumentSessionManager.findIndex pred l) as [j|]; [|discriminate].
    intros [= <-]. exact (IH j eq_refl).
Qed.

(** X8.  A successful removal takes one page out of the session, the one
    found by id or else by path, keeps the others in their order, and the
    file of the removed page is gone afterwards; no command is run. *)
Theorem removePageFromSession_removes_the_page_and_its_file :
  forall sid pageIdOrPath w w',
    DocumentSessionManager.removePageFromSession sid pageIdOrPath w =
      (Return DocumentSessionManager.ok, w') ->
    exists s i r s',
      fst (DocumentSessionManager.getSession sid w) = Return (Some s) /\
      nth_error (pages s) i = Some r /\
      (let page := DocumentSessionManager.pageAt
                     (heap (snd (DocumentSessionManager.getSession sid w))) r in
       (id page = pageIdOrPath \/ filepath page = pageIdOrPath) /\
       lookupFile (filepath page) (files w') = None) /\
      DocumentSessionManager.mapGet sid (sessions w') = Some s' /\
      pages s' = DocumentSessionManager.splice1 i (pages s) /\
      execLog w' = execLog w.
Proof.
  intros sid x w w' Hrun.
  rewrite getSession_eq. cbn [fst snd].
  pose proof (loadSessions_log w) as Hlog. unfold sameLog in Hlog.
  set (w1 := snd (DocumentSessionManager.loadSessions w)) in *.
  unfold DocumentSessionManager.removePageFromSession, try_catch, bind at 1 in Hrun.
  rewrite getSession_eq in Hrun. fold w1 in Hrun.
  destruct (DocumentSessionManager.mapGet sid (sessions w1)) as [s|] eqn:Hget;
    [|discriminate Hrun].
  unfold bind at 1, gets at 1 in Hrun. cbv beta iota zeta in Hrun.
  match type of Hrun with
  | context [match ?pi with Some _ => _ | None => ret (DocumentSessionManager.failed _) end] =>
      destruct pi as [i|] eqn:Ei; [|discriminate Hrun]
  end.
  destruct (nth_error (pages s) i) as [r|] eqn:Er; [|discriminate Hrun].
  assert (Hmatch : id (DocumentSessionManager.pageAt (heap w1) r) = x \/
                   filepath (DocumentSessionManager.pageAt (heap w1) r) = x).
  { destruct (DocumentSessionManager.findIndex
                (fun r => String.eqb (id (DocumentSessionManager.pageAt (heap w1) r)) x)
                (pages s)) as [j|] eqn:Ej.
    - injection Ei as ->. destruct (findIndex_nth _ _ _ Ej) as [y [Hy Hp]].
      rewrite Er in Hy. injection Hy as <-. left. now apply String.eqb_eq.
    - destruct (findIndex_nth _ _ _ Ei) as [y [Hy Hp]].
      rewrite Er in Hy. injection Hy as <-. right. now apply String.eqb_eq. }
  set (page := DocumentSessionManager.pageAt (heap w1) r) in *.
  unfold bind at 1, existsSync, gets at 1 in Hrun. cbv beta iota in Hrun.
  unfold bind at 1 in Hrun.
  assert (Hgone : forall w2 o,
            (if match lookupFile (filepath page) (files w1) with
                | Some _ => true
                | None => isDir (filepath page) w1
                end
             then unlinkSync (filepath page) else ret tt) w1 = (Return o, w2) ->
            lookupFile (filepath page) (files w2) = None /\ execLog w2 = execLog w1 /\
            heap w2 = heap w1 /\ sessions w2 = sessions w1).
  { intros w2 []. unfold unlinkSync, bind, gets, modify, ret, throw.
    destruct (lookupFile (filepath page) (files w1)) eqn:El.
    - rewrite El. intros [= <-]. cbn [files with_files].
      rewrite lookupFile_remove_same. auto.
    - destruct (isDir (filepath page) w1) eqn:Ed.
      + rewrite El. cbv beta iota. rewrite Ed. discriminate.
      + intros [= <-]. auto. }
  match type of Hrun with
  | context [(if ?b then unlinkSync ?p else ret tt) w1] =>
      destruct ((if b then unlinkSync p else ret tt) w1) as [[[]|e] w2] eqn:Eu
  end; [|discriminate Hrun].
  destruct (Hgone w2 tt eq_refl) as [Hnone [Hlog2 [Hheap Hsess]]].
  unfold bind at 1, DocumentSessionManager.renumber in Hrun.
  rewrite renumberFrom_eq in Hrun.
  unfold bind, now, gets, DocumentSessionManager.setSession, modify, ret in Hrun.
  injection Hrun as <-.
  exists s, i, r. eexists. split; [reflexivity|]. split; [exact Er|].
  split; [split; [exact Hmatch | exact Hnone]|].
  split; [apply mapGet_mapSet_same|]. split; [reflexivity|].
  cbn. congruence.
Qed.

Lemma removePageFromSession_removes_witness :
  exists s i r s',
    fst (DocumentSessionManager.getSession "default" Scenario.twoScans) = Return (Some s) /\
    nth_error (pages s) i = Some r /\
    (let page := DocumentSessionManager.pageAt
                   (heap (snd (DocumentSessionManager.getSession "default" Scenario.twoScans))) r in
     (id page = Scenario.scanPath \/ filepath page = Scenario.scanPath) /\
     lookupFile (filepath page)
       (files (snd (DocumentSessionManager.removePageFromSession "default" Scenario.scanPath
                      Scenario.twoScans))) = None) /\
    DocumentSessionManager.mapGet "default"
      (sessions (snd (DocumentSessionManager.removePageFromSession "default" Scenario.scanPath
                        Scenario.twoScans))) = Some s' /\
    pages s' = DocumentSessionManager.splice1 i (pages s) /\
    execLog (snd (DocumentSessionManager.removePageFromSession "default" Scenario.scanPath
                    Scenario.twoScans)) = execLog Scenario.twoScans.
Proof.
  apply (removePageFromSession_removes_the_page_and_its_file "default" Scenario.scanPath
           Scenario.twoScans).
  vm_compute. reflexivity.
Defined.

(** X9.  Adding a path at which there is nothing reports 'Page file not
    found' and changes nothing beyond the lookup of the session; a session
    that did not exist is not created. *)
Theorem addPageToSession_missing_file_changes_nothing :
  forall sid pageFilepath w,
    lookupFile pageFilepath
      (files (snd (DocumentSessionManager.getSession sid w))) = None ->
    isDir pageFilepath (snd (DocumentSessionManager.getSession sid w)) = false ->
    DocumentSessionManager.addPageToSession sid pageFilepath w =
      (Return (DocumentSessionManager.failed "Page file not found"),
       snd (DocumentSessionManager.getSession sid w)).
Proof.
  intros sid p w. rewrite getSession_eq. cbn [snd]. intros Hnone Hdir.
  unfold DocumentSessionManager.addPageToSession, try_catch, bind at 1.
  rewrite getSession_eq. unfold bind at 1, now, gets at 1. cbv beta iota zeta.
  unfold bind at 1, existsSync, gets at 1. rewrite Hnone, Hdir. reflexivity.
Qed.

Lemma addPageToSession_missing_file_witness :
  DocumentSessionManager.addPageToSession "letters" "/tmp/letter.pdf" Scenario.oneScan =
    (Return (DocumentSessionManager.failed "Page file not found"),
     snd (DocumentSessionManager.getSession "letters" Scenario.oneScan)) /\
  DocumentSessionManager.mapGet "letters"
    (sessions (snd (DocumentSessionManager.getSession "letters" Scenario.oneScan))) = None.
Proof.
  split; [|vm_compute; reflexivity].
  apply (addPageToSession_missing_file_changes_nothing "letters" "/tmp/letter.pdf"
           Scenario.oneScan); vm_compute; reflexivity.
Defined.

(** X10.  Adding a zero-byte file reports 'Page file is empty' and deletes
    the file; sessions and page objects stay as the lookup of the session
    left them. *)
Theorem addPageToSession_empty_file_is_deleted :
  forall sid pageFilepath w f,
    lookupFile pageFilepath
      (files (snd (DocumentSessionManager.getSession sid w))) = Some f ->
    fileSize f = 0 ->
    exists w',
      DocumentSessionManager.addPageToSession sid pageFilepath w =
        (Return (DocumentSessionManager.failed "Page file is empty"), w') /\
      lookupFile pageFilepath (files w') = None /\
      (forall q, q <> pageFilepath ->
         lookupFile q (files w') =
         lookupFile q (files (snd (DocumentSessionManager.getSession sid w)))) /\
      sameStore (snd (DocumentSessionManager.getSession sid w)) w'.
Proof.
  intros sid p w f. rewrite getSession_eq. cbn [snd]. intros Hf Hz.
  set (w1 := snd (DocumentSessionManager.loadSessions w)) in *.
  exists (with_files (removeFile p (files w1)) w1). split; [|split; [|split]].
  - unfold DocumentSessionManager.addPageToSession, try_catch, bind at 1.
    rewrite getSession_eq. fold w1. unfold bind at 1, now, gets at 1. cbv beta iota zeta.
    unfold bind at 1, existsSync, gets at 1. rewrite Hf. cbn [negb].
    unfold bind at 1, statSync, bind, gets. rewrite Hf. cbv beta iota.
    unfold ret at 1. rewrite Hz. cbn [Z.eqb].
    unfold DocumentSessionManager.tryUnlink, try_catch, unlinkSync, bind, gets, modify.
    rewrite Hf. reflexivity.
  - cbn [files with_files]. apply lookupFile_remove_same.
  - intros q Hq. cbn [files with_files]. apply lookupFile_remove_other. exact Hq.
  - split; reflexivity.
Qed.

Lemma addPageToSession_empty_file_witness :
  exists w',
    DocumentSessionManager.addPageToSession "default" "/tmp/letter.pdf" Scenario.emptyLetter =
      (Return (DocumentSessionManager.failed "Page file is empty"), w') /\
    lookupFile "/tmp/letter.pdf" (files w') = None /\
    (forall q, q <> "/tmp/letter.pdf" ->
       lookupFile q (files w') =
       lookupFile q
         (files (snd (DocumentSessionManager.getSession "default" Scenario.emptyLetter)))) /\
    sameStore (snd (DocumentSessionManager.getSession "default" Scenario.emptyLetter)) w'.
Proof.
  apply (addPageToSession_empty_file_is_deleted "default" "/tmp/letter.pdf"
           Scenario.emptyLetter (mkFile 0 (Scenario.t0 - 7000) None));
    vm_compute; reflexivity.
Defined.

(** What a successful addition does. *)
Lemma addPageToSession_eq sid pageFilepath w f :
  lookupFile pageFilepath (files (snd (DocumentSessionManager.loadSessions w))) = Some f ->
  fileSize f <> 0 ->
  DocumentSessionManager.addPageToSession sid pageFilepath w =
    (Return DocumentSessionManager.ok,
     afterAdd sid pageFilepath f (snd (DocumentSessionManager.loadSessions w))).
Proof.
  intros Hf Hnz.
  set (w1 := snd (DocumentSessionManager.loadSessions w)) in *.
  unfold DocumentSessionManager.addPageToSession, try_catch, bind at 1.
  rewrite getSession_eq. fold w1. unfold bind at 1, now, gets at 1. cbv beta iota zeta.
  fold (sessionOrNew sid w1).
  unfold bind at 1, existsSync, gets at 1. rewrite Hf. cbn [negb].
  unfold bind at 1, statSync, bind, gets. rewrite Hf. cbv beta iota.
  unfold ret at 1. apply Z.eqb_neq in Hnz. rewrite Hnz.
  unfold DocumentSessionManager.generateId, DocumentSessionManager.alloc,
    DocumentSessionManager.setSession, modify, ret. reflexivity.
Qed.

(** X11.  Adding a file that has content succeeds.  The file becomes the
    last page of the session, after the pages it had; the page carries the
    name, path, size and modification time of the file and its position as
    page number.  A session that did not exist is created, and no file is
    touched. *)
Theorem addPageToSession_appends_the_file :
  forall sid pageFilepath w f,
    lookupFile pageFilepath
      (files (snd (DocumentSessionManager.getSession sid w))) = Some f ->
    fileSize f <> 0 ->
    let w1 := snd (DocumentSessionManager.getSession sid w) in
    let before :=
      match DocumentSessionManager.mapGet sid (sessions w1) with
      | Some s => pages s
      | None => []
      end in
    exists w' s' r,
      DocumentSessionManager.addPageToSession sid pageFilepath w =
        (Return DocumentSessionManager.ok, w') /\
      DocumentSessionManager.mapGet sid (sessions w') = Some s' /\
      pages s' = (before ++ [r])%list /\
      DocumentSessionManager.pageAt (heap w') r =
        mkPageInfo (idOracle w1 (idCalls w1)) (DocumentSessionManager.basename pageFilepath)
          pageFilepath (fileMtime f) (fileSize f) (Z.of_nat (length (pages s'))) /\
      (forall r', (r' < length (heap w1))%nat ->
         DocumentSessionManager.pageAt (heap w') r' =
         DocumentSessionManager.pageAt (heap w1) r') /\
      files w' = files w1.
Proof.
  intros sid p w f. rewrite getSession_eq. cbn [snd]. intros Hf Hnz.
  set (w1 := snd (DocumentSessionManager.loadSessions w)) in *. cbv zeta.
  assert (Hbefore : match DocumentSessionManager.mapGet sid (sessions w1) with
                    | Some s => pages s
                    | None => []
                    end = pages (sessionOrNew sid w1)).
  { unfold sessionOrNew. destruct (DocumentSessionManager.mapGet sid (sessions w1)); reflexivity. }
  rewrite Hbefore, (addPageToSession_eq sid p w f Hf Hnz). fold w1.
  eexists. eexists. exists (length (heap w1)).
  split; [reflexivity|]. unfold afterAdd.
  split; [cbn [sessions with_sessions]; apply mapGet_mapSet_same|].
  split; [reflexivity|].
  cbn [heap with_sessions with_heap with_idCalls pages DocumentSessionManager.withPages].
  split; [|split; [|reflexivity]].
  - unfold DocumentSessionManager.pageAt. rewrite app_nth2 by lia.
    rewrite Nat.sub_diag. cbn [nth]. f_equal. rewrite length_app. cbn [length]. lia.
  - intros r' Hr'. unfold DocumentSessionManager.pageAt. now rewrite app_nth1.
Qed.

Lemma addPageToSession_appends_witness :
  let w1 := snd (DocumentSessionManager.getSession "letters" Scenario.oneScan) in
  let before :=
    match DocumentSessionManager.mapGet "letters" (sessions w1) with
    | Some s => pages s
    | None => []
    end in
  exists w' s' r,
    DocumentSessionManager.addPageToSession "letters" Scenario.scanPath Scenario.oneScan =
      (Return DocumentSessionManager.ok, w') /\
    DocumentSessionManager.mapGet "letters" (sessions w') = Some s' /\
    pages s' = (before ++ [r])%list /\
    DocumentSessionManager.pageAt (heap w') r =
      mkPageInfo (idOracle w1 (idCalls w1)) (DocumentSessionManager.basename Scenario.scanPath)
        Scenario.scanPath (fileMtime Scenario.pageA) (fileSize Scenario.pageA)
        (Z.of_nat (length (pages s'))) /\
    (forall r', (r' < length (heap w1))%nat ->
       DocumentSessionManager.pageAt (heap w') r' =
       DocumentSessionManager.pageAt (heap w1) r') /\
    files w' = files w1.
Proof.
  apply (addPageToSession_appends_the_file "letters" Scenario.scanPath Scenario.oneScan
           Scenario.pageA); [vm_compute; reflexivity | vm_compute; discriminate].
Defined.

(* ===================================================================== *)
(** ** Combining a session                                                *)
(* ===================================================================== *)

Lemma sameSettings_refl w : sameSettings w w.
Proof. reflexivity. Qed.
Lemma sameSettings_trans a b c : sameSettings a b -> sameSettings b c -> sameSettings a c.
Proof. unfold sameSettings. congruence. Qed.

Lemma renumberFrom_settings l : forall k,
  preserves sameSettings (DocumentSessionManager.renumberFrom k l).
Proof.
  induction l as [|r l IH]; intros k; simpl;
    repeat frame_step sameSettings_refl sameSettings_trans;
    [intros w; reflexivity | apply IH].
Qed.

Lemma loadSessions_settings : preserves sameSettings DocumentSessionManager.loadSessions.
Proof.
  unfold DocumentSessionManager.loadSessions, DocumentSessionManager.loadFile,
    DocumentSessionManager.tryUnlink, DocumentSessionManager.renumber, existsSync, statSync,
    readdirSync, unlinkSync.
  repeat frame_step sameSettings_refl sameSettings_trans;
    first [ apply renumberFrom_settings | intros w; reflexivity ].
Qed.

(** X12.  Only PDF and TIFF sessions can be combined: with any other output
    format (png and jpeg pass the validation of the settings), combining a
    session that has pages throws, naming the format in upper case, and
    does nothing else. *)
Theorem combineSessionPages_refuses_other_formats :
  forall sid w s,
    fst (DocumentSessionManager.getSession sid w) = Return (Some s) ->
    pages s <> [] ->
    let format := ScannerManager.orElse (outputFormat (settings w)) "pdf" in
    format <> "tiff" -> format <> "pdf" ->
    DocumentSessionManager.combineSessionPages sid w =
      (Throw ("Combining is not supported for " ++ JS.toUpperCase format ++ " format"),
       snd (DocumentSessionManager.getSession sid w)).
Proof.
  intros sid w s Hget Hpages format Htiff Hpdf. subst format.
  rewrite getSession_eq in *. cbn [fst snd] in *. injection Hget as Hget.
  pose proof (loadSessions_settings w) as Hst. unfold sameSettings in Hst.
  unfold DocumentSessionManager.combineSessionPages, bind at 1.
  rewrite getSession_eq, Hget.
  destruct (pages s) as [|r l] eqn:Ep; [contradiction|]. cbn [length Nat.eqb].
  unfold bind, gets. rewrite Hst.
  apply String.eqb_neq in Htiff, Hpdf. rewrite Htiff, Hpdf. reflexivity.
Qed.

Lemma combineSessionPages_refuses_witness :
  let w := Scenario.withFormat "png" Scenario.oneScan in
  DocumentSessionManager.combineSessionPages "default" w =
    (Throw "Combining is not supported for PNG format",
     snd (DocumentSessionManager.getSession "default" w)).
Proof.
  eapply (combineSessionPages_refuses_other_formats "default"
            (Scenario.withFormat "png" Scenario.oneScan));
    [vm_compute; reflexivity | vm_compute; discriminate
    | vm_compute; discriminate | vm_compute; discriminate].
Defined.

Lemma appendPdfPages_eq l : forall acc w r w',
  DocumentSessionManager.appendPdfPages l acc w = (Return r, w') ->
  w' = w /\ r = (acc ++ documentOf (files w) l)%list.
Proof.
  induction l as [|page rest IH]; intros acc w r w'.
  - intros [= <- <-]. now rewrite app_nil_r.
  - cbn [DocumentSessionManager.appendPdfPages documentOf].
    unfold bind at 1, existsSync, gets at 1.
    destruct (lookupFile (filepath page) (files w)) as [f|] eqn:Ef.
    + cbn [negb]. unfold bind at 1, readFileSync, bind, gets. rewrite Ef. cbv beta iota.
      unfold ret at 1. destruct (filePdf f) as [content|]; [|discriminate].
      intros H. destruct (IH _ _ _ _ H) as [-> ->]. now rewrite app_assoc.
    + destruct (isDir (filepath page) w) eqn:Ed; cbn [negb].
      * unfold bind at 1, readFileSync, bind, gets. rewrite Ef. cbv beta iota.
        rewrite Ed. discriminate.
      * apply IH.
Qed.

(** X13.  When a PDF session is combined, the document written holds the
    content pages of the page files that exist, in the order of the
    session, and when there is no such page, the one blank page that
    saving an empty document adds; it is written to
    [combined-<id>-<timestamp>.pdf] in the output directory, no other file
    is touched and no command is run. *)
Theorem combineSessionPages_pdf_concatenates_the_pages :
  forall sid w path w',
    ScannerManager.orElse (outputFormat (settings w)) "pdf" = "pdf" ->
    DocumentSessionManager.combineSessionPages sid w = (Return path, w') ->
    let w1 := snd (DocumentSessionManager.getSession sid w) in
    exists s,
      fst (DocumentSessionManager.getSession sid w) = Return (Some s) /\
      let document := documentOf (files w1) (DocumentSessionManager.pagesOf w1 s) in
      path = path_join (scanOutputDir (settings w))
               ("combined-" ++ sid ++ "-" ++ JS.dashColonsDots (JS.toISOString (clock w1))
                ++ ".pdf") /\
      lookupFile path (files w') =
        Some (mkFile (pdfSize w1 (savedPdf document)) (clock w1)
                (Some (savedPdf document))) /\
      (document <> [] -> savedPdf document = document) /\
      (document = [] -> savedPdf document = [blankPage]) /\
      (forall q, q <> path -> lookupFile q (files w') = lookupFile q (files w1)) /\
      execLog w' = execLog w.
Proof.
  intros sid w path w' Hfmt Hrun. cbv zeta.
  rewrite getSession_eq. cbn [fst snd].
  pose proof (loadSessions_settings w) as Hst. unfold sameSettings in Hst.
  pose proof (loadSessions_log w) as Hlog. unfold sameLog in Hlog.
  set (w1 := snd (DocumentSessionManager.loadSessions w)) in *.
  unfold DocumentSessionManager.combineSessionPages, bind at 1 in Hrun.
  rewrite getSession_eq in Hrun. fold w1 in Hrun.
  destruct (DocumentSessionManager.mapGet sid (sessions w1)) as [s|]; [|discriminate Hrun].
  exists s. split; [reflexivity|].
  destruct (length (pages s) =? 0)%nat; [discriminate Hrun|].
  unfold bind at 1, gets at 1 in Hrun. rewrite Hst, Hfmt in Hrun.
  cbn [String.eqb Ascii.eqb Bool.eqb] in Hrun.
  unfold DocumentSessionManager.combinePdfPages, try_catch, bind at 1, gets at 1 in Hrun.
  unfold bind at 1 in Hrun.
  destruct (DocumentSessionManager.appendPdfPages _ [] w1) as [[doc|e] w2] eqn:Ea;
    [|discriminate Hrun].
  destruct (appendPdfPages_eq _ _ _ _ _ Ea) as [-> ->]. cbn [app] in Hrun.
  unfold bind, DocumentSessionManager.outputTimestamp, bind, now, gets, ret, writePdfSync,
    modify in Hrun.
  pose proof (f_equal snd Hrun) as Hw'. cbn [snd] in Hw'. subst w'.
  apply (f_equal (fun r => match fst r with Return a => a | Throw _ => path end)) in Hrun.
  cbn [fst] in Hrun. subst path.
  split; [reflexivity|]. cbn [files with_files execLog].
  split; [apply lookupFile_write_same|].
  split; [destruct (documentOf _ _); [contradiction | reflexivity]|].
  split; [intros ->; reflexivity|].
  split; [|exact Hlog].
  intros q Hq. apply lookupFile_write_other. exact Hq.
Qed.

Lemma combineSessionPages_pdf_witness :
  let w := Scenario.twoScans in
  let w1 := snd (DocumentSessionManager.getSession "default" w) in
  exists s,
    fst (DocumentSessionManager.getSession "default" w) = Return (Some s) /\
    let document := documentOf (files w1) (DocumentSessionManager.pagesOf w1 s) in
    "/tmp/combined-default-2026-11-03T06-21-00-123Z.pdf" =
      path_join (scanOutputDir (settings w))
        ("combined-" ++ "default" ++ "-" ++ JS.dashColonsDots (JS.toISOString (clock w1))
         ++ ".pdf") /\
    lookupFile "/tmp/combined-default-2026-11-03T06-21-00-123Z.pdf"
      (files (snd (DocumentSessionManager.combineSessionPages "default" w))) =
      Some (mkFile (pdfSize w1 (savedPdf document)) (clock w1)
              (Some (savedPdf document))) /\
    (document <> [] -> savedPdf document = document) /\
    (document = [] -> savedPdf document = [blankPage]) /\
    (forall q, q <> "/tmp/combined-default-2026-11-03T06-21-00-123Z.pdf" ->
       lookupFile q (files (snd (DocumentSessionManager.combineSessionPages "default" w))) =
       lookupFile q (files w1)) /\
    execLog (snd (DocumentSessionManager.combineSessionPages "default" w)) = execLog w.
Proof.
  apply (combineSessionPages_pdf_concatenates_the_pages "default" Scenario.twoScans
           "/tmp/combined-default-2026-11-03T06-21-00-123Z.pdf"
           (snd (DocumentSessionManager.combineSessionPages "default" Scenario.twoScans)));
    vm_compute; reflexivity.
Defined.

(** A session whose one page file is gone is combined into a document of
    one blank page. *)
Example combineSessionPages_pdf_without_a_page_file :
  exists f,
    lookupFile "/tmp/combined-letters-2026-11-03T06-21-00-123Z.pdf"
      (files (snd (DocumentSessionManager.combineSessionPages "letters"
                     Scenario.orphanedSession)))
      = Some f /\
    filePdf f = Some [blankPage].
Proof. vm_compute. eexists. split; reflexivity. Qed.

(** The older scan comes first in the combined document. *)
Example combineSessionPages_pdf_orders_by_session :
  exists f,
    lookupFile "/tmp/combined-default-2026-11-03T06-21-00-123Z.pdf"
      (files (snd (DocumentSessionManager.combineSessionPages "default" Scenario.twoScans)))
      = Some f /\
    filePdf f = Some [2%nat; 1%nat].
Proof. vm_compute. eexists. split; reflexivity. Qed.

(* ===================================================================== *)
(** ** Clearing sessions                                                  *)
(* ===================================================================== *)

Lemma lookupFile_remove_None p q fs :
  lookupFile p fs = None -> lookupFile p (removeFile q fs) = None.
Proof.
  intros H. destruct (String.eqb_spec p q) as [->|Hne].
  - apply lookupFile_remove_same.
  - now rewrite lookupFile_remove_other.
Qed.

(** One round of the loop of [clearSession]. *)
Lemma deletePage_eq p n w :
  exists n1 w1,
    try_catch
      (present <- existsSync p ;;
       if present then unlinkSync p ;; ret (n + 1) else ret n)
      (fun _ => ret n) w = (Return n1, w1) /\
    n <= n1 <= n + 1 /\
    lookupFile p (files w1) = None /\
    (forall q, lookupFile q (files w) = None -> lookupFile q (files w1) = None) /\
    noNewFiles w w1 /\ sameStore w w1 /\ execLog w1 = execLog w /\ clock w1 = clock w.
Proof.
  unfold try_catch, bind at 1, existsSync, gets at 1.
  destruct (lookupFile p (files w)) as [f|] eqn:Ef.
  - exists (n + 1), (with_files (removeFile p (files w)) w).
    unfold bind, unlinkSync, bind, gets, modify, ret. rewrite Ef.
    cbn [files with_files execLog clock].
    repeat split; try lia.
    + apply lookupFile_remove_same.
    + intros q Hq. now apply lookupFile_remove_None.
    + intros q g. apply lookupFile_remove_Some.
  - exists n, w.
    destruct (isDir p w) eqn:Ed.
    + unfold bind, unlinkSync, bind, gets, modify, ret, throw. rewrite Ef.
      cbv beta iota. rewrite Ed.
      repeat split; try lia; try tauto; apply noNewFiles_refl.
    + unfold ret. repeat split; try lia; try tauto; apply noNewFiles_refl.
Qed.

(** The loop of [clearSession] always runs to its end; every path it was
    given names no file afterwards. *)
Lemma deletePages_eq l : forall n w,
  exists n' w',
    DocumentSessionManager.deletePages l n w = (Return n', w') /\
    n <= n' <= n + Z.of_nat (length l) /\
    (forall page, In page l -> lookupFile (filepath page) (files w') = None) /\
    (forall q, lookupFile q (files w) = None -> lookupFile q (files w') = None) /\
    noNewFiles w w' /\
    sameStore w w' /\ execLog w' = execLog w /\ clock w' = clock w.
Proof.
  induction l as [|page rest IH]; intros n w.
  - exists n, w. cbn [length]. repeat split; try lia; try tauto;
      [intros page [] | apply noNewFiles_refl].
  - cbn [DocumentSessionManager.deletePages]. unfold bind at 1.
    destruct (deletePage_eq (filepath page) n w)
      as [n1 [w1 [-> [Hn1 [Hgone [Hmono [Hnnf [Hstore [Hlog Hclock]]]]]]]]].
    destruct (IH n1 w1) as [n' [w' [-> [Hn' [Hrest [Hmono' [Hnnf' [Hstore' [Hlog' Hclock']]]]]]]]].
    exists n', w'. cbn [length].
    split; [reflexivity|]. split; [lia|].
    split; [intros p [<-|Hp]; [apply Hmono', Hgone | apply Hrest, Hp]|].
    split; [intros q Hq; apply Hmono', Hmono, Hq|].
    split; [exact (noNewFiles_trans _ _ _ Hnnf Hnnf')|].
    split; [exact (sameStore_trans _ _ _ Hstore Hstore')|].
    split; congruence.
Qed.



Lemma getSession_noNewFiles sid : preserves noNewFiles (DocumentSessionManager.getSession sid).
Proof.
  intros w. rewrite getSession_eq. apply loadSessions_noNewFiles.
Qed.

Lemma getSession_log sid : preserves sameLog (DocumentSessionManager.getSession sid).
Proof.
  intros w. rewrite getSession_eq. apply loadSessions_log.
Qed.

(** [clearSession] never throws, whatever the session id. *)
Lemma clearSession_returns sid w :
  exists r w',
    DocumentSessionManager.clearSession sid w = (Return r, w') /\
    0 <= DocumentSessionManager.deletedCount r /\
    noNewFiles w w' /\ execLog w' = execLog w.
Proof.
  pose proof (loadSessions_noNewFiles w) as Hnnf.
  pose proof (loadSessions_log w) as Hlog. unfold sameLog in Hlog.
  unfold DocumentSessionManager.clearSession, try_catch, bind at 1.
  rewrite getSession_eq.
  set (w1 := snd (DocumentSessionManager.loadSessions w)) in *.
  destruct (DocumentSessionManager.mapGet sid (sessions w1)) as [s|].
  - destruct (deletePages_eq (DocumentSessionManager.pagesOf w1 s) 0 w1)
      as [n [w2 [Hdel [Hn [_ [_ [Hnnf2 [_ [Hlog2 _]]]]]]]]].
    unfold bind at 1, gets at 1. unfold bind at 1. rewrite Hdel.
    unfold bind, now, gets, DocumentSessionManager.setSession, modify, ret.
    eexists. eexists. split; [reflexivity|].
    cbn [DocumentSessionManager.deletedCount files execLog with_sessions].
    split; [lia|]. split; [|congruence].
    exact (noNewFiles_trans _ _ _ Hnnf Hnnf2).
  - eexists. eexists. split; [reflexivity|]. cbn [DocumentSessionManager.deletedCount].
    split; [lia|]. split; assumption.
Qed.

(** X15.  [clearAllSessions] always succeeds: it never throws, leaves the
    store without any session, reports a count that is not negative,
    creates no file and runs no command. *)
Theorem clearAllSessions_empties_the_store :
  forall w,
    exists n w',
      DocumentSessionManager.clearAllSessions w =
        (Return (DocumentSessionManager.mkClearResult DocumentSessionManager.ok n), w') /\
      sessions w' = [] /\ 0 <= n /\ noNewFiles w w' /\ execLog w' = execLog w.
Proof.
  intros w. unfold DocumentSessionManager.clearAllSessions, bind at 1, gets at 1.
  unfold bind at 1.
  match goal with
  | |- context [?f (List.map fst (sessions w)) 0 w] => set (loop := f)
  end.
  assert (Hloop : forall l total w0, 0 <= total ->
            exists n w', loop l total w0 = (Return n, w') /\ 0 <= n /\
                         noNewFiles w0 w' /\ execLog w' = execLog w0).
  { induction l as [|sid rest IH]; intros total w0 Htotal.
    - exists total, w0. split; [reflexivity|]. split; [exact Htotal|].
      split; [apply noNewFiles_refl | reflexivity].
    - cbn [loop]. unfold bind at 1.
      destruct (clearSession_returns sid w0) as [r [w1 [-> [Hr [Hnnf Hlog]]]]].
      fold loop.
      destruct (IH (if DocumentSessionManager.success (DocumentSessionManager.cleared r)
                    then total + DocumentSessionManager.deletedCount r else total) w1)
        as [n [w2 [-> [Hn [Hnnf2 Hlog2]]]]].
      { destruct (DocumentSessionManager.success _); lia. }
      exists n, w2. split; [reflexivity|]. split; [exact Hn|].
      split; [exact (noNewFiles_trans _ _ _ Hnnf Hnnf2) | congruence]. }
  destruct (Hloop (List.map fst (sessions w)) 0 w) as [n [w' [-> [Hn [Hnnf Hlog]]]]]; [lia|].
  exists n. eexists. split; [reflexivity|].
  cbn [sessions files execLog with_sessions]. auto.
Qed.

(** X16.  A session made by [createSession] is stored under a new id with
    no pages, and [getSession] with that id returns it; the other sessions
    and the files stay as they are.  (The id generator is taken not to
    produce the word 'default'.) *)
Theorem createSession_then_getSession :
  forall toLocaleString given w,
    idOracle w (idCalls w) <> "default" ->
    exists s w1,
      DocumentSessionManager.createSession toLocaleString given w = (Return s, w1) /\
      sessionId s = idOracle w (idCalls w) /\
      pages s = [] /\ created s = clock w /\ modified s = clock w /\
      (forall n, given = Some n -> n <> EmptyString -> name s = n) /\
      (given = None -> name s = "Document " ++ toLocaleString (clock w)) /\
      files w1 = files w /\
      (forall sid, sid <> sessionId s ->
         DocumentSessionManager.mapGet sid (sessions w1) =
         DocumentSessionManager.mapGet sid (sessions w)) /\
      fst (DocumentSessionManager.getSession (sessionId s) w1) = Return (Some s).
Proof.
  intros loc nm w Hid.
  unfold DocumentSessionManager.createSession, bind, DocumentSessionManager.generateId,
    now, gets, DocumentSessionManager.setSession, modify, ret.
  eexists. eexists. split; [reflexivity|]. cbn [sessionId pages created modified name
    files sessions clock with_idCalls with_sessions].
  repeat split.
  - intros n -> Hn. destruct n; [contradiction | reflexivity].
  - intros ->. reflexivity.
  - intros sid Hsid. apply mapGet_mapSet_other. exact Hsid.
  - rewrite getSession_eq. cbn [fst]. f_equal.
    rewrite (loadSessions_sameOtherSessions _ _ Hid).
    cbn [sessions with_sessions]. apply mapGet_mapSet_same.
Qed.

Lemma createSession_witness :
  exists s w1,
    DocumentSessionManager.createSession JS.toISOString (Some "Invoices") Scenario.oneScan =
      (Return s, w1) /\
    sessionId s = "id0" /\
    pages s = [] /\ created s = Scenario.t0 /\ modified s = Scenario.t0 /\
    (forall n, Some "Invoices" = Some n -> n <> EmptyString -> name s = n) /\
    (Some "Invoices" = None -> name s = "Document " ++ JS.toISOString Scenario.t0) /\
    files w1 = files Scenario.oneScan /\
    (forall sid, sid <> sessionId s ->
       DocumentSessionManager.mapGet sid (sessions w1) =
       DocumentSessionManager.mapGet sid (sessions Scenario.oneScan)) /\
    fst (DocumentSessionManager.getSession (sessionId s) w1) = Return (Some s).
Proof.
  apply (createSession_then_getSession JS.toISOString (Some "Invoices") Scenario.oneScan).
  vm_compute. discriminate.
Defined.

Lemma renumberFrom_noNewFiles l k :
  preserves noNewFiles (DocumentSessionManager.renumberFrom k l).
Proof. apply sameFiles_noNewFiles, renumberFrom_files. Qed.

Ltac nnf_frame :=
  repeat frame_step noNewFiles_refl noNewFiles_trans;
  first [ apply getSession_noNewFiles | apply unlinkSync_noNewFiles
        | apply renumberFrom_noNewFiles
        | apply sameFiles_noNewFiles;
          first [ apply generateId_files | apply alloc_files | apply setSession_files ]
        | idtac ].

(** X17.  The bookkeeping of the sessions creates no file and changes the
    content of none: after adding, removing, reordering, clearing or
    creating, every file that exists was there before, unchanged. *)
Theorem session_bookkeeping_creates_no_file :
  forall w,
    (forall sid pageFilepath,
       noNewFiles w (snd (DocumentSessionManager.addPageToSession sid pageFilepath w))) /\
    (forall sid pageIdOrPath,
       noNewFiles w (snd (DocumentSessionManager.removePageFromSession sid pageIdOrPath w))) /\
    (forall sid pageIds,
       noNewFiles w (snd (DocumentSessionManager.reorderPages sid pageIds w))) /\
    (forall sid, noNewFiles w (snd (DocumentSessionManager.clearSession sid w))) /\
    (forall toLocaleString given,
       noNewFiles w (snd (DocumentSessionManager.createSession toLocaleString given w))).
Proof.
  intros w. split; [|split; [|split; [|split]]].
  - intros sid p. revert w.
    change (preserves noNewFiles (DocumentSessionManager.addPageToSession sid p)).
    unfold DocumentSessionManager.addPageToSession, DocumentSessionManager.tryUnlink,
      existsSync, statSync.
    nnf_frame.
  - intros sid x. revert w.
    change (preserves noNewFiles (DocumentSessionManager.removePageFromSession sid x)).
    unfold DocumentSessionManager.removePageFromSession, DocumentSessionManager.renumber,
      existsSync.
    nnf_frame.
  - intros sid ids. revert w.
    change (preserves noNewFiles (DocumentSessionManager.reorderPages sid ids)).
    unfold DocumentSessionManager.reorderPages, DocumentSessionManager.renumber.
    nnf_frame.
  - intros sid. destruct (clearSession_returns sid w) as [r [w' [-> [_ [H _]]]]]. exact H.
  - intros loc nm. revert w.
    change (preserves noNewFiles (DocumentSessionManager.createSession loc nm)).
    unfold DocumentSessionManager.createSession.
    nnf_frame.
Qed.

(* ===================================================================== *)
(** ** What the scanner registry runs and reports                         *)
(* ===================================================================== *)

(** A command without an output location: the world after it is the world
    before with the command logged and the clock advanced. *)
Lemma exec_NoOutput_eq cmd w :
  exists o w1,
    exec cmd NoOutput w = (o, w1) /\
    execLog w1 = (execLog w ++ [cmd])%list /\
    files w1 = files w /\ platform w1 = platform w /\
    cachedScanner w1 = cachedScanner w /\ lastSuccessfulScan w1 = lastSuccessfulScan w /\
    oracle w1 = oracle w /\
    match status (oracle w (length (execLog w))) with
    | Exited out err => o = Return (out, err)
    | Rejected message => o = Throw message
    end.
Proof.
  unfold exec. destruct (status (oracle w (length (execLog w))));
    eexists; eexists; (split; [reflexivity|]); cbn; repeat split; reflexivity.
Qed.

Lemma sameButCache_refl w : sameButCache w w.
Proof. repeat split. Qed.

Lemma cachedOr_eq e w :
  exists d,
    ScannerManager.cachedOr e w = (Return d, w) /\
    (ScannerManager.scanners d = [] <-> ScannerManager.error d <> None).
Proof.
  unfold ScannerManager.cachedOr, bind. rewrite getCachedScanner_eq.
  match goal with
  | |- context [match ?c with Some _ => _ | None => _ end w] => destruct c
  end; eexists; (split; [reflexivity|]); cbn; split; intros H; congruence.
Qed.

(** [detectScanners] never throws; it runs the listing command and nothing
    else, and its result names an error exactly when it names no scanner. *)
Lemma detectScanners_eq w :
  exists d w',
    ScannerManager.detectScanners w = (Return d, w') /\
    (ScannerManager.scanners d = [] <-> ScannerManager.error d <> None) /\
    execLog w' = (execLog w ++ ["scanimage -L"])%list /\
    files w' = files w /\ platform w' = platform w /\
    lastSuccessfulScan w' = lastSuccessfulScan w /\ oracle w' = oracle w.
Proof.
  destruct (exec_NoOutput_eq "scanimage -L" w)
    as [o [w1 [He [Hlog [Hfiles [Hplat [_ [Hlast [Horacle Ho]]]]]]]]].
  assert (Hfinish : forall d w',
            (ScannerManager.scanners d = [] <-> ScannerManager.error d <> None) ->
            sameButCache w1 w' ->
            (ScannerManager.scanners d = [] <-> ScannerManager.error d <> None) /\
            execLog w' = (execLog w ++ ["scanimage -L"])%list /\
            files w' = files w /\ platform w' = platform w /\
            lastSuccessfulScan w' = lastSuccessfulScan w /\ oracle w' = oracle w).
  { intros d w' Hd (H1 & H2 & H3 & H4 & H5). repeat split; try apply Hd; congruence. }
  assert (Herr : forall d', ScannerManager.scanners (ScannerManager.mkDetection [] (Some d')) = []
                       <-> ScannerManager.error (ScannerManager.mkDetection [] (Some d')) <> None).
  { intros d'. cbn. split; intros; congruence. }
  unfold ScannerManager.detectScanners, try_catch, bind at 1, try_catch, bind at 1.
  rewrite He.
  destruct o as [[stdout stderr]|message].
  - unfold ret at 1. cbv beta iota.
    destruct (_ || _).
    { destruct (cachedOr_eq ScannerManager.noScannersDetected w1) as [d [-> Hd]].
      exists d, w1. split; [reflexivity|]. apply Hfinish; [exact Hd | apply sameButCache_refl]. }
    destruct (_ || _).
    { match goal with |- context [ScannerManager.cachedOr ?e w1] =>
        destruct (cachedOr_eq e w1) as [d [-> Hd]] end.
      exists d, w1. split; [reflexivity|]. apply Hfinish; [exact Hd | apply sameButCache_refl]. }
    cbv zeta.
    destruct (_ && _).
    { eexists. exists w1. split; [reflexivity|].
      apply Hfinish; [apply Herr | apply sameButCache_refl]. }
    destruct (ScannerManager.parseLines _) as [|first rest] eqn:Ep.
    { cbn [length Nat.eqb].
      destruct (cachedOr_eq ScannerManager.noScannersDetected w1) as [d [-> Hd]].
      exists d, w1. split; [reflexivity|]. apply Hfinish; [exact Hd | apply sameButCache_refl]. }
    cbn [length Nat.eqb]. unfold bind, modify, ret.
    eexists. eexists. split; [reflexivity|].
    apply Hfinish; [cbn; split; intros; congruence | repeat split].
  - unfold bind at 1. rewrite getCachedScanner_eq.
    match goal with
    | |- context [match ?c with Some _ => _ | None => _ end w1] => destruct c
    end.
    + unfold ret. eexists. exists w1. split; [reflexivity|].
      apply Hfinish; [cbn; split; intros; congruence | apply sameButCache_refl].
    + unfold throw. cbv beta iota.
      destruct (_ || _); [|destruct (JS.includes _ _)];
        eexists; exists w1; (split; [reflexivity|]);
        (apply Hfinish; [apply Herr | apply sameButCache_refl]).
Qed.

(** X18.  [detectScanners] never throws.  Whatever the listing command
    answers, the method runs that one command, touches no file, and its
    result carries an error message exactly when it lists no scanner. *)
Theorem detectScanners_reports_scanners_or_an_error :
  forall w,
    exists d w',
      ScannerManager.detectScanners w = (Return d, w') /\
      (ScannerManager.scanners d = [] <-> ScannerManager.error d <> None) /\
      execLog w' = (execLog w ++ ["scanimage -L"])%list /\
      files w' = files w.
Proof.
  intros w. destruct (detectScanners_eq w) as [d [w' [H1 [H2 [H3 [H4 _]]]]]].
  exists d, w'. auto.
Qed.

Lemma bestEffort_eq cmd w :
  exists w1,
    ScannerManager.bestEffort cmd w = (Return tt, w1) /\
    execLog w1 = (execLog w ++ [cmd])%list /\
    files w1 = files w /\ platform w1 = platform w /\
    lastSuccessfulScan w1 = lastSuccessfulScan w /\ oracle w1 = oracle w.
Proof.
  destruct (exec_NoOutput_eq cmd w)
    as [o [w1 [He [Hlog [Hfiles [Hplat [_ [Hlast [Horacle _]]]]]]]]].
  exists w1. unfold ScannerManager.bestEffort, try_catch, bind. rewrite He.
  destruct o as [[? ?]|?]; repeat split; assumption.
Qed.

(** X19.  [attemptFix] never throws either.  On Linux it runs the restart of
    the SANE daemon, the reload of the USB module and the listing command,
    elsewhere the listing command alone; it reports success exactly when
    the listing found a scanner, and the only failure it ever reports is
    that no scanner was detected. *)
Theorem attemptFix_runs_a_fixed_sequence_of_commands :
  forall w,
    exists r w',
      ScannerManager.attemptFix w = (Return r, w') /\
      execLog w' =
        (execLog w
         ++ (if String.eqb (platform w) "linux"
             then [ "sudo systemctl restart saned 2>/dev/null || true";
                    "sudo modprobe -r usblp && sudo modprobe usblp 2>/dev/null || true" ]
             else [])
         ++ ["scanimage -L"])%list /\
      files w' = files w /\
      lastSuccessfulScan w' = lastSuccessfulScan w /\
      (ScannerManager.success r = true ->
       exists s l, ScannerManager.details r = Some (inl (s :: l))) /\
      (ScannerManager.success r = false ->
       ScannerManager.message r =
       "Fix attempt completed, but no scanners detected. Manual intervention may be required.").
Proof.
  intros w.
  unfold ScannerManager.attemptFix, try_catch, bind at 1, gets at 1.
  assert (Hpre : exists w2,
    ((if String.eqb (platform w) "linux"
      then ScannerManager.bestEffort "sudo systemctl restart saned 2>/dev/null || true"
      else ret tt) ;;
     (if String.eqb (platform w) "linux"
      then ScannerManager.bestEffort
             "sudo modprobe -r usblp && sudo modprobe usblp 2>/dev/null || true"
      else ret tt) ;;
     sleep 2000) w = (Return tt, w2) /\
    execLog w2 =
      (execLog w
       ++ (if String.eqb (platform w) "linux"
           then [ "sudo systemctl restart saned 2>/dev/null || true";
                  "sudo modprobe -r usblp && sudo modprobe usblp 2>/dev/null || true" ]
           else []))%list /\
    files w2 = files w /\ lastSuccessfulScan w2 = lastSuccessfulScan w).
  { destruct (String.eqb (platform w) "linux").
    - unfold bind at 1.
      destruct (bestEffort_eq "sudo systemctl restart saned 2>/dev/null || true" w)
        as [w1 [-> [Hl1 [Hf1 [_ [Hs1 _]]]]]].
      unfold bind at 1.
      destruct (bestEffort_eq
                  "sudo modprobe -r usblp && sudo modprobe usblp 2>/dev/null || true" w1)
        as [w2 [-> [Hl2 [Hf2 [_ [Hs2 _]]]]]].
      eexists. split; [reflexivity|]. cbn [execLog files lastSuccessfulScan with_clock].
      rewrite Hl2, Hl1, <- app_assoc. repeat split; congruence.
    - eexists. split; [reflexivity|]. cbn [execLog files lastSuccessfulScan with_clock].
      rewrite app_nil_r. repeat split. }
  destruct Hpre as [w2 [Hpre [Hl2 [Hf2 Hs2]]]].
  match goal with
  | |- context [let (o, w') := ?m w in _] =>
      assert (Hm : exists r w', m w = (Return r, w') /\
                execLog w' = (execLog w2 ++ ["scanimage -L"])%list /\
                files w' = files w2 /\ lastSuccessfulScan w' = lastSuccessfulScan w2 /\
                (ScannerManager.success r = true ->
                 exists s l, ScannerManager.details r = Some (inl (s :: l))) /\
                (ScannerManager.success r = false ->
                 ScannerManager.message r =
                 "Fix attempt completed, but no scanners detected. Manual intervention may be required."))
  end.
  { unfold bind at 1 in Hpre. unfold bind at 1.
    destruct ((if String.eqb (platform w) "linux"
               then ScannerManager.bestEffort _ else ret tt) w) as [[[]|e] wa];
      [|discriminate Hpre].
    unfold bind at 1 in Hpre. unfold bind at 1.
    destruct ((if String.eqb (platform w) "linux"
               then ScannerManager.bestEffort _ else ret tt) wa) as [[[]|e] wb];
      [|discriminate Hpre].
    unfold bind at 1. rewrite Hpre. unfold bind at 1.
    destruct (detectScanners_eq w2) as [d [w3 [-> [Hd [Hl3 [Hf3 [_ [Hs3 _]]]]]]]].
    destruct (ScannerManager.scanners d) as [|s l] eqn:Es; cbn [length Nat.ltb Nat.leb].
    - eexists. eexists. split; [reflexivity|]. cbn. repeat split; try assumption.
      intros H; discriminate H.
    - eexists. eexists. split; [reflexivity|]. cbn. repeat split; try assumption.
      + intros _. exists s, l. reflexivity.
      + intros H; discriminate H. }
  destruct Hm as [r [w' [-> [Hl [Hf [Hs [H1 H2]]]]]]].
  exists r, w'. split; [reflexivity|]. rewrite Hl, Hl2, <- app_assoc.
  repeat split; try assumption; congruence.
Qed.

(** X20.  [testScanner] never throws.  With a device given it runs one
    command, the help query for that device, and no detection; it reports
    success exactly when the command exits and its error stream does not
    contain the word 'invalid'. *)
Theorem testScanner_queries_the_given_device :
  forall deviceId w,
    deviceId <> EmptyString ->
    exists r w',
      ScannerManager.testScanner (Some deviceId) w = (Return r, w') /\
      execLog w' =
        (execLog w ++ [("scanimage --device-name=" ++ quoted deviceId ++ " --help")%string])%list /\
      files w' = files w /\
      (ScannerManager.testSuccess r = true <->
       exists stdout stderr,
         status (oracle w (length (execLog w))) = Exited stdout stderr /\
         JS.includes stderr "invalid" = false) /\
      (ScannerManager.testSuccess r = true <-> ScannerManager.testError r = None).
Proof.
  intros d w Hd.
  destruct (exec_NoOutput_eq ("scanimage --device-name=" ++ quoted d ++ " --help") w)
    as [o [w1 [He [Hlog [Hfiles [_ [_ [_ [_ Ho]]]]]]]]].
  unfold ScannerManager.testScanner, try_catch, bind at 1.
  destruct d as [|c d]; [contradiction|]. cbn [JS.truthy]. unfold ret at 1.
  cbv beta iota zeta. unfold bind at 1. rewrite He.
  destruct (status (oracle w (length (execLog w)))) as [stdout stderr|message]; subst o.
  - cbn [fst snd].
    assert (Hinv : JS.truthy stderr && JS.includes stderr "invalid" = JS.includes stderr "invalid").
    { destruct stderr; reflexivity. }
    rewrite Hinv.
    destruct (JS.includes stderr "invalid") eqn:Ei; unfold ret;
      eexists; eexists; (split; [reflexivity|]); cbn [ScannerManager.testSuccess
        ScannerManager.testError]; (split; [exact Hlog|]); (split; [exact Hfiles|]); split.
    + split; [discriminate|]. intros (so & se & [= <- <-] & H). congruence.
    + split; discriminate.
    + split; [|reflexivity]. intros _. exists stdout, stderr. auto.
    + split; reflexivity.
  - unfold ret. eexists. eexists. split; [reflexivity|].
    cbn [ScannerManager.testSuccess ScannerManager.testError].
    split; [exact Hlog|]. split; [exact Hfiles|]. split.
    + split; [discriminate|]. intros (so & se & H & _). discriminate H.
    + split; discriminate.
Qed.

Lemma testScanner_witness :
  exists r w',
    ScannerManager.testScanner (Some "epson2:libusb:001:004") Scenario.helpWorks = (Return r, w') /\
    execLog w' =
      (execLog Scenario.helpWorks
       ++ [("scanimage --device-name=" ++ quoted "epson2:libusb:001:004" ++ " --help")%string])%list /\
    files w' = files Scenario.helpWorks /\
    (ScannerManager.testSuccess r = true <->
     exists stdout stderr,
       status (oracle Scenario.helpWorks (length (execLog Scenario.helpWorks))) =
         Exited stdout stderr /\
       JS.includes stderr "invalid" = false) /\
    (ScannerManager.testSuccess r = true <-> ScannerManager.testError r = None).
Proof.
  apply (testScanner_queries_the_given_device "epson2:libusb:001:004" Scenario.helpWorks).
  discriminate.
Defined.

Lemma attempt_eq cmd w :
  exists answer w1,
    ScannerManager.attempt cmd w = (Return answer, w1) /\
    execLog w1 = (execLog w ++ [cmd])%list /\
    files w1 = files w /\ platform w1 = platform w /\
    (forall message, answer = inr message <->
       status (oracle w (length (execLog w))) = Rejected message).
Proof.
  destruct (exec_NoOutput_eq cmd w)
    as [o [w1 [He [Hlog [Hfiles [Hplat [_ [_ [_ Ho]]]]]]]]].
  unfold ScannerManager.attempt, try_catch, bind. rewrite He.
  destruct (status (oracle w (length (execLog w)))) as [stdout stderr|message]; subst o;
    unfold ret; eexists; eexists; (split; [reflexivity|]); cbn [fst];
    repeat split; try assumption; try congruence; try discriminate.
Qed.

(** X21.  [getDiagnostics] never throws, whatever its commands answer.  It
    runs the probe for [scanimage], the version query, on Linux the query
    of the user's groups, and the USB listing, in this order; its
    suggestions always end with the three general hints (on macOS followed
    by the hint about drivers), and the hint to install the SANE tools is
    among them exactly when the probe for [scanimage] failed. *)
Theorem getDiagnostics_always_answers :
  forall w,
    exists diagnostics suggestions w',
      ScannerManager.getDiagnostics w = (Return (diagnostics, suggestions), w') /\
      execLog w' =
        (execLog w ++ ["which scanimage"; "scanimage --version"]
         ++ (if String.eqb (platform w) "linux" then ["groups"] else [])
         ++ [ScannerManager.usbCommand])%list /\
      files w' = files w /\
      (exists specific,
         suggestions =
           (specific ++ ScannerManager.generalHints
            ++ (if String.eqb (platform w) "darwin" then [ScannerManager.macHint] else []))%list /\
         (In ScannerManager.installHint specific <->
          exists message, status (oracle w (length (execLog w))) = Rejected message)) /\
      (ScannerManager.scanimage_available diagnostics = Some false <->
       exists message, status (oracle w (length (execLog w))) = Rejected message).
Proof.
  intros w. unfold ScannerManager.getDiagnostics.
  unfold bind at 1.
  destruct (attempt_eq "which scanimage" w) as [which [w1 [-> [Hl1 [Hf1 [Hp1 Hwhich]]]]]].
  unfold bind at 1.
  destruct (attempt_eq "scanimage --version" w1) as [version [w2 [-> [Hl2 [Hf2 [Hp2 _]]]]]].
  unfold bind at 1, gets at 1. unfold bind at 1.
  assert (Hgroups : exists groups w3,
    (if String.eqb (platform w2) "linux"
     then answer <- ScannerManager.attempt "groups" ;;
          ret (Some match answer with
                    | inl stdout => inl (JS.splitChar " " (JS.trim stdout))
                    | inr message => inr message
                    end)
     else ret None) w2 = (Return groups, w3) /\
    execLog w3 = (execLog w2 ++ (if String.eqb (platform w) "linux" then ["groups"] else []))%list /\
    files w3 = files w2).
  { rewrite Hp2, Hp1. destruct (String.eqb (platform w) "linux").
    - unfold bind. destruct (attempt_eq "groups" w2) as [g [w3 [-> [Hl3 [Hf3 _]]]]].
      eexists. eexists. split; [reflexivity|]. split; assumption.
    - eexists. eexists. split; [reflexivity|]. rewrite app_nil_r. split; reflexivity. }
  destruct Hgroups as [groups [w3 [-> [Hl3 Hf3]]]].
  unfold bind at 1.
  destruct (attempt_eq ScannerManager.usbCommand w3) as [usb [w4 [-> [Hl4 [Hf4 _]]]]].
  cbv zeta. unfold ret.
  eexists. eexists. eexists. split; [reflexivity|].
  split; [|split; [congruence|split]].
  - rewrite Hl4, Hl3, Hl2, Hl1, <- !app_assoc. reflexivity.
  - rewrite Hp2, Hp1.
    exists (match which with inl _ => [] | inr _ => [ScannerManager.installHint] end
            ++ match groups with
               | Some (inl l) =>
                   if negb (List.existsb (String.eqb "scanner") l) &&
                      negb (List.existsb (String.eqb "lp") l)
                   then ScannerManager.groupHints else []
               | _ => []
               end)%list.
    split; [now rewrite <- !app_assoc|].
    rewrite in_app_iff. split.
    + intros [H|H].
      * destruct which as [stdout|message]; [destruct H|].
        exists message. now apply Hwhich.
      * exfalso. destruct groups as [[l|?]|]; try destruct H.
        destruct (_ && _); [|destruct H].
        destruct H as [H|[H|[]]]; discriminate H.
    + intros [message H]. apply Hwhich in H. subst which. left. left. reflexivity.
  - cbn [ScannerManager.scanimage_available]. split.
    + destruct which as [stdout|message]; [discriminate|].
      intros _. exists message. now apply Hwhich.
    + intros [message H]. apply Hwhich in H. subst which. reflexivity.
Qed.

(* ===================================================================== *)
(** ** When a scan makes the cache usable                                 *)
(* ===================================================================== *)

Lemma sameStamp_refl w : sameStamp w w.
Proof. reflexivity. Qed.
Lemma sameStamp_trans a b c : sameStamp a b -> sameStamp b c -> sameStamp a c.
Proof. unfold sameStamp. congruence. Qed.

Lemma exec_stamp cmd target : preserves sameStamp (exec cmd target).
Proof. intros w. unfold exec, sameStamp. destruct (status _); reflexivity. Qed.

Ltac stamp_leaf :=
  first [ apply exec_stamp
        | apply preserves_modify; intros ?; reflexivity
        | intros ?; apply detectScanners_keeps_timestamp
        | intros ?; reflexivity ].

Lemma attemptFix_stamp : preserves sameStamp ScannerManager.attemptFix.
Proof.
  unfold ScannerManager.attemptFix, ScannerManager.bestEffort, sleep.
  repeat frame_step sameStamp_refl sameStamp_trans; stamp_leaf.
Qed.

Lemma removeZeroByteTemp_stamp temp : preserves sameStamp (removeZeroByteTemp temp).
Proof.
  unfold removeZeroByteTemp, existsSync, statSync, unlinkSync.
  repeat frame_step sameStamp_refl sameStamp_trans; stamp_leaf.
Qed.

Lemma scanSingle_stamp cmd temp final :
  preserves sameStamp (scanSingle cmd temp final None).
Proof.
  unfold scanSingle, finishCapture, existsSync, statSync, unlinkSync, renameSync.
  repeat frame_step sameStamp_refl sameStamp_trans;
    first [ apply attemptFix_stamp | apply removeZeroByteTemp_stamp | stamp_leaf ].
Qed.

Lemma keepNonEmpty_stamp dir names : forall acc,
  preserves sameStamp (keepNonEmpty dir names acc).
Proof.
  induction names as [|n rest IH]; intros acc; cbn [keepNonEmpty];
    unfold statSync, unlinkSync;
    repeat frame_step sameStamp_refl sameStamp_trans;
    first [ apply IH | stamp_leaf ].
Qed.

Lemma scanDuplex_stamp cmd dir batchPrefix ext :
  preserves sameStamp (scanDuplex cmd dir batchPrefix ext None).
Proof.
  unfold scanDuplex, collectBatch, cleanupBatch, readdirSync, unlinkSync.
  repeat frame_step sameStamp_refl sameStamp_trans;
    first [ apply keepNonEmpty_stamp | stamp_leaf ].
Qed.

(** X22.  With a device configured in the settings, [scanPage] never marks
    a scan as successful, however the scan ends: the time of the last
    successful scan stays what it was, so that a cache which was never
    marked is still not served afterwards. *)
Theorem scanPage_with_a_configured_device_never_marks_success :
  forall w url,
    scannerDeviceUrl (settings w) = Some url ->
    JS.trim url <> EmptyString ->
    let w' := snd (scanPage w) in
    lastSuccessfulScan w' = lastSuccessfulScan w /\
    (lastSuccessfulScan w = None ->
     fst (ScannerManager.getCachedScanner w') = Return None).
Proof.
  intros w url Hurl Htrim w'.
  assert (Hstamp : lastSuccessfulScan w' = lastSuccessfulScan w).
  { subst w'. unfold scanPage, bind at 1, gets at 1. cbv beta iota.
    unfold bind at 1, resolveDevice. rewrite Hurl.
    assert (Ht : JS.truthy url = true).
    { destruct url; [|reflexivity]. now contradiction Htrim. }
    apply String.eqb_neq in Htrim. rewrite Ht, Htrim. cbn [negb andb]. unfold ret at 1.
    cbv beta iota. unfold bind at 1, now, gets at 1. cbv beta iota zeta. cbn [fst snd].
    destruct (match duplex (settings w) with Some true => true | _ => false end).
    - apply scanDuplex_stamp.
    - apply scanSingle_stamp. }
  split; [exact Hstamp|]. intros Hnone.
  rewrite getCachedScanner_eq, Hstamp, Hnone. cbn [fst].
  destruct (cachedScanner w'); reflexivity.
Qed.

Lemma scanPage_with_a_configured_device_witness :
  let w' := snd (scanPage Scenario.goodCapture) in
  lastSuccessfulScan w' = lastSuccessfulScan Scenario.goodCapture /\
  (lastSuccessfulScan Scenario.goodCapture = None ->
   fst (ScannerManager.getCachedScanner w') = Return None).
Proof.
  apply (scanPage_with_a_configured_device_never_marks_success Scenario.goodCapture
           "escl:https://192.168.178.188:443"); [reflexivity | vm_compute; discriminate].
Defined.

(** A capture that returns has marked the scanner it was given. *)
Lemma capture_marks cmd temp final s w l w' :
  capture cmd temp final (Some s) w = (Return l, w') ->
  cachedScanner w' = Some s /\ lastSuccessfulScan w' = Some (clock w').
Proof.
  unfold capture, bind.
  destruct (exec cmd (Redirect temp) w) as [[out|e] w0]; [|discriminate].
  rewrite finishCapture_eq.
  destruct (lookupFile temp (files w0)) as [g|].
  - destruct (fileSize g =? 0); [discriminate|].
    intros [= _ <-]. split; reflexivity.
  - destruct (lookupFile temp (dirs w0)) as [d|]; [destruct (fileSize d =? 0)|]; discriminate.
Qed.

Lemma scanSingle_marks cmd temp final s w l w' :
  scanSingle cmd temp final (Some s) w = (Return l, w') ->
  cachedScanner w' = Some s /\ lastSuccessfulScan w' = Some (clock w').
Proof.
  intros Hrun.
  destruct (capture cmd temp final (Some s) w) as [[l0|e] w1] eqn:Ec.
  - unfold scanSingle in Hrun. fold (capture cmd temp final (Some s)) in Hrun.
    unfold try_catch at 1 in Hrun. rewrite Ec in Hrun. injection Hrun as <- <-.
    exact (capture_marks _ _ _ _ _ _ _ Ec).
  - destruct (JS.includes e "no SANE devices found") eqn:Ei.
    + rewrite (scanSingle_no_device_retries_once _ _ _ _ _ _ _ Ec Ei) in Hrun.
      cbv zeta in Hrun.
      destruct (ScannerManager.attemptFix _) as [[r|e'] w3]; cbn [fst snd] in Hrun;
        [|discriminate Hrun].
      destruct (ScannerManager.success r); [|discriminate Hrun].
      destruct (capture cmd temp final (Some s) w3) as [[l1|e2] w4] eqn:Ec2;
        [|discriminate Hrun].
      injection Hrun as <- <-. exact (capture_marks _ _ _ _ _ _ _ Ec2).
    + destruct (scanSingle_other_failure_is_final _ _ _ _ _ _ _ Ec Ei) as [H _].
      rewrite Hrun in H. discriminate H.
Qed.

Lemma scanDuplex_marks cmd dir batchPrefix ext s w l w' :
  scanDuplex cmd dir batchPrefix ext (Some s) w = (Return l, w') ->
  cachedScanner w' = Some s /\ lastSuccessfulScan w' = Some (clock w').
Proof.
  unfold scanDuplex, try_catch. intros Hrun.
  match type of Hrun with
  | match ?m w with _ => _ end = _ => destruct (m w) as [[l0|e] w0] eqn:Em
  end.
  2:{ unfold bind in Hrun. destruct (cleanupBatch dir batchPrefix ext w0) as [[[]|e'] w2];
        discriminate Hrun. }
  injection Hrun as -> ->.
  unfold bind at 1 in Em.
  destruct (exec cmd _ w) as [[out|e] w1]; [|discriminate Em].
  unfold bind at 1 in Em.
  destruct (collectBatch dir batchPrefix ext w1) as [[scanned|e] w2]; [|discriminate Em].
  unfold bind, ScannerManager.markSuccessfulScan, bind, modify, now, gets, ret in Em.
  injection Em as _ <-. split; reflexivity.
Qed.

(** X23.  Without a configured device, a scan that succeeds marks the
    scanner it used, the first one detected: it is the cached scanner, the
    time of the last successful scan is the time the scan ended, and
    [getCachedScanner] serves it. *)
Theorem scanPage_success_makes_the_cache_fresh :
  forall w l w',
    match scannerDeviceUrl (settings w) with
    | Some url => JS.trim url = EmptyString
    | None => True
    end ->
    scanPage w = (Return l, w') ->
    exists d s,
      fst (ScannerManager.detectScanners w) = Return d /\
      List.head (ScannerManager.scanners d) = Some s /\
      cachedScanner w' = Some s /\
      lastSuccessfulScan w' = Some (clock w') /\
      ScannerManager.getCachedScanner w' = (Return (Some s), w').
Proof.
  intros w l w' Hurl Hrun.
  unfold scanPage, bind at 1, gets at 1 in Hrun. cbv beta iota in Hrun.
  unfold bind at 1, resolveDevice in Hrun.
  assert (Hconf : match scannerDeviceUrl (settings w) with
                  | Some url => JS.truthy url && negb (String.eqb (JS.trim url) EmptyString)
                  | None => false
                  end = false).
  { destruct (scannerDeviceUrl (settings w)) as [url|]; [|reflexivity].
    rewrite Hurl. cbn. apply andb_false_r. }
  rewrite Hconf in Hrun. unfold bind at 1 in Hrun.
  destruct (ScannerManager.detectScanners w) as [[d|e] w1] eqn:Ed; [|discriminate Hrun].
  destruct (ScannerManager.scanners d) as [|s rest] eqn:Es; [discriminate Hrun|].
  unfold ret at 1 in Hrun. cbv beta iota in Hrun.
  unfold bind at 1, now, gets at 1 in Hrun. cbv beta iota zeta in Hrun. cbn [fst snd] in Hrun.
  assert (Hmarks : cachedScanner w' = Some s /\ lastSuccessfulScan w' = Some (clock w')).
  { revert Hrun.
    destruct (match duplex (settings w) with Some true => true | _ => false end); intros Hrun.
    - exact (scanDuplex_marks _ _ _ _ _ _ _ _ Hrun).
    - exact (scanSingle_marks _ _ _ _ _ _ _ Hrun). }
  destruct Hmarks as [Hc Hs].
  exists d, s. split; [reflexivity|]. split; [now rewrite Es|].
  split; [exact Hc|]. split; [exact Hs|].
  rewrite getCachedScanner_eq, Hc, Hs. rewrite Z.sub_diag. reflexivity.
Qed.

Lemma scanPage_success_makes_the_cache_fresh_witness :
  exists d s,
    fst (ScannerManager.detectScanners Scenario.detectedCapture) = Return d /\
    List.head (ScannerManager.scanners d) = Some s /\
    cachedScanner (snd (scanPage Scenario.detectedCapture)) = Some s /\
    lastSuccessfulScan (snd (scanPage Scenario.detectedCapture)) =
      Some (clock (snd (scanPage Scenario.detectedCapture))) /\
    ScannerManager.getCachedScanner (snd (scanPage Scenario.detectedCapture)) =
      (Return (Some s), snd (scanPage Scenario.detectedCapture)).
Proof.
  apply (scanPage_success_makes_the_cache_fresh Scenario.detectedCapture
           ["/tmp/scan-2026-11-03T06-21-00-163Z.pdf"]);
    vm_compute; reflexivity.
Defined.

(* ===================================================================== *)
(** ** After a failed duplex scan                                         *)
(* ===================================================================== *)
























Section OtherFiles.
Variables dir batchPrefix ext : string.










End OtherFiles.



(** The two sides the failed batch had written are gone; the earlier scan
    is still there. *)
Example scanPage_duplex_failure_removes_written_sides :
  List.map fst (files (snd (exec "scanimage" (Batch "/tmp/scan-2026-11-03T06-21-00-123Z-p" ".pdf")
                              Scenario.brokenBatch))) =
    [ "/tmp/scan-2026-11-03T06-20-55-123Z.pdf";
      "/tmp/scan-2026-11-03T06-21-00-123Z-p1.pdf";
      "/tmp/scan-2026-11-03T06-21-00-123Z-p2.pdf" ] /\
  List.map fst (files (snd (scanPage Scenario.brokenBatch))) =
    [ "/tmp/scan-2026-11-03T06-20-55-123Z.pdf" ].
Proof. vm_compute. split; reflexivity. Qed.

(* ===================================================================== *)
(** ** The scan operation of the server                                   *)
(* ===================================================================== *)

(** A single-sided scan that succeeds returns one file, which has
    content. *)
Lemma scanPage_single_files w l w1 :
  duplex (settings w) <> Some true ->
  scanPage w = (Return l, w1) ->
  exists final f,
    l = [final] /\ lookupFile final (files w1) = Some f /\ fileSize f <> 0.
Proof.
  intros Hduplex Hrun.
  unfold scanPage, bind at 1, gets at 1 in Hrun. cbv beta iota in Hrun.
  unfold bind at 1 in Hrun.
  destruct (resolveDevice (settings w) w) as [[resolved|e] w0]; [|discriminate Hrun].
  unfold bind at 1, now, gets at 1 in Hrun. cbv beta iota zeta in Hrun.
  assert (Hsingle : match duplex (settings w) with Some true => true | _ => false end = false).
  { destruct (duplex (settings w)) as [[|]|]; [contradiction | reflexivity | reflexivity]. }
  rewrite Hsingle in Hrun.
  match type of Hrun with
  | scanSingle _ (?final ++ ".tmp") _ _ _ = _ =>
      destruct (scanSingle_temp _ _ _ _ _ _ _ (temp_path_differs final) Hrun)
        as [_ [_ Hl]]
  end.
  destruct (Hl l eq_refl) as [-> [_ [f [Hf Hnz]]]].
  eexists. exists f. split; [reflexivity | split; assumption].
Qed.

(** [startPageScan] never throws.  When the scan fails nothing else
    happens: the world is the one the failed scan left, and in particular
    no session is touched after it. *)
Lemma startPageScan_never_throws :
  forall w,
    fst (startPageScan w) = Return tt /\
    (forall e, fst (scanPage w) = Throw e -> snd (startPageScan w) = snd (scanPage w)).
Proof.
  intros w. split; [apply swallowed_returns|].
  intros e He. unfold startPageScan, try_catch, bind.
  destruct (scanPage w) as [[l|e'] w1]; [discriminate He | reflexivity].
Qed.

(** X25.  After a single-sided scan that succeeded, [startPageScan] has
    left the scanned file on disk, with its content, and has made it the
    last page of the stored default session: the page carries the path and
    the size of the file, and its page number is its position. *)
Theorem startPageScan_adds_the_scan_to_the_default_session :
  forall w l w1,
    duplex (settings w) <> Some true ->
    scanPage w = (Return l, w1) ->
    exists final f w' s r,
      l = [final] /\
      startPageScan w = (Return tt, w') /\
      lookupFile final (files w') = Some f /\ fileSize f <> 0 /\
      DocumentSessionManager.mapGet "default" (sessions w') = Some s /\
      List.last (pages s) r = r /\ In r (pages s) /\
      filepath (DocumentSessionManager.pageAt (heap w') r) = final /\
      size (DocumentSessionManager.pageAt (heap w') r) = fileSize f /\
      pageNumber (DocumentSessionManager.pageAt (heap w') r) = Z.of_nat (length (pages s)).
Proof.
  intros w l w1 Hduplex Hscan.
  destruct (scanPage_single_files w l w1 Hduplex Hscan) as [final [f [-> [Hf Hnz]]]].
  pose proof (loadSessions_keepsContent w1 final f Hf Hnz) as Hkept.
  pose proof (addPageToSession_eq "default" final w1 f Hkept Hnz) as Hadd.
  set (w2 := snd (DocumentSessionManager.loadSessions w1)) in *.
  exists final, f, (afterAdd "default" final f w2).
  eexists. exists (length (heap w2)).
  split; [reflexivity|]. split.
  - unfold startPageScan, try_catch, bind at 1. rewrite Hscan.
    cbn [forEach]. unfold bind. rewrite Hadd. reflexivity.
  - unfold afterAdd.
    cbn [files sessions heap with_sessions with_heap with_idCalls].
    split; [exact Hkept|]. split; [exact Hnz|].
    split; [apply mapGet_mapSet_same|].
    cbn [pages DocumentSessionManager.withPages].
    split; [apply last_last|]. split; [apply in_or_app; right; left; reflexivity|].
    unfold DocumentSessionManager.pageAt. rewrite app_nth2 by lia.
    rewrite Nat.sub_diag. cbn [nth filepath size pageNumber].
    repeat split. rewrite length_app. cbn [length]. lia.
Qed.

Lemma startPageScan_witness :
  exists final f w' s r,
    ["/tmp/scan-2026-11-03T06-21-00-123Z.pdf"] = [final] /\
    startPageScan Scenario.goodCapture = (Return tt, w') /\
    lookupFile final (files w') = Some f /\ fileSize f <> 0 /\
    DocumentSessionManager.mapGet "default" (sessions w') = Some s /\
    List.last (pages s) r = r /\ In r (pages s) /\
    filepath (DocumentSessionManager.pageAt (heap w') r) = final /\
    size (DocumentSessionManager.pageAt (heap w') r) = fileSize f /\
    pageNumber (DocumentSessionManager.pageAt (heap w') r) = Z.of_nat (length (pages s)).
Proof.
  apply (startPageScan_adds_the_scan_to_the_default_session Scenario.goodCapture
           ["/tmp/scan-2026-11-03T06-21-00-123Z.pdf"] (snd (scanPage Scenario.goodCapture)));
    [vm_compute; discriminate | vm_compute; reflexivity].
Defined.

(** The load inside the addition had listed the new file already: the
    stored default session names it twice, until the next lookup rebuilds
    the session from the directory. *)
Example startPageScan_lists_the_scan_twice_until_the_next_read :
  let w' := snd (startPageScan Scenario.goodCapture) in
  (exists s, DocumentSessionManager.mapGet "default" (sessions w') = Some s /\
     List.map filepath (DocumentSessionManager.pagesOf w' s) =
       [ "/tmp/scan-2026-11-03T06-21-00-123Z.pdf";
         "/tmp/scan-2026-11-03T06-21-00-123Z.pdf" ]) /\
  (exists s, fst (DocumentSessionManager.getSession "default" w') = Return (Some s) /\
     List.map filepath
       (DocumentSessionManager.pagesOf (snd (DocumentSessionManager.getSession "default" w')) s)
     = [ "/tmp/scan-2026-11-03T06-21-00-123Z.pdf" ]).
Proof. vm_compute. split; eexists; split; reflexivity. Qed.

(* ===================================================================== *)
(** ** The files a read deletes                                           *)
(* ===================================================================== *)

(** X26.  What a lookup of a session deletes: in an existing output
    directory in which every path names one file, the files after
    [getSession] are the files before without the zero-byte files that lie
    in the directory under a scan name; every other file is there as it
    was. *)
Theorem getSession_deletes_the_empty_scan_files :
  forall sid w,
    isDir (scanOutputDir (settings w)) w = true ->
    wellFormed (files w) ->
    forall p,
      lookupFile p (files (snd (DocumentSessionManager.getSession sid w))) =
      match lookupFile p (files w) with
      | Some f =>
          if (fileSize f =? 0) &&
             List.existsb (fun n => String.eqb p (path_join (scanOutputDir (settings w)) n))
               (scanEntries w)
          then None else Some f
      | None => None
      end.
Proof.
  intros sid w Hdir Hwf p. rewrite getSession_eq. cbn [snd].
  rewrite (loadSessions_eq w Hdir Hwf). cbn [snd].
  assert (Hfiles : forall w1 sorted, files (afterRebuild w1 sorted) = files w1).
  { intros w1 [|first rest]; reflexivity. }
  rewrite Hfiles. unfold afterLoadFiles. cbn [files with_files].
  apply dropZero_lookup.
Qed.

Lemma getSession_deletes_witness :
  lookupFile "/tmp/scan-2026-11-03T06-20-40-000Z.pdf"
    (files (snd (DocumentSessionManager.getSession "default" Scenario.twoScans))) = None /\
  lookupFile "/tmp/notes.txt"
    (files (snd (DocumentSessionManager.getSession "default" Scenario.twoScans))) =
    Some (mkFile 12 (Scenario.t0 - 30000) None).
Proof.
  assert (Hwf : wellFormed (files Scenario.twoScans)).
  { vm_compute. repeat constructor; simpl; intuition discriminate. }
  split;
    rewrite (getSession_deletes_the_empty_scan_files "default" Scenario.twoScans
               eq_refl Hwf); reflexivity.
Defined.

(* ===================================================================== *)
(** ** A scan without a scanner                                           *)
(* ===================================================================== *)

(** X27.  Without a configured device, when the detection lists no scanner
    [scanPage] gives up before any capture: it throws 'Scanner not
    available' with the error of the detection, the listing is the only
    command it has run, and no file is touched. *)
Theorem scanPage_without_a_scanner_runs_no_capture :
  forall w d,
    autoDetect (settings w) ->
    fst (ScannerManager.detectScanners w) = Return d ->
    ScannerManager.scanners d = [] ->
    exists e,
      ScannerManager.error d = Some e /\
      scanPage w =
        (Throw ("Scanner not available: " ++ ScannerManager.orElse e "No scanners found"),
         snd (ScannerManager.detectScanners w)) /\
      execLog (snd (scanPage w)) = (execLog w ++ ["scanimage -L"])%list /\
      files (snd (scanPage w)) = files w.
Proof.
  intros w d Hauto Hd Hnone.
  destruct (detectScanners_eq w) as [d' [w1 [Hdet [Herr [Hlog [Hfiles _]]]]]].
  rewrite Hdet in Hd. cbn [fst] in Hd. injection Hd as ->.
  destruct (ScannerManager.error d) as [e|] eqn:Ee;
    [|exfalso; apply (proj1 Herr Hnone); reflexivity].
  exists e. split; [reflexivity|].
  assert (Hrun : scanPage w =
            (Throw ("Scanner not available: " ++ ScannerManager.orElse e "No scanners found"),
             w1)).
  { unfold scanPage, bind at 1, gets at 1. cbv beta iota.
    unfold bind at 1, resolveDevice.
    assert (Hconf : match scannerDeviceUrl (settings w) with
                    | Some url => JS.truthy url && negb (String.eqb (JS.trim url) EmptyString)
                    | None => false
                    end = false).
    { unfold autoDetect in Hauto.
      destruct (scannerDeviceUrl (settings w)) as [url|]; [|reflexivity].
      rewrite Hauto. cbn. apply andb_false_r. }
    rewrite Hconf. unfold bind at 1. rewrite Hdet, Hnone, Ee. reflexivity. }
  rewrite Hrun, Hdet. cbn [snd]. auto.
Qed.

Lemma scanPage_without_a_scanner_witness :
  exists e,
    Some "Scanner detection failed: Command failed" = Some e /\
    scanPage Scenario.oneScan =
      (Throw ("Scanner not available: " ++ ScannerManager.orElse e "No scanners found"),
       snd (ScannerManager.detectScanners Scenario.oneScan)) /\
    execLog (snd (scanPage Scenario.oneScan)) =
      (execLog Scenario.oneScan ++ ["scanimage -L"])%list /\
    files (snd (scanPage Scenario.oneScan)) = files Scenario.oneScan.
Proof.
  apply (scanPage_without_a_scanner_runs_no_capture Scenario.oneScan
           (ScannerManager.mkDetection []
              (Some "Scanner detection failed: Command failed")));
    vm_compute; reflexivity.
Defined.

(* ===================================================================== *)
(** ** Combining a TIFF session                                           *)
(* ===================================================================== *)

Lemma existingPages_eq l w :
  DocumentSessionManager.existingPages l w =
  (Return (List.filter (fun page => present w (filepath page)) l), w).
Proof.
  induction l as [|page rest IH]; [reflexivity|].
  cbn [DocumentSessionManager.existingPages List.filter].
  unfold bind at 1, existsSync, gets at 1. unfold bind at 1. rewrite IH.
  unfold ret, present. destruct (lookupFile _ _); [reflexivity|].
  destruct (isDir _ _); reflexivity.
Qed.

Lemma combineTiffPages_eq s dir sid w1 :
  let existing :=
    List.filter (fun page => present w1 (filepath page))
      (DocumentSessionManager.pagesOf w1 s) in
  let outputPath :=
    path_join dir
      ((if (1 <? length existing)%nat then "combined-" ++ sid else sid)
       ++ "-" ++ JS.dashColonsDots (JS.toISOString (clock w1)) ++ ".pdf") in
  let cmd :=
    "img2pdf " ++ JS.join " " (List.map (fun page => quoted (filepath page)) existing)
    ++ " -o " ++ quoted outputPath in
  DocumentSessionManager.combineTiffPages s dir sid w1 =
  match existing with
  | [] => (Throw "Failed to combine TIFF pages into PDF: No valid TIFF files to combine", w1)
  | _ :: _ =>
      match exec cmd (OutFile outputPath) w1 with
      | (Return _, w2) => (Return outputPath, w2)
      | (Throw e, w2) => (Throw ("Failed to combine TIFF pages into PDF: " ++ e), w2)
      end
  end.
Proof.
  cbv zeta.
  unfold DocumentSessionManager.combineTiffPages, try_catch, bind at 1, gets at 1.
  unfold bind at 1. rewrite existingPages_eq. rewrite length_map.
  destruct (List.filter _ _) as [|page rest]; [reflexivity|].
  cbn [length Nat.eqb].
  unfold bind at 1, DocumentSessionManager.outputTimestamp, bind at 1, now, gets at 1, ret at 1.
  cbv beta iota. unfold bind at 1.
  destruct (exec _ _ w1) as [[out|message] w2]; reflexivity.
Qed.

(** X28.  A TIFF session is combined by one run of [img2pdf] over the page
    files that exist, in the order of the session; the output is named
    [combined-<id>-<timestamp>.pdf], or [<id>-<timestamp>.pdf] when a
    single file is left.  When no page file exists the method throws 'No
    valid TIFF files to combine' and runs nothing. *)
Theorem combineSessionPages_tiff_converts_the_existing_files :
  forall sid w s,
    ScannerManager.orElse (outputFormat (settings w)) "pdf" = "tiff" ->
    fst (DocumentSessionManager.getSession sid w) = Return (Some s) ->
    pages s <> [] ->
    let w1 := snd (DocumentSessionManager.getSession sid w) in
    let existing :=
      List.filter (fun page => present w1 (filepath page))
        (DocumentSessionManager.pagesOf w1 s) in
    let outputPath :=
      path_join (scanOutputDir (settings w))
        ((if (1 <? length existing)%nat then "combined-" ++ sid else sid)
         ++ "-" ++ JS.dashColonsDots (JS.toISOString (clock w1)) ++ ".pdf") in
    let cmd :=
      "img2pdf " ++ JS.join " " (List.map (fun page => quoted (filepath page)) existing)
      ++ " -o " ++ quoted outputPath in
    (existing = [] ->
     DocumentSessionManager.combineSessionPages sid w =
       (Throw "Failed to combine TIFF pages into PDF: No valid TIFF files to combine", w1)) /\
    (existing <> [] ->
     execLog (snd (DocumentSessionManager.combineSessionPages sid w)) =
       (execLog w ++ [cmd])%list /\
     match status (oracle w1 (length (execLog w1))) with
     | Exited _ _ =>
         fst (DocumentSessionManager.combineSessionPages sid w) = Return outputPath
     | Rejected message =>
         fst (DocumentSessionManager.combineSessionPages sid w) =
         Throw ("Failed to combine TIFF pages into PDF: " ++ message)
     end).
Proof.
  intros sid w s Hfmt Hget Hpages. cbv zeta.
  rewrite getSession_eq in *. cbn [fst snd] in *. injection Hget as Hget.
  pose proof (loadSessions_settings w) as Hst. unfold sameSettings in Hst.
  pose proof (loadSessions_log w) as Hlog. unfold sameLog in Hlog.
  set (w1 := snd (DocumentSessionManager.loadSessions w)) in *.
  set (existing := List.filter (fun page => present w1 (filepath page))
                     (DocumentSessionManager.pagesOf w1 s)).
  assert (Hrun : DocumentSessionManager.combineSessionPages sid w =
            DocumentSessionManager.combineTiffPages s (scanOutputDir (settings w)) sid w1).
  { unfold DocumentSessionManager.combineSessionPages, bind at 1.
    rewrite getSession_eq. fold w1. rewrite Hget.
    destruct (pages s) as [|r l]; [contradiction|]. cbn [length Nat.eqb].
    unfold bind, gets. rewrite Hst, Hfmt. reflexivity. }
  rewrite Hrun, combineTiffPages_eq. cbv zeta. fold existing.
  split.
  - intros ->. reflexivity.
  - intros Hne. destruct existing as [|page rest] eqn:Ex; [contradiction|].
    rewrite <- Hlog. unfold exec. destruct (status _); split; reflexivity.
Qed.

Lemma combineSessionPages_tiff_witness :
  execLog (snd (DocumentSessionManager.combineSessionPages "letters" Scenario.tiffSession)) =
    ["img2pdf " ++ quoted Scenario.tiffB ++ " -o "
     ++ quoted "/tmp/letters-2026-11-03T06-21-00-123Z.pdf"] /\
  fst (DocumentSessionManager.combineSessionPages "letters" Scenario.tiffSession) =
    Return "/tmp/letters-2026-11-03T06-21-00-123Z.pdf".
Proof.
  edestruct (combineSessionPages_tiff_converts_the_existing_files "letters"
               Scenario.tiffSession) as [_ H];
    [reflexivity | vm_compute; reflexivity | vm_compute; discriminate |].
  destruct H as [Hlog Hres]; [vm_compute; discriminate|].
  split.
  - rewrite Hlog. vm_compute. reflexivity.
  - vm_compute in Hres |- *. exact Hres.
Defined.
